(** * fszn: contract status, finance summary, audit log and file policy

  A shallow embedding of the core of the [fszn] Flask application:

  - [Contracts]      : [fszn/contracts.py] ([log_operation],
                       [get_contract_status], the delete views);
  - [FinanceService] : [fszn/services/finance_service.py];
  - [TaskService]    : [fszn/services/task_service.py];
  - [FileService]    : [fszn/services/file_service.py].

  Python values are modelled as follows.  Primary keys and foreign keys are
  [Z]; a nullable column is an [option]; a [str] is the [string] of its
  UTF-8 bytes, and the methods of [str] that look at characters ([strip],
  [lower], [len], slicing) work on the code points those bytes stand for
  ([Unicode]); a [Numeric] amount ([decimal.Decimal]) is the number of
  hundredths it stands for, a [Z], and every addition and subtraction of
  amounts is rounded as the default context of [decimal] does ([Dec]); a
  table is the list of its rows in the order the store yields them.  The
  SQLAlchemy session is a working copy of the store next to the committed
  one, and a view is a function on that pair which either returns or
  raises. *)

From Stdlib Require Import ZArith List String Ascii Bool Lia DecimalString.
From Stdlib Require Import Permutation.
Import ListNotations.

Local Open Scope string_scope.
Local Open Scope Z_scope.

(** ** Unicode text *)

Module Unicode.

(** A [str] is carried as its UTF-8 bytes; the methods of [str] that look at
    characters work on its code points. *)
Definition byte (c : ascii) : Z := Z.of_N (N_of_ascii c).

Definition chr (n : Z) : ascii := ascii_of_N (Z.to_N (n mod 256)).

(** The six payload bits of a continuation byte. *)
Definition payload (c : ascii) : Z := byte c mod 64.

(** The code points of a text.  The first byte of a character tells how many
    bytes it has; a sequence that is cut short, which the UTF-8 bytes of a
    [str] never hold, is read byte by byte. *)
Fixpoint decode (s : string) : list Z :=
  match s with
  | EmptyString => []
  | String a r =>
      let b := byte a in
      if b <? 192 then b :: decode r
      else if b <? 224 then
        match r with
        | String a1 r1 => ((b mod 32) * 64 + payload a1) :: decode r1
        | _ => b :: decode r
        end
      else if b <? 240 then
        match r with
        | String a1 (String a2 r2) =>
            (((b mod 16) * 64 + payload a1) * 64 + payload a2) :: decode r2
        | _ => b :: decode r
        end
      else
        match r with
        | String a1 (String a2 (String a3 r3)) =>
            ((((b mod 8) * 64 + payload a1) * 64 + payload a2) * 64 + payload a3)
            :: decode r3
        | _ => b :: decode r
        end
  end.

Definition encode_point (c : Z) : string :=
  if c <? 128 then String (chr c) EmptyString
  else if c <? 2048 then
    String (chr (192 + c / 64)) (String (chr (128 + c mod 64)) EmptyString)
  else if c <? 65536 then
    String (chr (224 + c / 4096))
      (String (chr (128 + (c / 64) mod 64))
         (String (chr (128 + c mod 64)) EmptyString))
  else
    String (chr (240 + c / 262144))
      (String (chr (128 + (c / 4096) mod 64))
         (String (chr (128 + (c / 64) mod 64))
            (String (chr (128 + c mod 64)) EmptyString))).

Fixpoint encode (points : list Z) : string :=
  match points with
  | [] => EmptyString
  | c :: r => encode_point c ++ encode r
  end.

Definition in_ranges (c : Z) (ranges : list (Z * Z)) : bool :=
  List.existsb (fun r => (fst r <=? c) && (c <=? snd r)) ranges.

(** The four tables below are those of the Unicode character database,
    version 14.0, which CPython 3.11 is built with. *)

(** The characters [str.strip()] removes ([Py_UNICODE_ISSPACE]): the ASCII
    ones (9..13, 28..32) and the white space of the other scripts, among
    them U+0085, U+00A0 and U+3000. *)
Definition white_space_ranges : list (Z * Z) :=
  [(9, 13); (28, 32); (133, 133); (160, 160); (5760, 5760); (8192, 8202);
   (8232, 8233); (8239, 8239); (8287, 8287); (12288, 12288)].

(** The characters with a lower-case form of one character: runs
    [(first, last, step, offset)], every [step]-th character from [first] to
    [last] having the character [offset] further as its lower-case form. *)
Definition lower_case_runs : list (Z * Z * Z * Z) :=
  [(65, 90, 1, 32); (192, 214, 1, 32); (216, 222, 1, 32); (256, 302, 2, 1);
   (306, 310, 2, 1); (313, 327, 2, 1); (330, 374, 2, 1); (376, 376, 1, -121);
   (377, 381, 2, 1); (385, 385, 1, 210); (386, 388, 2, 1); (390, 390, 1, 206);
   (391, 391, 1, 1); (393, 394, 1, 205); (395, 395, 1, 1); (398, 398, 1, 79);
   (399, 399, 1, 202); (400, 400, 1, 203); (401, 401, 1, 1);
   (403, 403, 1, 205); (404, 404, 1, 207); (406, 406, 1, 211);
   (407, 407, 1, 209); (408, 408, 1, 1); (412, 412, 1, 211);
   (413, 413, 1, 213); (415, 415, 1, 214); (416, 420, 2, 1);
   (422, 422, 1, 218); (423, 423, 1, 1); (425, 425, 1, 218); (428, 428, 1, 1);
   (430, 430, 1, 218); (431, 431, 1, 1); (433, 434, 1, 217); (435, 437, 2, 1);
   (439, 439, 1, 219); (440, 440, 1, 1); (444, 444, 1, 1); (452, 452, 1, 2);
   (453, 453, 1, 1); (455, 455, 1, 2); (456, 456, 1, 1); (458, 458, 1, 2);
   (459, 475, 2, 1); (478, 494, 2, 1); (497, 497, 1, 2); (498, 500, 2, 1);
   (502, 502, 1, -97); (503, 503, 1, -56); (504, 542, 2, 1);
   (544, 544, 1, -130); (546, 562, 2, 1); (570, 570, 1, 10795);
   (571, 571, 1, 1); (573, 573, 1, -163); (574, 574, 1, 10792);
   (577, 577, 1, 1); (579, 579, 1, -195); (580, 580, 1, 69);
   (581, 581, 1, 71); (582, 590, 2, 1); (880, 882, 2, 1); (886, 886, 1, 1);
   (895, 895, 1, 116); (902, 902, 1, 38); (904, 906, 1, 37);
   (908, 908, 1, 64); (910, 911, 1, 63); (913, 929, 1, 32); (932, 939, 1, 32);
   (975, 975, 1, 8); (984, 1006, 2, 1); (1012, 1012, 1, -60);
   (1015, 1015, 1, 1); (1017, 1017, 1, -7); (1018, 1018, 1, 1);
   (1021, 1023, 1, -130); (1024, 1039, 1, 80); (1040, 1071, 1, 32);
   (1120, 1152, 2, 1); (1162, 1214, 2, 1); (1216, 1216, 1, 15);
   (1217, 1229, 2, 1); (1232, 1326, 2, 1); (1329, 1366, 1, 48);
   (4256, 4293, 1, 7264); (4295, 4295, 1, 7264); (4301, 4301, 1, 7264);
   (5024, 5103, 1, 38864); (5104, 5109, 1, 8); (7312, 7354, 1, -3008);
   (7357, 7359, 1, -3008); (7680, 7828, 2, 1); (7838, 7838, 1, -7615);
   (7840, 7934, 2, 1); (7944, 7951, 1, -8); (7960, 7965, 1, -8);
   (7976, 7983, 1, -8); (7992, 7999, 1, -8); (8008, 8013, 1, -8);
   (8025, 8031, 2, -8); (8040, 8047, 1, -8); (8072, 8079, 1, -8);
   (8088, 8095, 1, -8); (8104, 8111, 1, -8); (8120, 8121, 1, -8);
   (8122, 8123, 1, -74); (8124, 8124, 1, -9); (8136, 8139, 1, -86);
   (8140, 8140, 1, -9); (8152, 8153, 1, -8); (8154, 8155, 1, -100);
   (8168, 8169, 1, -8); (8170, 8171, 1, -112); (8172, 8172, 1, -7);
   (8184, 8185, 1, -128); (8186, 8187, 1, -126); (8188, 8188, 1, -9);
   (8486, 8486, 1, -7517); (8490, 8490, 1, -8383); (8491, 8491, 1, -8262);
   (8498, 8498, 1, 28); (8544, 8559, 1, 16); (8579, 8579, 1, 1);
   (9398, 9423, 1, 26); (11264, 11311, 1, 48); (11360, 11360, 1, 1);
   (11362, 11362, 1, -10743); (11363, 11363, 1, -3814);
   (11364, 11364, 1, -10727); (11367, 11371, 2, 1); (11373, 11373, 1, -10780);
   (11374, 11374, 1, -10749); (11375, 11375, 1, -10783);
   (11376, 11376, 1, -10782); (11378, 11378, 1, 1); (11381, 11381, 1, 1);
   (11390, 11391, 1, -10815); (11392, 11490, 2, 1); (11499, 11501, 2, 1);
   (11506, 11506, 1, 1); (42560, 42604, 2, 1); (42624, 42650, 2, 1);
   (42786, 42798, 2, 1); (42802, 42862, 2, 1); (42873, 42875, 2, 1);
   (42877, 42877, 1, -35332); (42878, 42886, 2, 1); (42891, 42891, 1, 1);
   (42893, 42893, 1, -42280); (42896, 42898, 2, 1); (42902, 42920, 2, 1);
   (42922, 42922, 1, -42308); (42923, 42923, 1, -42319);
   (42924, 42924, 1, -42315); (42925, 42925, 1, -42305);
   (42926, 42926, 1, -42308); (42928, 42928, 1, -42258);
   (42929, 42929, 1, -42282); (42930, 42930, 1, -42261);
   (42931, 42931, 1, 928); (42932, 42946, 2, 1); (42948, 42948, 1, -48);
   (42949, 42949, 1, -42307); (42950, 42950, 1, -35384); (42951, 42953, 2, 1);
   (42960, 42960, 1, 1); (42966, 42968, 2, 1); (42997, 42997, 1, 1);
   (65313, 65338, 1, 32); (66560, 66599, 1, 40); (66736, 66771, 1, 40);
   (66928, 66938, 1, 39); (66940, 66954, 1, 39); (66956, 66962, 1, 39);
   (66964, 66965, 1, 39); (68736, 68786, 1, 64); (71840, 71871, 1, 32);
   (93760, 93791, 1, 32); (125184, 125217, 1, 34)].

(** The cased characters ([_PyUnicode_IsCased]). *)
Definition cased_ranges : list (Z * Z) :=
  [(65, 90); (97, 122); (170, 170); (181, 181); (186, 186); (192, 214);
   (216, 246); (248, 442); (444, 447); (452, 659); (661, 696); (704, 705);
   (736, 740); (837, 837); (880, 883); (886, 887); (890, 893); (895, 895);
   (902, 902); (904, 906); (908, 908); (910, 929); (931, 1013); (1015, 1153);
   (1162, 1327); (1329, 1366); (1376, 1416); (4256, 4293); (4295, 4295);
   (4301, 4301); (4304, 4346); (4349, 4351); (5024, 5109); (5112, 5117);
   (7296, 7304); (7312, 7354); (7357, 7359); (7424, 7615); (7680, 7957);
   (7960, 7965); (7968, 8005); (8008, 8013); (8016, 8023); (8025, 8025);
   (8027, 8027); (8029, 8029); (8031, 8061); (8064, 8116); (8118, 8124);
   (8126, 8126); (8130, 8132); (8134, 8140); (8144, 8147); (8150, 8155);
   (8160, 8172); (8178, 8180); (8182, 8188); (8305, 8305); (8319, 8319);
   (8336, 8348); (8450, 8450); (8455, 8455); (8458, 8467); (8469, 8469);
   (8473, 8477); (8484, 8484); (8486, 8486); (8488, 8488); (8490, 8493);
   (8495, 8500); (8505, 8505); (8508, 8511); (8517, 8521); (8526, 8526);
   (8544, 8575); (8579, 8580); (9398, 9449); (11264, 11492); (11499, 11502);
   (11506, 11507); (11520, 11557); (11559, 11559); (11565, 11565);
   (42560, 42605); (42624, 42653); (42786, 42887); (42891, 42894);
   (42896, 42954); (42960, 42961); (42963, 42963); (42965, 42969);
   (42997, 42998); (43000, 43002); (43824, 43866); (43868, 43880);
   (43888, 43967); (64256, 64262); (64275, 64279); (65313, 65338);
   (65345, 65370); (66560, 66639); (66736, 66771); (66776, 66811);
   (66928, 66938); (66940, 66954); (66956, 66962); (66964, 66965);
   (66967, 66977); (66979, 66993); (66995, 67001); (67003, 67004);
   (67456, 67456); (67459, 67461); (67463, 67504); (67506, 67514);
   (68736, 68786); (68800, 68850); (71840, 71903); (93760, 93823);
   (119808, 119892); (119894, 119964); (119966, 119967); (119970, 119970);
   (119973, 119974); (119977, 119980); (119982, 119993); (119995, 119995);
   (119997, 120003); (120005, 120069); (120071, 120074); (120077, 120084);
   (120086, 120092); (120094, 120121); (120123, 120126); (120128, 120132);
   (120134, 120134); (120138, 120144); (120146, 120485); (120488, 120512);
   (120514, 120538); (120540, 120570); (120572, 120596); (120598, 120628);
   (120630, 120654); (120656, 120686); (120688, 120712); (120714, 120744);
   (120746, 120770); (120772, 120779); (122624, 122633); (122635, 122654);
   (125184, 125251); (127280, 127305); (127312, 127337); (127344, 127369)].

(** The characters that do not count when the neighbours of a capital sigma
    are looked at ([_PyUnicode_IsCaseIgnorable]). *)
Definition case_ignorable_ranges : list (Z * Z) :=
  [(39, 39); (46, 46); (58, 58); (94, 94); (96, 96); (168, 168); (173, 173);
   (175, 175); (180, 180); (183, 184); (688, 879); (884, 885); (890, 890);
   (900, 901); (903, 903); (1155, 1161); (1369, 1369); (1375, 1375);
   (1425, 1469); (1471, 1471); (1473, 1474); (1476, 1477); (1479, 1479);
   (1524, 1524); (1536, 1541); (1552, 1562); (1564, 1564); (1600, 1600);
   (1611, 1631); (1648, 1648); (1750, 1757); (1759, 1768); (1770, 1773);
   (1807, 1807); (1809, 1809); (1840, 1866); (1958, 1968); (2027, 2037);
   (2042, 2042); (2045, 2045); (2070, 2093); (2137, 2139); (2184, 2184);
   (2192, 2193); (2200, 2207); (2249, 2306); (2362, 2362); (2364, 2364);
   (2369, 2376); (2381, 2381); (2385, 2391); (2402, 2403); (2417, 2417);
   (2433, 2433); (2492, 2492); (2497, 2500); (2509, 2509); (2530, 2531);
   (2558, 2558); (2561, 2562); (2620, 2620); (2625, 2626); (2631, 2632);
   (2635, 2637); (2641, 2641); (2672, 2673); (2677, 2677); (2689, 2690);
   (2748, 2748); (2753, 2757); (2759, 2760); (2765, 2765); (2786, 2787);
   (2810, 2815); (2817, 2817); (2876, 2876); (2879, 2879); (2881, 2884);
   (2893, 2893); (2901, 2902); (2914, 2915); (2946, 2946); (3008, 3008);
   (3021, 3021); (3072, 3072); (3076, 3076); (3132, 3132); (3134, 3136);
   (3142, 3144); (3146, 3149); (3157, 3158); (3170, 3171); (3201, 3201);
   (3260, 3260); (3263, 3263); (3270, 3270); (3276, 3277); (3298, 3299);
   (3328, 3329); (3387, 3388); (3393, 3396); (3405, 3405); (3426, 3427);
   (3457, 3457); (3530, 3530); (3538, 3540); (3542, 3542); (3633, 3633);
   (3636, 3642); (3654, 3662); (3761, 3761); (3764, 3772); (3782, 3782);
   (3784, 3789); (3864, 3865); (3893, 3893); (3895, 3895); (3897, 3897);
   (3953, 3966); (3968, 3972); (3974, 3975); (3981, 3991); (3993, 4028);
   (4038, 4038); (4141, 4144); (4146, 4151); (4153, 4154); (4157, 4158);
   (4184, 4185); (4190, 4192); (4209, 4212); (4226, 4226); (4229, 4230);
   (4237, 4237); (4253, 4253); (4348, 4348); (4957, 4959); (5906, 5908);
   (5938, 5939); (5970, 5971); (6002, 6003); (6068, 6069); (6071, 6077);
   (6086, 6086); (6089, 6099); (6103, 6103); (6109, 6109); (6155, 6159);
   (6211, 6211); (6277, 6278); (6313, 6313); (6432, 6434); (6439, 6440);
   (6450, 6450); (6457, 6459); (6679, 6680); (6683, 6683); (6742, 6742);
   (6744, 6750); (6752, 6752); (6754, 6754); (6757, 6764); (6771, 6780);
   (6783, 6783); (6823, 6823); (6832, 6862); (6912, 6915); (6964, 6964);
   (6966, 6970); (6972, 6972); (6978, 6978); (7019, 7027); (7040, 7041);
   (7074, 7077); (7080, 7081); (7083, 7085); (7142, 7142); (7144, 7145);
   (7149, 7149); (7151, 7153); (7212, 7219); (7222, 7223); (7288, 7293);
   (7376, 7378); (7380, 7392); (7394, 7400); (7405, 7405); (7412, 7412);
   (7416, 7417); (7468, 7530); (7544, 7544); (7579, 7679); (8125, 8125);
   (8127, 8129); (8141, 8143); (8157, 8159); (8173, 8175); (8189, 8190);
   (8203, 8207); (8216, 8217); (8228, 8228); (8231, 8231); (8234, 8238);
   (8288, 8292); (8294, 8303); (8305, 8305); (8319, 8319); (8336, 8348);
   (8400, 8432); (11388, 11389); (11503, 11505); (11631, 11631);
   (11647, 11647); (11744, 11775); (11823, 11823); (12293, 12293);
   (12330, 12333); (12337, 12341); (12347, 12347); (12441, 12446);
   (12540, 12542); (40981, 40981); (42232, 42237); (42508, 42508);
   (42607, 42610); (42612, 42621); (42623, 42623); (42652, 42655);
   (42736, 42737); (42752, 42785); (42864, 42864); (42888, 42890);
   (42994, 42996); (43000, 43001); (43010, 43010); (43014, 43014);
   (43019, 43019); (43045, 43046); (43052, 43052); (43204, 43205);
   (43232, 43249); (43263, 43263); (43302, 43309); (43335, 43345);
   (43392, 43394); (43443, 43443); (43446, 43449); (43452, 43453);
   (43471, 43471); (43493, 43494); (43561, 43566); (43569, 43570);
   (43573, 43574); (43587, 43587); (43596, 43596); (43632, 43632);
   (43644, 43644); (43696, 43696); (43698, 43700); (43703, 43704);
   (43710, 43711); (43713, 43713); (43741, 43741); (43756, 43757);
   (43763, 43764); (43766, 43766); (43867, 43871); (43881, 43883);
   (44005, 44005); (44008, 44008); (44013, 44013); (64286, 64286);
   (64434, 64450); (65024, 65039); (65043, 65043); (65056, 65071);
   (65106, 65106); (65109, 65109); (65279, 65279); (65287, 65287);
   (65294, 65294); (65306, 65306); (65342, 65342); (65344, 65344);
   (65392, 65392); (65438, 65439); (65507, 65507); (65529, 65531);
   (66045, 66045); (66272, 66272); (66422, 66426); (67456, 67461);
   (67463, 67504); (67506, 67514); (68097, 68099); (68101, 68102);
   (68108, 68111); (68152, 68154); (68159, 68159); (68325, 68326);
   (68900, 68903); (69291, 69292); (69446, 69456); (69506, 69509);
   (69633, 69633); (69688, 69702); (69744, 69744); (69747, 69748);
   (69759, 69761); (69811, 69814); (69817, 69818); (69821, 69821);
   (69826, 69826); (69837, 69837); (69888, 69890); (69927, 69931);
   (69933, 69940); (70003, 70003); (70016, 70017); (70070, 70078);
   (70089, 70092); (70095, 70095); (70191, 70193); (70196, 70196);
   (70198, 70199); (70206, 70206); (70367, 70367); (70371, 70378);
   (70400, 70401); (70459, 70460); (70464, 70464); (70502, 70508);
   (70512, 70516); (70712, 70719); (70722, 70724); (70726, 70726);
   (70750, 70750); (70835, 70840); (70842, 70842); (70847, 70848);
   (70850, 70851); (71090, 71093); (71100, 71101); (71103, 71104);
   (71132, 71133); (71219, 71226); (71229, 71229); (71231, 71232);
   (71339, 71339); (71341, 71341); (71344, 71349); (71351, 71351);
   (71453, 71455); (71458, 71461); (71463, 71467); (71727, 71735);
   (71737, 71738); (71995, 71996); (71998, 71998); (72003, 72003);
   (72148, 72151); (72154, 72155); (72160, 72160); (72193, 72202);
   (72243, 72248); (72251, 72254); (72263, 72263); (72273, 72278);
   (72281, 72283); (72330, 72342); (72344, 72345); (72752, 72758);
   (72760, 72765); (72767, 72767); (72850, 72871); (72874, 72880);
   (72882, 72883); (72885, 72886); (73009, 73014); (73018, 73018);
   (73020, 73021); (73023, 73029); (73031, 73031); (73104, 73105);
   (73109, 73109); (73111, 73111); (73459, 73460); (78896, 78904);
   (92912, 92916); (92976, 92982); (92992, 92995); (94031, 94031);
   (94095, 94111); (94176, 94177); (94179, 94180); (110576, 110579);
   (110581, 110587); (110589, 110590); (113821, 113822); (113824, 113827);
   (118528, 118573); (118576, 118598); (119143, 119145); (119155, 119170);
   (119173, 119179); (119210, 119213); (119362, 119364); (121344, 121398);
   (121403, 121452); (121461, 121461); (121476, 121476); (121499, 121503);
   (121505, 121519); (122880, 122886); (122888, 122904); (122907, 122913);
   (122915, 122916); (122918, 122922); (123184, 123197); (123566, 123566);
   (123628, 123631); (125136, 125142); (125252, 125259); (127995, 127999);
   (917505, 917505); (917536, 917631); (917760, 917999)].

Definition is_space (c : Z) : bool := in_ranges c white_space_ranges.

Definition is_cased (c : Z) : bool := in_ranges c cased_ranges.

Definition is_case_ignorable (c : Z) : bool := in_ranges c case_ignorable_ranges.

(** [_PyUnicode_ToLowerFull]: the lower-case form of one character; the
    capital I with a dot above (U+0130) is the one character with a form of
    two characters. *)
Definition to_lower_full (c : Z) : list Z :=
  if c =? 304 then [105; 775]
  else
    match
      List.find
        (fun run =>
           let '(first, last, step, _) := run in
           (first <=? c) && (c <=? last) && ((c - first) mod step =? 0))
        lower_case_runs
    with
    | Some (_, _, _, offset) => [c + offset]
    | None => [c]
    end.

Fixpoint skip_case_ignorable (points : list Z) : list Z :=
  match points with
  | [] => []
  | c :: r => if is_case_ignorable c then skip_case_ignorable r else points
  end.

(** [handle_capital_sigma]: a capital sigma (U+03A3) becomes a final sigma
    when a cased character comes before it and none comes after it, the
    case-ignorable characters in between not counting.  [before] holds the
    characters before the sigma, the nearest first. *)
Definition final_sigma (before after : list Z) : bool :=
  match skip_case_ignorable before with
  | c :: _ =>
      is_cased c
      && match skip_case_ignorable after with
         | [] => true
         | d :: _ => negb (is_cased d)
         end
  | [] => false
  end.

Fixpoint lower_from (before points : list Z) : list Z :=
  match points with
  | [] => []
  | c :: r =>
      (if c =? 931
       then [if final_sigma before r then 962 else 963]
       else to_lower_full c)
      ++ lower_from (c :: before) r
  end.

Fixpoint lstrip (points : list Z) : list Z :=
  match points with
  | [] => []
  | c :: r => if is_space c then lstrip r else points
  end.

Definition strip (points : list Z) : list Z :=
  List.rev (lstrip (List.rev (lstrip points))).

End Unicode.

(** ** Python built-ins used by the source *)

Module Py.

(** [bool(s)] for [s : str | None]: [None] and the empty string are falsy. *)
Definition truthy_str (s : option string) : bool :=
  match s with
  | None => false
  | Some EmptyString => false
  | Some (String _ _) => true
  end.

(** [s or d] for [s : str | None]. *)
Definition or_str (s : option string) (d : string) : string :=
  match s with
  | Some (String a r) => String a r
  | _ => d
  end.

(** [bool(n)] for [n : int | None]. *)
Definition truthy_int (n : option Z) : bool :=
  match n with
  | None => false
  | Some z => negb (z =? 0)
  end.

(** [s.strip()]: the white space at both ends goes. *)
Definition strip (s : string) : string :=
  Unicode.encode (Unicode.strip (Unicode.decode s)).

(** [s.lower()] *)
Definition lower (s : string) : string :=
  Unicode.encode (Unicode.lower_from [] (Unicode.decode s)).

(** In UTF-8 the bytes of a character after its first are those from 128 to
    191, so the characters of a text are counted by their first bytes. *)
Definition is_continuation (c : ascii) : bool :=
  (128 <=? Unicode.byte c) && (Unicode.byte c <? 192).

(** [len(s)] *)
Fixpoint len (s : string) : nat :=
  match s with
  | EmptyString => O
  | String c r => if is_continuation c then len r else S (len r)
  end.

(** [s[:n]]: the first [n] characters, each with all its bytes. *)
Fixpoint prefix (n : nat) (s : string) : string :=
  match s with
  | EmptyString => EmptyString
  | String c r =>
      if is_continuation c then String c (prefix n r)
      else
        match n with
        | O => EmptyString
        | S m => String c (prefix m r)
        end
  end.

(** [x in (a, b, ...)] on strings. *)
Fixpoint str_in (x : string) (l : list string) : bool :=
  match l with
  | [] => false
  | y :: r => String.eqb x y || str_in x r
  end.

(** [a == b] on [str | None]. *)
Definition opt_str_eqb (a b : option string) : bool :=
  match a, b with
  | None, None => true
  | Some x, Some y => String.eqb x y
  | _, _ => false
  end.

(** [a == b] on [int | None]. *)
Definition opt_int_eqb (a b : option Z) : bool :=
  match a, b with
  | None, None => true
  | Some x, Some y => x =? y
  | _, _ => false
  end.

(** [Query.count()]: the number of rows a filter keeps. *)
Definition count {A : Type} (keep : A -> bool) (rows : list A) : Z :=
  Z.of_nat (List.length (List.filter keep rows)).

End Py.

(** ** The rows of [fszn/models.py] that the core reads *)

(** [decimal.Decimal] at the two places of a money column: hundredths. *)
Definition Decimal := Z.

(** The arithmetic of [decimal] in its default context: 28 significant
    digits, [ROUND_HALF_EVEN], exponents up to [Emax], [Overflow] trapped.
    The amounts are finite: [NaN] and [Infinity] are no values of a money
    column. *)
Module Dec.

(** The signal that the default context turns into an exception. *)
Inductive Signal := Overflow.

Definition prec : Z := 28.

Definition Emax : Z := 999999.

(** The number of decimal digits of a positive integer. *)
Fixpoint count_digits (fuel : nat) (n : Z) : Z :=
  match fuel with
  | O => 1
  | S f => if n <? 10 then 1 else 1 + count_digits f (n / 10)
  end.

Definition digits (n : Z) : Z := count_digits (Z.to_nat (Z.log2 n)) n.

(** [ROUND_HALF_EVEN]: [n >= 0] rounded to a multiple of [10 ^ k], a tie
    going to the even multiple. *)
Definition round_half_even (n k : Z) : Z :=
  let unit := 10 ^ k in
  let q := n / unit in
  let r := n mod unit in
  if (unit <? 2 * r) || ((unit =? 2 * r) && Z.odd q)
  then (q + 1) * unit
  else q * unit.

(** What the context makes of the exact result of an operation: a number of
    up to [prec] digits is kept, a longer one is rounded to [prec]
    significant digits, and a rounded result of [10 ^ (Emax + 1)] units or
    more, which has more than [Emax + 3] digits in hundredths, raises
    [Overflow]. *)
Definition finish (v : Z) : Signal + Decimal :=
  let n := Z.abs v in
  if n <? 10 ^ prec then inr v
  else
    let rounded := round_half_even n (digits n - prec) in
    if Emax + 3 <? digits rounded then inl Overflow
    else inr (Z.sgn v * rounded).

(** [a + b] and [a - b] *)
Definition add (a b : Decimal) : Signal + Decimal := finish (a + b).

Definition sub (a b : Decimal) : Signal + Decimal := finish (a - b).

Definition bind {A B : Type} (c : Signal + A) (k : A -> Signal + B)
  : Signal + B :=
  match c with
  | inl e => inl e
  | inr a => k a
  end.

End Dec.

Declare Scope dec_scope.
Delimit Scope dec_scope with dec.

Notation "x <- c ;; k" := (Dec.bind c (fun x => k))
  (at level 61, c at next level, right associativity) : dec_scope.

(** [datetime.date], carried as the text [date.isoformat()] gives. *)
Definition date := string.

Module User.
Record t := mk { id : Z; username : string; role : option string }.
End User.

Module Contract.
Record t := mk {
  id : Z;
  name : option string;
  project_code : option string;
  contract_number : option string }.
End Contract.

Module Task.
Record t := mk { id : Z; contract_id : Z; title : string; status : option string }.
End Task.

Module ProjectDepartmentLeader.
Record t := mk { id : Z; contract_id : Z; department_id : Z; person_id : Z }.
End ProjectDepartmentLeader.

Module ProcurementItem.
Record t := mk { id : Z; contract_id : Z; item_name : string }.
End ProcurementItem.

Module Acceptance.
Record t := mk {
  id : Z; contract_id : Z; stage_name : option string; status : option string }.
End Acceptance.

Module Payment.
Record t := mk {
  id : Z; contract_id : Z; amount : option Decimal; date : option date }.
End Payment.

Module Invoice.
Record t := mk {
  id : Z; contract_id : Z; invoice_number : option string;
  amount : option Decimal; date : option date }.
End Invoice.

Module Refund.
Record t := mk {
  id : Z; contract_id : Z; amount : option Decimal; date : option date;
  reason : option string }.
End Refund.

Module Feedback.
Record t := mk { id : Z; contract_id : Z; is_resolved : bool }.
End Feedback.

Module SalesInfo.
Record t := mk { id : Z; contract_id : Z; quote_amount : option Decimal }.
End SalesInfo.

Module ProjectFile.
Record t := mk {
  id : Z;
  contract_id : Z;
  uploader_id : option Z;
  file_type : string;
  version : string;
  original_filename : string;
  stored_filename : string;
  is_public : bool;
  owner_role : option string;
  is_deleted : bool }.
End ProjectFile.

Module OperationLog.
(** The columns [log_operation] fills; the key and the timestamp are given
    by the store when the row is flushed. *)
Record t := mk {
  user_id : option Z;
  action : string;
  target_type : option string;
  target_id : option Z;
  message : option string;
  extra_data : option string }.
End OperationLog.

(** The persistent store: one list of rows per table. *)
Record Store := mkStore {
  users : list User.t;
  contracts : list Contract.t;
  tasks : list Task.t;
  leaders : list ProjectDepartmentLeader.t;
  procurement_items : list ProcurementItem.t;
  acceptances : list Acceptance.t;
  payments : list Payment.t;
  invoices : list Invoice.t;
  refunds : list Refund.t;
  feedbacks : list Feedback.t;
  sales_infos : list SalesInfo.t;
  project_files : list ProjectFile.t;
  operation_logs : list OperationLog.t }.

Definition empty_store : Store :=
  mkStore [] [] [] [] [] [] [] [] [] [] [] [] [].

(** Replacing one table of the store. *)
Definition with_tasks (s : Store) (t : list Task.t) : Store :=
  mkStore (users s) (contracts s) t (leaders s) (procurement_items s)
    (acceptances s) (payments s) (invoices s) (refunds s) (feedbacks s)
    (sales_infos s) (project_files s) (operation_logs s).

Definition with_leaders (s : Store) (t : list ProjectDepartmentLeader.t) : Store :=
  mkStore (users s) (contracts s) (tasks s) t (procurement_items s)
    (acceptances s) (payments s) (invoices s) (refunds s) (feedbacks s)
    (sales_infos s) (project_files s) (operation_logs s).

Definition with_procurement_items (s : Store) (t : list ProcurementItem.t) : Store :=
  mkStore (users s) (contracts s) (tasks s) (leaders s) t
    (acceptances s) (payments s) (invoices s) (refunds s) (feedbacks s)
    (sales_infos s) (project_files s) (operation_logs s).

Definition with_payments (s : Store) (t : list Payment.t) : Store :=
  mkStore (users s) (contracts s) (tasks s) (leaders s) (procurement_items s)
    (acceptances s) t (invoices s) (refunds s) (feedbacks s)
    (sales_infos s) (project_files s) (operation_logs s).

Definition with_invoices (s : Store) (t : list Invoice.t) : Store :=
  mkStore (users s) (contracts s) (tasks s) (leaders s) (procurement_items s)
    (acceptances s) (payments s) t (refunds s) (feedbacks s)
    (sales_infos s) (project_files s) (operation_logs s).

Definition with_refunds (s : Store) (t : list Refund.t) : Store :=
  mkStore (users s) (contracts s) (tasks s) (leaders s) (procurement_items s)
    (acceptances s) (payments s) (invoices s) t (feedbacks s)
    (sales_infos s) (project_files s) (operation_logs s).

Definition with_sales_infos (s : Store) (t : list SalesInfo.t) : Store :=
  mkStore (users s) (contracts s) (tasks s) (leaders s) (procurement_items s)
    (acceptances s) (payments s) (invoices s) (refunds s) (feedbacks s)
    t (project_files s) (operation_logs s).

Definition with_operation_logs (s : Store) (t : list OperationLog.t) : Store :=
  mkStore (users s) (contracts s) (tasks s) (leaders s) (procurement_items s)
    (acceptances s) (payments s) (invoices s) (refunds s) (feedbacks s)
    (sales_infos s) (project_files s) t.

(** ** Python objects, exceptions and [json.dumps] *)

Module Json.

(** The exceptions the modelled code can meet. *)
Inductive Exn :=
| NotFound                  (* werkzeug's 404, from [get_or_404] / [first_or_404] *)
| NameError (name : string) (* a name that is bound nowhere *)
| TypeError (what : string) (* [json.dumps] on an object it cannot encode *).

#[local] Set Warnings "-register-all".

(** The values that reach [log_operation] as [extra], and the objects
    [json.dumps] refuses ([Decimal], [date], model instances, ...).  A float
    is carried as the text [float.__repr__] gives: [nan], [inf] and [-inf]
    for the three that are not finite. *)
Inductive PyVal :=
| PNone
| PBool (b : bool)
| PInt (z : Z)
| PFloat (repr : string)
| PStr (s : string)
| PList (items : list PyVal)
| PDict (items : list (string * PyVal))
| PObj (type_name : string).

Definition dquote : string := String (ascii_of_nat 34) EmptyString.
Definition backslash : string := String (ascii_of_nat 92) EmptyString.

Definition hex_digit (n : nat) : ascii :=
  if (n <? 10)%nat then ascii_of_nat (48 + n) else ascii_of_nat (87 + n).

(** One character of a JSON string with [ensure_ascii=False]: the quote, the
    backslash and the control characters are escaped, all else is copied. *)
Definition escape_char (c : ascii) : string :=
  let n := nat_of_ascii c in
  if (n =? 34)%nat then backslash ++ dquote
  else if (n =? 92)%nat then backslash ++ backslash
  else if (n =? 10)%nat then backslash ++ "n"
  else if (n =? 13)%nat then backslash ++ "r"
  else if (n =? 9)%nat then backslash ++ "t"
  else if (n =? 8)%nat then backslash ++ "b"
  else if (n =? 12)%nat then backslash ++ "f"
  else if (n <? 32)%nat then
    backslash ++ "u00" ++
    String (hex_digit (n / 16)) (String (hex_digit (n mod 16)) EmptyString)
  else String c EmptyString.

Fixpoint escape (s : string) : string :=
  match s with
  | EmptyString => EmptyString
  | String c r => escape_char c ++ escape r
  end.

Definition encode_str (s : string) : string := dquote ++ escape s ++ dquote.

Definition str_int (z : Z) : string := NilZero.string_of_int (Z.to_int z).

(** [floatstr] of the encoder: a finite float is written as its [repr], the
    others as [NaN], [Infinity] and [-Infinity]. *)
Definition floatstr (repr : string) : string :=
  if String.eqb repr "nan" then "NaN"
  else if String.eqb repr "inf" then "Infinity"
  else if String.eqb repr "-inf" then "-Infinity"
  else repr.

(** [json.dumps(v, ensure_ascii=False)]: the text, or the exception raised.
    Items are joined with a comma and a space, keys and values with a colon
    and a space, as the default separators do.  The limit that the
    interpreter puts on the depth of the nesting is not modelled. *)
Fixpoint dumps (v : PyVal) : Exn + string :=
  match v with
  | PNone => inr "null"
  | PBool true => inr "true"
  | PBool false => inr "false"
  | PInt z => inr (str_int z)
  | PFloat repr => inr (floatstr repr)
  | PStr s => inr (encode_str s)
  | PList items =>
      let fix go (l : list PyVal) : Exn + string :=
        match l with
        | [] => inr ""
        | x :: r =>
            match dumps x with
            | inl e => inl e
            | inr a =>
                match r with
                | [] => inr a
                | _ :: _ =>
                    match go r with
                    | inl e => inl e
                    | inr b => inr (a ++ ", " ++ b)
                    end
                end
            end
        end in
      match go items with
      | inl e => inl e
      | inr body => inr ("[" ++ body ++ "]")
      end
  | PDict items =>
      let fix go (l : list (string * PyVal)) : Exn + string :=
        match l with
        | [] => inr ""
        | (k, x) :: r =>
            match dumps x with
            | inl e => inl e
            | inr a =>
                match r with
                | [] => inr (encode_str k ++ ": " ++ a)
                | _ :: _ =>
                    match go r with
                    | inl e => inl e
                    | inr b => inr (encode_str k ++ ": " ++ a ++ ", " ++ b)
                    end
                end
            end
        end in
      match go items with
      | inl e => inl e
      | inr body => inr ("{" ++ body ++ "}")
      end
  | PObj type_name => inl (TypeError type_name)
  end.

(** [x if x else None] and friends, as dictionary values. *)
Definition of_opt_str (s : option string) : PyVal :=
  match s with Some x => PStr x | None => PNone end.

Definition of_opt_int (n : option Z) : PyVal :=
  match n with Some x => PInt x | None => PNone end.

(** [str(d)] for a [Decimal] with two places, [None] printing as itself. *)
Definition pad2 (z : Z) : string :=
  if z <? 10 then "0" ++ str_int z else str_int z.

Definition str_Decimal (d : option Decimal) : string :=
  match d with
  | None => "None"
  | Some z =>
      (if z <? 0 then "-" else "") ++
      str_int (Z.abs z / 100) ++ "." ++ pad2 (Z.abs z mod 100)
  end.

End Json.

(** ** Flask views over a SQLAlchemy session *)

Module Flask.

Import Json.

(** What a view hands back: only redirects occur in the modelled views. *)
Inductive Response :=
| Redirect (endpoint : string) (contract_id : option Z).

(** The world a view runs in: the committed store, the session's working
    copy (what queries see and what [commit] writes), the [user_id] entry of
    the Flask session ([None] when the key is absent) and the messages
    flashed so far. *)
Record World := mkWorld {
  committed : Store;
  working : Store;
  session_user_id : option Z;
  flashes : list string }.

Inductive Outcome (A : Type) :=
| Returned (a : A)
| Raised (e : Exn).

Arguments Returned {A} a.
Arguments Raised {A} e.

Definition View (A : Type) : Type := World -> Outcome A * World.

Definition ret {A : Type} (a : A) : View A := fun w => (Returned a, w).

Definition raise {A : Type} (e : Exn) : View A := fun w => (Raised e, w).

Definition bind {A B : Type} (c : View A) (k : A -> View B) : View B :=
  fun w =>
    match c w with
    | (Returned a, w') => k a w'
    | (Raised e, w') => (Raised e, w')
    end.

Declare Scope view_scope.
Delimit Scope view_scope with view.

Notation "x <- c ;; k" := (bind c (fun x => k))
  (at level 61, c at next level, right associativity) : view_scope.
Notation "c ;; k" := (bind c (fun _ => k))
  (at level 61, right associativity) : view_scope.

Local Open Scope view_scope.

Definition on_working (f : Store -> Store) : View unit :=
  fun w =>
    (Returned tt,
     mkWorld (committed w) (f (working w)) (session_user_id w) (flashes w)).

(** [Model.query.filter_by(...).first()] *)
Definition first {A : Type} (table : Store -> list A) (keep : A -> bool)
  : View (option A) :=
  fun w => (Returned (List.find keep (table (working w))), w).

(** [Model.query.filter_by(...).first_or_404()] *)
Definition first_or_404 {A : Type} (table : Store -> list A) (keep : A -> bool)
  : View A :=
  row <- first table keep ;;
  match row with
  | Some r => ret r
  | None => raise NotFound
  end.

(** [Contract.query.get_or_404(contract_id)] *)
Definition get_or_404 (contract_id : Z) : View Contract.t :=
  first_or_404 contracts (fun c => Contract.id c =? contract_id).

(** [session.get('user_id')] *)
Definition session_get_user_id : View (option Z) :=
  fun w => (Returned (session_user_id w), w).

(** [User.query.get(user_id) if user_id else None] *)
Definition current_user : View (option User.t) :=
  user_id <- session_get_user_id ;;
  match user_id with
  | Some uid =>
      if Py.truthy_int (Some uid)
      then first users (fun u => User.id u =? uid)
      else ret None
  | None => ret None
  end.

(** [db.session.add(log)] for an [OperationLog] row. *)
Definition session_add_log (log : OperationLog.t) : View unit :=
  on_working (fun s => with_operation_logs s (operation_logs s ++ [log])).

(** [db.session.delete(row)], one definition per table: the row with that
    primary key leaves the working copy. *)
Definition session_delete_task (t : Task.t) : View unit :=
  on_working (fun s =>
    with_tasks s (List.filter (fun r => negb (Task.id r =? Task.id t)) (tasks s))).

Definition session_delete_leader (l : ProjectDepartmentLeader.t) : View unit :=
  on_working (fun s =>
    with_leaders s
      (List.filter
         (fun r => negb (ProjectDepartmentLeader.id r =? ProjectDepartmentLeader.id l))
         (leaders s))).

Definition session_delete_procurement (i : ProcurementItem.t) : View unit :=
  on_working (fun s =>
    with_procurement_items s
      (List.filter (fun r => negb (ProcurementItem.id r =? ProcurementItem.id i))
         (procurement_items s))).

Definition session_delete_payment (p : Payment.t) : View unit :=
  on_working (fun s =>
    with_payments s
      (List.filter (fun r => negb (Payment.id r =? Payment.id p)) (payments s))).

Definition session_delete_invoice (i : Invoice.t) : View unit :=
  on_working (fun s =>
    with_invoices s
      (List.filter (fun r => negb (Invoice.id r =? Invoice.id i)) (invoices s))).

Definition session_delete_refund (r0 : Refund.t) : View unit :=
  on_working (fun s =>
    with_refunds s
      (List.filter (fun r => negb (Refund.id r =? Refund.id r0)) (refunds s))).

Definition session_delete_sales (x : SalesInfo.t) : View unit :=
  on_working (fun s =>
    with_sales_infos s
      (List.filter (fun r => negb (SalesInfo.id r =? SalesInfo.id x))
         (sales_infos s))).

(** [db.session.commit()] *)
Definition session_commit : View unit :=
  fun w =>
    (Returned tt,
     mkWorld (working w) (working w) (session_user_id w) (flashes w)).

(** [flash(msg)] *)
Definition flash (msg : string) : View unit :=
  fun w =>
    (Returned tt,
     mkWorld (committed w) (working w) (session_user_id w) (flashes w ++ [msg])).

(** [redirect(url_for(endpoint, contract_id=...))] *)
Definition redirect (endpoint : string) (contract_id : option Z) : View Response :=
  ret (Redirect endpoint contract_id).

(** Reading a name that no scope binds. *)
Definition unbound_name {A : Type} (name : string) : View A :=
  raise (NameError name).

(** One request: the session starts from the committed store; whatever the
    view did not commit is dropped when the request ends, also when the view
    raised. *)
Definition serve (view : View Response) (user_id : option Z) (db : Store)
  : Outcome Response * Store :=
  let '(r, w) := view (mkWorld db db user_id []) in
  (r, committed w).

End Flask.

(** ** [fszn/contracts.py] *)

Module Contracts.

Import Json Flask.
Local Open Scope view_scope.

(** [log_operation]: one [OperationLog] row is added to the session; nothing
    is committed here.  The [try]/[except Exception] around [json.dumps]
    turns a failure into an absent payload. *)
Definition log_operation (user : option User.t) (action : string)
  (target_type : option string) (target_id : option Z)
  (message : option string) (extra : option (list (string * PyVal)))
  : View unit :=
  let extra_data :=
    match extra with
    | Some (item :: rest) =>
        match dumps (PDict (item :: rest)) with
        | inr text => Some text
        | inl _ => None
        end
    | _ => None
    end in
  let log :=
    OperationLog.mk
      (match user with Some u => Some (User.id u) | None => None end)
      action target_type target_id message extra_data in
  session_add_log log.

(** The [return] statements of [get_contract_status], in source order. *)
Inductive ReturnSite :=
| Rule1 | Rule2 | Rule3 | Rule4 | Rule5 | Fallback.

(** The chain of [if]s of [get_contract_status] over its six flags. *)
Definition return_site
  (has_tasks has_payments has_invoices has_acceptance has_accepted
   has_unresolved_feedback : bool) : ReturnSite :=
  if negb has_tasks && negb has_acceptance && negb has_payments
     && negb has_invoices then Rule1
  else if negb has_accepted then Rule2
  else if has_accepted && negb has_payments then Rule3
  else if has_accepted && has_payments && has_unresolved_feedback then Rule4
  else if has_accepted && has_payments && negb has_unresolved_feedback then Rule5
  else Fallback.

(** What each [return] statement returns: the label and the colour. *)
Definition returned (r : ReturnSite) : string * string :=
  match r with
  | Rule1 => ("未启动", "grey")
  | Rule2 => ("生产中", "blue")
  | Rule3 => ("已验收，待回款", "orange")
  | Rule4 => ("已回款，有未解决问题", "red")
  | Rule5 => ("已完成", "green")
  | Fallback => ("生产中", "blue")
  end.

Definition has_tasks (db : Store) (cid : Z) : bool :=
  0 <? Py.count (fun t => Task.contract_id t =? cid) (tasks db).

Definition has_payments (db : Store) (cid : Z) : bool :=
  0 <? Py.count (fun p => Payment.contract_id p =? cid) (payments db).

Definition has_invoices (db : Store) (cid : Z) : bool :=
  0 <? Py.count (fun i => Invoice.contract_id i =? cid) (invoices db).

Definition has_acceptance (db : Store) (cid : Z) : bool :=
  0 <? Py.count (fun a => Acceptance.contract_id a =? cid) (acceptances db).

Definition has_accepted (db : Store) (cid : Z) : bool :=
  0 <? Py.count
         (fun a => Py.opt_str_eqb (Acceptance.status a) (Some "通过"))
         (List.filter (fun a => Acceptance.contract_id a =? cid) (acceptances db)).

Definition has_unresolved_feedback (db : Store) (cid : Z) : bool :=
  0 <? Py.count
         (fun f => (Feedback.contract_id f =? cid) && negb (Feedback.is_resolved f))
         (feedbacks db).

Definition status_site (db : Store) (contract : Contract.t) : ReturnSite :=
  let cid := Contract.id contract in
  return_site (has_tasks db cid) (has_payments db cid) (has_invoices db cid)
    (has_acceptance db cid) (has_accepted db cid)
    (has_unresolved_feedback db cid).

Definition get_contract_status (db : Store) (contract : Contract.t)
  : string * string :=
  returned (status_site db contract).

(** [login_required]: without a [user_id] in the Flask session the view is
    not run. *)
Definition login_required (view : View Response) : View Response :=
  fun w =>
    match session_user_id w with
    | None => (flash "请先登录" ;; redirect "auth.login" None) w
    | Some _ => view w
    end.

Definition delete_leader (contract_id leader_id : Z) : View Response :=
  login_required (
    contract <- get_or_404 contract_id ;;
    leader <- first_or_404 leaders
                (fun l => (ProjectDepartmentLeader.id l =? leader_id)
                          && (ProjectDepartmentLeader.contract_id l
                              =? Contract.id contract)) ;;
    session_delete_leader leader ;;
    session_commit ;;
    flash "该负责人已移除" ;;
    redirect "contracts.manage_leaders" (Some (Contract.id contract))).

Definition delete_task (contract_id task_id : Z) : View Response :=
  login_required (
    contract <- get_or_404 contract_id ;;
    task <- first_or_404 tasks
              (fun t => (Task.id t =? task_id)
                        && (Task.contract_id t =? Contract.id contract)) ;;
    session_delete_task task ;;
    session_commit ;;
    flash "任务已删除" ;;
    redirect "contracts.manage_tasks" (Some (Contract.id contract))).

(** [user] is read in the call to [log_operation] but bound nowhere in the
    function or the module. *)
Definition delete_procurement (contract_id item_id : Z) : View Response :=
  login_required (
    contract <- get_or_404 contract_id ;;
    item <- first_or_404 procurement_items
              (fun i => (ProcurementItem.id i =? item_id)
                        && (ProcurementItem.contract_id i =? Contract.id contract)) ;;
    user <- unbound_name "user" ;;
    log_operation user "procurement.delete" (Some "ProcurementItem")
      (Some (ProcurementItem.id item))
      (Some ("删除采购项：" ++ ProcurementItem.item_name item))
      (Some [("contract_id", PInt (Contract.id contract));
             ("project_code", of_opt_str (Contract.project_code contract))]) ;;
    session_delete_procurement item ;;
    session_commit ;;
    flash "采购项已删除" ;;
    redirect "contracts.manage_procurements" (Some (Contract.id contract))).

Definition delete_sales (contract_id : Z) : View Response :=
  login_required (
    contract <- get_or_404 contract_id ;;
    sales <- first sales_infos
               (fun s => SalesInfo.contract_id s =? Contract.id contract) ;;
    match sales with
    | None =>
        flash "当前项目没有销售信息可删除" ;;
        redirect "contracts.manage_sales" (Some (Contract.id contract))
    | Some sales =>
        user <- unbound_name "user" ;;
        log_operation user "sales.delete" (Some "SalesInfo")
          (Some (SalesInfo.id sales))
          (Some "删除销售信息")
          (Some [("contract_id", PInt (Contract.id contract));
                 ("project_code", of_opt_str (Contract.project_code contract));
                 ("contract_number",
                  of_opt_str (Contract.contract_number contract))]) ;;
        session_delete_sales sales ;;
        session_commit ;;
        flash "销售信息已删除" ;;
        redirect "contracts.manage_sales" (Some (Contract.id contract))
    end).

Definition delete_payment (contract_id pay_id : Z) : View Response :=
  login_required (
    user <- current_user ;;
    contract <- get_or_404 contract_id ;;
    p <- first_or_404 payments
           (fun p => (Payment.id p =? pay_id)
                     && (Payment.contract_id p =? Contract.id contract)) ;;
    log_operation user "payment.delete" (Some "Payment")
      (Some (Payment.id p))
      (Some ("删除付款记录：金额=" ++ str_Decimal (Payment.amount p)))
      (Some [("contract_id", PInt (Contract.id contract));
             ("date", of_opt_str (Payment.date p))]) ;;
    session_delete_payment p ;;
    session_commit ;;
    flash "付款记录已删除" ;;
    redirect "contracts.manage_payments" (Some (Contract.id contract))).

End Contracts.

(** ** [fszn/services/finance_service.py] *)

Module FinanceService.

Import Json Flask.
Local Open Scope view_scope.

(** [ZERO = Decimal('0.00')] *)
Definition ZERO : Decimal := 0.

(** [amount or ZERO]: an absent amount and a zero amount both give [ZERO]. *)
Definition or_ZERO (amount : option Decimal) : Decimal :=
  match amount with
  | Some a => if a =? 0 then ZERO else a
  | None => ZERO
  end.

(** [sum(...)]: starts from 0 and adds from the left, every addition being
    one of [decimal]. *)
Fixpoint sum_from (acc : Decimal) (xs : list Decimal) : Dec.Signal + Decimal :=
  match xs with
  | [] => inr acc
  | x :: rest => (acc' <- Dec.add acc x ;; sum_from acc' rest)%dec
  end.

Definition sum (xs : list Decimal) : Dec.Signal + Decimal := sum_from 0 xs.

Record Summary := mkSummary {
  quote_amount : option Decimal;
  paid_total : Decimal;
  refund_total : Decimal;
  net_received : Decimal;
  invoiced_total : Decimal;
  receivable_remaining : option Decimal;
  invoice_remaining : option Decimal }.

(** The relationships [contract.payments], [contract.refunds] and
    [contract.invoices]: the rows whose foreign key is the contract's key. *)
Definition contract_payments (db : Store) (contract : Contract.t) : list Payment.t :=
  List.filter (fun p => Payment.contract_id p =? Contract.id contract) (payments db).

Definition contract_refunds (db : Store) (contract : Contract.t) : list Refund.t :=
  List.filter (fun r => Refund.contract_id r =? Contract.id contract) (refunds db).

Definition contract_invoices (db : Store) (contract : Contract.t) : list Invoice.t :=
  List.filter (fun i => Invoice.contract_id i =? Contract.id contract) (invoices db).

(** The summary, or the [Overflow] that one of its sums or differences
    raised. *)
Definition get_contract_finance_summary (db : Store) (contract : Contract.t)
  (sales : option SalesInfo.t) : Dec.Signal + Summary :=
  let sales :=
    match sales with
    | None =>
        List.find (fun s => SalesInfo.contract_id s =? Contract.id contract)
          (sales_infos db)
    | Some s => Some s
    end in
  let quote_amount :=
    match sales with
    | Some s =>
        match SalesInfo.quote_amount s with
        | Some q => Some q
        | None => None
        end
    | None => None
    end in
  (paid_total <-
     sum (List.map (fun p => or_ZERO (Payment.amount p))
            (contract_payments db contract)) ;;
   refund_total <-
     sum (List.map (fun r => or_ZERO (Refund.amount r))
            (contract_refunds db contract)) ;;
   net_received <- Dec.sub paid_total refund_total ;;
   invoiced_total <-
     sum (List.map (fun i => or_ZERO (Invoice.amount i))
            (contract_invoices db contract)) ;;
   match quote_amount with
   | Some q =>
       receivable_remaining <- Dec.sub q net_received ;;
       invoice_remaining <- Dec.sub q invoiced_total ;;
       inr (mkSummary quote_amount paid_total refund_total net_received
              invoiced_total (Some receivable_remaining) (Some invoice_remaining))
   | None =>
       inr (mkSummary quote_amount paid_total refund_total net_received
              invoiced_total None None)
   end)%dec.

(** The record services below read [Payment], [Invoice], [Refund] and [db],
    but the module imports [Contract] and [SalesInfo] only and binds none of
    the four: the first of them a call reads is a name without binding. *)
Definition delete_payment (contract : Contract.t) (pay_id : Z) : View Payment.t :=
  unbound_name (A := unit) "Payment" ;;
  p <- first_or_404 payments
         (fun p => (Payment.id p =? pay_id)
                   && (Payment.contract_id p =? Contract.id contract)) ;;
  unbound_name (A := unit) "db" ;;
  session_delete_payment p ;;
  ret p.

Definition delete_invoice (contract : Contract.t) (inv_id : Z) : View Invoice.t :=
  unbound_name (A := unit) "Invoice" ;;
  inv <- first_or_404 invoices
           (fun i => (Invoice.id i =? inv_id)
                     && (Invoice.contract_id i =? Contract.id contract)) ;;
  unbound_name (A := unit) "db" ;;
  session_delete_invoice inv ;;
  ret inv.

Definition delete_refund (contract : Contract.t) (refund_id : Z) : View Refund.t :=
  unbound_name (A := unit) "Refund" ;;
  refund <- first_or_404 refunds
              (fun r => (Refund.id r =? refund_id)
                        && (Refund.contract_id r =? Contract.id contract)) ;;
  unbound_name (A := unit) "db" ;;
  session_delete_refund refund ;;
  ret refund.

End FinanceService.

(** ** [fszn/services/task_service.py] *)

Module TaskService.

Import Flask.
Local Open Scope view_scope.

Definition delete_task (contract : Contract.t) (task_id : Z) : View Task.t :=
  task <- first_or_404 tasks
            (fun t => (Task.id t =? task_id)
                      && (Task.contract_id t =? Contract.id contract)) ;;
  session_delete_task task ;;
  ret task.

End TaskService.

(** ** [fszn/services/file_service.py] *)

Module FileService.

Import Json.

(** The dictionary both evaluations return. *)
Record Decision := mkDecision {
  allowed : bool;
  flash_message : option string;
  log_action : string;
  log_message : string;
  log_extra : list (string * PyVal) }.

(** [_get_role]: the role in lower case without surrounding blanks, the
    empty string when there is no user or no role. *)
Definition _get_role (user : option User.t) : string :=
  match user with
  | Some u =>
      if Py.truthy_str (User.role u)
      then Py.lower (Py.strip (Py.or_str (User.role u) ""))
      else ""
  | None => ""
  end.

(** [user.role if user and user.role else None] *)
Definition user_role_or_None (user : option User.t) : PyVal :=
  match user with
  | Some u => if Py.truthy_str (User.role u) then of_opt_str (User.role u) else PNone
  | None => PNone
  end.

Definition evaluate_file_download (user : option User.t)
  (contract : Contract.t) (pf : ProjectFile.t) : Decision :=
  let role := _get_role user in
  let allowed := true in
  let flash_message : option string := None in
  let log_action := "file.download" in
  let log_message := "下载文件：" ++ ProjectFile.original_filename pf in
  let log_extra :=
    [("contract_id", PInt (Contract.id contract));
     ("file_type", PStr (ProjectFile.file_type pf));
     ("version", PStr (ProjectFile.version pf));
     ("is_public", PBool (ProjectFile.is_public pf))] in
  if Py.str_in role ["admin"; "boss"; "software_engineer"] then
    mkDecision true None log_action log_message log_extra
  else if String.eqb role "customer" then
    if negb (ProjectFile.is_public pf
             && Py.str_in (ProjectFile.file_type pf) ["contract"; "tech"])
    then
      mkDecision false (Some "你没有权限下载此文件") "file.download_denied"
        "客户尝试下载未公开文件"
        [("contract_id", PInt (Contract.id contract));
         ("file_type", PStr (ProjectFile.file_type pf));
         ("is_public", PBool (ProjectFile.is_public pf))]
    else mkDecision allowed flash_message log_action log_message log_extra
  else
    if Py.truthy_str (ProjectFile.owner_role pf)
       && match user with
          | Some u => negb (Py.opt_str_eqb (ProjectFile.owner_role pf) (User.role u))
          | None => false
          end
    then
      mkDecision false (Some "你只能下载自己部门上传的文件") "file.download_denied"
        "员工尝试下载非本部门文件"
        [("contract_id", PInt (Contract.id contract));
         ("file_type", PStr (ProjectFile.file_type pf));
         ("owner_role", of_opt_str (ProjectFile.owner_role pf));
         ("user_role", user_role_or_None user)]
    else mkDecision allowed flash_message log_action log_message log_extra.

Definition evaluate_file_delete (user : option User.t)
  (contract : Contract.t) (pf : ProjectFile.t) : Decision :=
  let role := _get_role user in
  let allowed := true in
  let flash_message : option string := None in
  let log_action := "file.delete_soft" in
  let log_message := "软删除文件：" ++ ProjectFile.original_filename pf in
  let log_extra :=
    [("contract_id", PInt (Contract.id contract));
     ("stored_filename", PStr (ProjectFile.stored_filename pf));
     ("file_type", PStr (ProjectFile.file_type pf))] in
  if match user with
     | None => true
     | Some u =>
         negb (Py.opt_int_eqb (Some (User.id u)) (ProjectFile.uploader_id pf))
         && negb (Py.str_in role ["admin"; "boss"])
     end
  then
    mkDecision false (Some "你没有权限删除此文件") "file.delete_denied"
      "无权限删除文件"
      [("contract_id", PInt (Contract.id contract));
       ("stored_filename", PStr (ProjectFile.stored_filename pf));
       ("file_type", PStr (ProjectFile.file_type pf));
       ("uploader_id", of_opt_int (ProjectFile.uploader_id pf));
       ("user_id", match user with Some u => PInt (User.id u) | None => PNone end);
       ("user_role", user_role_or_None user)]
  else mkDecision allowed flash_message log_action log_message log_extra.

End FileService.

(** ** The specification's wording of the two derived views *)

Module Spec.

(** The five status labels of the status deriver. *)
Inductive Status :=
| NOT_STARTED
| IN_PRODUCTION
| ACCEPTED_AWAITING_PAYMENT
| PAID_WITH_OPEN_ISSUES
| COMPLETE.

Definition label_and_tier (s : Status) : string * string :=
  match s with
  | NOT_STARTED => ("未启动", "grey")
  | IN_PRODUCTION => ("生产中", "blue")
  | ACCEPTED_AWAITING_PAYMENT => ("已验收，待回款", "orange")
  | PAID_WITH_OPEN_ISSUES => ("已回款，有未解决问题", "red")
  | COMPLETE => ("已完成", "green")
  end.

(** The record counts the deriver is specified over. *)
Definition n_tasks (db : Store) (c : Contract.t) : nat :=
  List.length (List.filter (fun t => Task.contract_id t =? Contract.id c) (tasks db)).

Definition n_acceptances (db : Store) (c : Contract.t) : nat :=
  List.length
    (List.filter (fun a => Acceptance.contract_id a =? Contract.id c) (acceptances db)).

Definition n_passed (db : Store) (c : Contract.t) : nat :=
  List.length
    (List.filter
       (fun a => (Acceptance.contract_id a =? Contract.id c)
                 && Py.opt_str_eqb (Acceptance.status a) (Some "通过"))
       (acceptances db)).

Definition n_payments (db : Store) (c : Contract.t) : nat :=
  List.length
    (List.filter (fun p => Payment.contract_id p =? Contract.id c) (payments db)).

Definition n_invoices (db : Store) (c : Contract.t) : nat :=
  List.length
    (List.filter (fun i => Invoice.contract_id i =? Contract.id c) (invoices db)).

Definition n_unresolved (db : Store) (c : Contract.t) : nat :=
  List.length
    (List.filter
       (fun f => (Feedback.contract_id f =? Contract.id c)
                 && negb (Feedback.is_resolved f))
       (feedbacks db)).

(** The ordered rules, first match wins. *)
Definition derive_status (db : Store) (c : Contract.t) : Status :=
  if ((n_tasks db c =? 0) && (n_acceptances db c =? 0)
      && (n_payments db c =? 0) && (n_invoices db c =? 0))%nat
  then NOT_STARTED
  else if (n_passed db c =? 0)%nat then IN_PRODUCTION
  else if (n_payments db c =? 0)%nat then ACCEPTED_AWAITING_PAYMENT
  else if (0 <? n_unresolved db c)%nat then PAID_WITH_OPEN_ISSUES
  else COMPLETE.

(** A sum of amounts in which an absent amount counts as zero. *)
Fixpoint total (amounts : list (option Decimal)) : Decimal :=
  match amounts with
  | [] => 0
  | None :: rest => total rest
  | Some a :: rest => a + total rest
  end.

(** The quote amount of a contract: that of the [SalesInfo] handed in, else
    that of the contract's stored [SalesInfo], absent when there is none. *)
Definition quote (db : Store) (c : Contract.t) (sales : option SalesInfo.t)
  : option Decimal :=
  match sales with
  | Some s => SalesInfo.quote_amount s
  | None =>
      match List.find (fun s => SalesInfo.contract_id s =? Contract.id c)
              (sales_infos db) with
      | Some s => SalesInfo.quote_amount s
      | None => None
      end
  end.

(** The size of a list of amounts: their magnitudes added up. *)
Fixpoint magnitude (amounts : list (option Decimal)) : Z :=
  match amounts with
  | [] => 0
  | None :: rest => magnitude rest
  | Some a :: rest => Z.abs a + magnitude rest
  end.

(** The amounts of a contract are within the precision of the decimal
    context when the magnitudes of its payments, its refunds, its invoices
    and its quote add up to less than [10 ^ 28] hundredths: no sum and no
    difference of them needs more than 28 digits then. *)
Definition within_precision (db : Store) (c : Contract.t)
  (sales : option SalesInfo.t) : Prop :=
  magnitude (List.map Payment.amount (FinanceService.contract_payments db c))
  + magnitude (List.map Refund.amount (FinanceService.contract_refunds db c))
  + magnitude (List.map Invoice.amount (FinanceService.contract_invoices db c))
  + magnitude [quote db c sales]
  < 10 ^ Dec.prec.

(** The role the access rules of the file policy go by: the role as stored
    without the white space around it and in lower case, the empty text for
    a user without role. *)
Definition normalised_role (stored : option string) : string :=
  match stored with
  | Some (String a r) => Py.lower (Py.strip (String a r))
  | _ => ""
  end.

(** The download rules in the words of the specification, [role] being the
    role of the user: the first rule that applies decides. *)
Definition download_allowed (role : string) (pf : ProjectFile.t) : bool :=
  if Py.str_in role ["admin"; "boss"; "software_engineer"] then true
  else if String.eqb role "customer" then
    ProjectFile.is_public pf
    && Py.str_in (ProjectFile.file_type pf) ["contract"; "tech"]
  else
    negb (Py.truthy_str (ProjectFile.owner_role pf))
    || Py.opt_str_eqb (ProjectFile.owner_role pf) (Some role).

End Spec.

(** ** Sample data *)

Module Sample.

Definition alice : User.t := User.mk 1 "alice" (Some "sales").
Definition carol : User.t := User.mk 2 "carol" (Some "customer").
Definition root : User.t := User.mk 3 "root" (Some " Admin ").

Definition contract1 : Contract.t :=
  Contract.mk 1 (Some "Line A") (Some "P-001") (Some "C-001").

Definition task5 : Task.t := Task.mk 5 1 "wiring" (Some "未开始").
Definition leader3 : ProjectDepartmentLeader.t := ProjectDepartmentLeader.mk 3 1 2 4.
Definition item7 : ProcurementItem.t := ProcurementItem.mk 7 1 "motor".
Definition payment9 : Payment.t := Payment.mk 9 1 (Some 25075) (Some "2024-05-01").
Definition sales2 : SalesInfo.t := SalesInfo.mk 2 1 (Some 100000).

Definition drawing : ProjectFile.t :=
  ProjectFile.mk 11 1 (Some 1) "drawing" "V1" "frame.pdf" "ACME_P-001_frame.pdf"
    false (Some "mechanical_engineer") false.

(** One contract with a task, a leader, a procurement item, a payment and
    its sales information; the log is empty. *)
Definition db : Store :=
  mkStore [alice; carol; root] [contract1] [task5] [leader3] [item7] []
    [payment9] [] [] [] [sales2] [] [].

(** The same contract without sales information. *)
Definition db_without_sales : Store := with_sales_infos db [].

(** Payments of 100.00 and 50.50 and a refund of 10.00 on contract 1, the
    quote being 1000.00. *)
Definition db_finance : Store :=
  mkStore [alice] [contract1] [] [] [] []
    [Payment.mk 1 1 (Some 10000) None; Payment.mk 2 1 (Some 5050) None;
     Payment.mk 3 8 (Some 77700) None; Payment.mk 4 1 None None]
    []
    [Refund.mk 1 1 (Some 1000) None None]
    [] [sales2] [] [].

(** Contract 1 at the later stages of its life: a passed acceptance and no
    payment; then a payment and an open feedback; then the feedback resolved. *)
Definition passed : Acceptance.t := Acceptance.mk 1 1 (Some "final") (Some "通过").
Definition failed : Acceptance.t := Acceptance.mk 2 1 (Some "first") (Some "不通过").

Definition db_accepted : Store :=
  mkStore [alice] [contract1] [task5] [] [] [failed; passed] [] [] [] [] [] [] [].

Definition db_paid_open : Store :=
  mkStore [alice] [contract1] [task5] [] [] [failed; passed] [payment9] [] []
    [Feedback.mk 1 1 true; Feedback.mk 2 1 false] [] [] [].

Definition db_complete : Store :=
  mkStore [alice] [contract1] [task5] [] [] [failed; passed] [payment9] [] []
    [Feedback.mk 1 1 true; Feedback.mk 2 8 false] [] [] [].

End Sample.

(** ** More of [fszn/contracts.py]: file names and upload rules *)

Definition with_contracts (s : Store) (t : list Contract.t) : Store :=
  mkStore (users s) t (tasks s) (leaders s) (procurement_items s)
    (acceptances s) (payments s) (invoices s) (refunds s) (feedbacks s)
    (sales_infos s) (project_files s) (operation_logs s).

Definition with_acceptances (s : Store) (t : list Acceptance.t) : Store :=
  mkStore (users s) (contracts s) (tasks s) (leaders s) (procurement_items s)
    t (payments s) (invoices s) (refunds s) (feedbacks s)
    (sales_infos s) (project_files s) (operation_logs s).

Definition with_feedbacks (s : Store) (t : list Feedback.t) : Store :=
  mkStore (users s) (contracts s) (tasks s) (leaders s) (procurement_items s)
    (acceptances s) (payments s) (invoices s) (refunds s) t
    (sales_infos s) (project_files s) (operation_logs s).

Definition with_project_files (s : Store) (t : list ProjectFile.t) : Store :=
  mkStore (users s) (contracts s) (tasks s) (leaders s) (procurement_items s)
    (acceptances s) (payments s) (invoices s) (refunds s) (feedbacks s)
    (sales_infos s) t (operation_logs s).

Module Files.

(** [ch in text] for one character. *)
Fixpoint has_char (ch : ascii) (text : string) : bool :=
  match text with
  | EmptyString => false
  | String c r => Ascii.eqb c ch || has_char ch r
  end.

Definition dot : ascii := "."%char.

(** [text.rsplit('.', 1)]: the text cut at its last dot, or the text alone
    when it has none. *)
Fixpoint rsplit_dot (text : string) : list string :=
  match text with
  | EmptyString => [EmptyString]
  | String c r =>
      match rsplit_dot r with
      | [a; b] => [String c a; b]
      | _ => if Ascii.eqb c dot then [EmptyString; r] else [String c r]
      end
  end.

Definition ALLOWED_EXTENSIONS : list string :=
  ["pdf"; "png"; "jpg"; "jpeg"; "doc"; "docx"; "xls"; "xlsx"].

(** [allowed_file]: the guard makes sure the split has a second part. *)
Definition allowed_file (filename : string) : bool :=
  if negb (Py.truthy_str (Some filename)) || negb (has_char dot filename)
  then false
  else
    let ext := Py.lower (List.nth 1 (rsplit_dot filename) EmptyString) in
    Py.str_in ext ALLOWED_EXTENSIONS.

Definition ALL_TYPES : list string :=
  ["contract"; "tech"; "drawing"; "invoice"; "ticket"].

Definition ROLE_ALLOWED_TYPES : list (string * list string) :=
  [("admin", ["contract"; "tech"; "drawing"; "invoice"; "ticket"]);
   ("boss", ["contract"; "tech"; "drawing"; "invoice"; "ticket"]);
   ("software_engineer", ["drawing"; "tech"]);
   ("mechanical_engineer", ["drawing"; "tech"]);
   ("electrical_engineer", ["drawing"; "tech"]);
   ("sales", ["contract"; "tech"; "ticket"]);
   ("finance", ["invoice"]);
   ("procurement", ["invoice"]);
   ("default", ["contract"; "tech"; "drawing"; "invoice"; "ticket"])].

(** [d.get(key)] on a dictionary with string keys. *)
Fixpoint dict_get {V : Type} (key : string) (d : list (string * V)) : option V :=
  match d with
  | [] => None
  | (k, v) :: r => if String.eqb key k then Some v else dict_get key r
  end.

(** [get_role_allowed_types]: the types a user may upload; a role without
    an entry gets the entry of ["default"]. *)
Definition get_role_allowed_types (user : option User.t) : list string :=
  let role :=
    match user with
    | Some u =>
        if Py.truthy_str (User.role u)
        then Py.lower (Py.strip (Py.or_str (User.role u) ""))
        else ""
    | None => ""
    end in
  match dict_get role ROLE_ALLOWED_TYPES with
  | Some types => types
  | None =>
      match dict_get "default" ROLE_ALLOWED_TYPES with
      | Some types => types
      | None => []
      end
  end.

(** [text.replace(ch, '')] and [text.replace(a, b)] for single characters. *)
Fixpoint remove_char (ch : ascii) (text : string) : string :=
  match text with
  | EmptyString => EmptyString
  | String c r => if Ascii.eqb c ch then remove_char ch r else String c (remove_char ch r)
  end.

Fixpoint replace_char (a b : ascii) (text : string) : string :=
  match text with
  | EmptyString => EmptyString
  | String c r => String (if Ascii.eqb c a then b else c) (replace_char a b r)
  end.

(** The characters [sanitize_part] drops: backslash, slash, colon, star,
    question mark, double quote, angle brackets and bar. *)
Definition invalid : string :=
  Json.backslash ++ "/:*?" ++ Json.dquote ++ "<>|".

(** [for ch in invalid: text = text.replace(ch, '')] *)
Fixpoint remove_each (chars : string) (text : string) : string :=
  match chars with
  | EmptyString => text
  | String ch r => remove_each r (remove_char ch text)
  end.

Definition sanitize_part (text : string) : string :=
  if negb (Py.truthy_str (Some text)) then ""
  else replace_char " "%char "_"%char (remove_each invalid text).

(** [generate_file_name].  The two values the function reads from outside
    its arguments are parameters here: [company_name] is
    [contract.company.name] ([None] without a company or a name) and
    [today_str] is [datetime.utcnow().strftime('%Y%m%d')].  The base is
    measured and cut in characters, not in bytes. *)
Definition generate_file_name (company_name : option string) (today_str : string)
  (contract : Contract.t) (file_type version author original_filename : string)
  : string :=
  let ext :=
    if has_char dot original_filename
    then "." ++ Py.lower (List.nth 1 (rsplit_dot original_filename) EmptyString)
    else "" in
  let company_name := sanitize_part (Py.or_str company_name "") in
  let project_code := sanitize_part (Py.or_str (Contract.project_code contract) "") in
  let contract_number :=
    sanitize_part (Py.or_str (Contract.contract_number contract) "") in
  let contract_name := sanitize_part (Py.or_str (Contract.name contract) "") in
  let file_type_part := sanitize_part file_type in
  let version_part := sanitize_part (Py.or_str (Some version) "V1") in
  let author_part := sanitize_part (Py.or_str (Some author) "unknown") in
  let parts :=
    [Py.or_str (Some company_name) "NoCompany";
     Py.or_str (Some project_code) "NoProject";
     Py.or_str (Some contract_number) "NoContractNo";
     Py.or_str (Some contract_name) "NoName";
     today_str;
     file_type_part;
     version_part;
     author_part] in
  let base := String.concat "_" parts in
  let base :=
    if (180 <? Py.len base)%nat then Py.prefix 180 base else base in
  base ++ ext.

(** Stating the safety of a name: the characters no sanitised part holds
    (the invalid ones and the space), and the names free of them. *)
Definition unsafe : string := invalid ++ " ".

Fixpoint clean (text : string) : bool :=
  match text with
  | EmptyString => true
  | String c r => negb (has_char c unsafe) && clean r
  end.

End Files.

(** ** More of [fszn/contracts.py]: the contract list and further views *)

Module Views.

Import Json Flask.
Local Open Scope view_scope.

(** [STATUS_FILTERS]: the URL value of a status and its label. *)
Definition STATUS_FILTERS : list (string * string) :=
  [("not_started", "未启动");
   ("in_production", "生产中");
   ("accepted_pending_payment", "已验收，待回款");
   ("paid_with_issues", "已回款，有未解决问题");
   ("finished", "已完成")].

(** [x in seen_ids] *)
Fixpoint id_in (x : Z) (seen_ids : list Z) : bool :=
  match seen_ids with
  | [] => false
  | y :: r => (x =? y) || id_in x r
  end.

(** Step 2 of [list_contracts]: the loop that keeps the first row of every
    contract id, [seen_ids] being the ids met so far. *)
Fixpoint unique_from (seen_ids : list Z) (contracts : list Contract.t)
  : list Contract.t :=
  match contracts with
  | [] => []
  | c :: rest =>
      if id_in (Contract.id c) seen_ids then unique_from seen_ids rest
      else c :: unique_from (Contract.id c :: seen_ids) rest
  end.

Definition unique_contracts (contracts : list Contract.t) : list Contract.t :=
  unique_from [] contracts.

(** Steps 4 and 5 of [list_contracts]: the status of every contract is
    computed, and when the [status] parameter names a label only the
    contracts with that label are kept. *)
Definition filter_by_status (db : Store) (status_param : string)
  (contracts : list Contract.t) : list Contract.t :=
  let status_filter_text :=
    if Py.truthy_str (Some status_param)
    then Files.dict_get status_param STATUS_FILTERS
    else None in
  if Py.truthy_str status_filter_text then
    List.filter
      (fun c =>
         Py.opt_str_eqb (Some (fst (Contracts.get_contract_status db c)))
           status_filter_text)
      contracts
  else contracts.

(** [Model.query.filter_by(contract_id=cid).delete(synchronize_session=False)],
    one definition per table. *)
Definition query_delete_tasks (cid : Z) : View unit :=
  on_working (fun s =>
    with_tasks s (List.filter (fun r => negb (Task.contract_id r =? cid)) (tasks s))).

Definition query_delete_procurement_items (cid : Z) : View unit :=
  on_working (fun s =>
    with_procurement_items s
      (List.filter (fun r => negb (ProcurementItem.contract_id r =? cid))
         (procurement_items s))).

Definition query_delete_acceptances (cid : Z) : View unit :=
  on_working (fun s =>
    with_acceptances s
      (List.filter (fun r => negb (Acceptance.contract_id r =? cid)) (acceptances s))).

Definition query_delete_payments (cid : Z) : View unit :=
  on_working (fun s =>
    with_payments s
      (List.filter (fun r => negb (Payment.contract_id r =? cid)) (payments s))).

Definition query_delete_invoices (cid : Z) : View unit :=
  on_working (fun s =>
    with_invoices s
      (List.filter (fun r => negb (Invoice.contract_id r =? cid)) (invoices s))).

Definition query_delete_refunds (cid : Z) : View unit :=
  on_working (fun s =>
    with_refunds s
      (List.filter (fun r => negb (Refund.contract_id r =? cid)) (refunds s))).

Definition query_delete_feedbacks (cid : Z) : View unit :=
  on_working (fun s =>
    with_feedbacks s
      (List.filter (fun r => negb (Feedback.contract_id r =? cid)) (feedbacks s))).

Definition query_delete_leaders (cid : Z) : View unit :=
  on_working (fun s =>
    with_leaders s
      (List.filter (fun r => negb (ProjectDepartmentLeader.contract_id r =? cid))
         (leaders s))).

Definition query_delete_sales_infos (cid : Z) : View unit :=
  on_working (fun s =>
    with_sales_infos s
      (List.filter (fun r => negb (SalesInfo.contract_id r =? cid)) (sales_infos s))).

Definition query_delete_project_files (cid : Z) : View unit :=
  on_working (fun s =>
    with_project_files s
      (List.filter (fun r => negb (ProjectFile.contract_id r =? cid))
         (project_files s))).

(** [db.session.delete(contract)] *)
Definition session_delete_contract (c : Contract.t) : View unit :=
  on_working (fun s =>
    with_contracts s
      (List.filter (fun r => negb (Contract.id r =? Contract.id c)) (contracts s))).

(** [pf.is_deleted = True] on a row of the session. *)
Definition mark_deleted (f : ProjectFile.t) : ProjectFile.t :=
  ProjectFile.mk (ProjectFile.id f) (ProjectFile.contract_id f)
    (ProjectFile.uploader_id f) (ProjectFile.file_type f) (ProjectFile.version f)
    (ProjectFile.original_filename f) (ProjectFile.stored_filename f)
    (ProjectFile.is_public f) (ProjectFile.owner_role f) true.

Definition session_mark_deleted (pf : ProjectFile.t) : View unit :=
  on_working (fun s =>
    with_project_files s
      (List.map
         (fun r => if ProjectFile.id r =? ProjectFile.id pf then mark_deleted r else r)
         (project_files s))).

(** [fb.is_resolved = flag] on a row of the session.  The completion time
    set next to it is a column the row model does not carry. *)
Definition session_set_resolved (fb : Feedback.t) (flag : bool) : View unit :=
  on_working (fun s =>
    with_feedbacks s
      (List.map
         (fun r =>
            if Feedback.id r =? Feedback.id fb
            then Feedback.mk (Feedback.id r) (Feedback.contract_id r) flag
            else r)
         (feedbacks s))).

Section Company.

(** [contract.company.name if contract.company else None]: the relationship
    to a table the store does not carry. *)
Variable company_name : Contract.t -> option string.

Definition delete_contract (contract_id : Z) : View Response :=
  Contracts.login_required (
    user <- current_user ;;
    contract <- get_or_404 contract_id ;;
    let cid := Contract.id contract in
    Contracts.log_operation user "contract.delete" (Some "Contract") (Some cid)
      (Some ("删除合同：" ++ Py.or_str (Contract.name contract) ""))
      (Some [("company", of_opt_str (company_name contract));
             ("project_code", of_opt_str (Contract.project_code contract));
             ("contract_number", of_opt_str (Contract.contract_number contract))]) ;;
    query_delete_tasks cid ;;
    query_delete_procurement_items cid ;;
    query_delete_acceptances cid ;;
    query_delete_payments cid ;;
    query_delete_invoices cid ;;
    query_delete_refunds cid ;;
    query_delete_feedbacks cid ;;
    query_delete_leaders cid ;;
    query_delete_sales_infos cid ;;
    query_delete_project_files cid ;;
    session_delete_contract contract ;;
    session_commit ;;
    flash "合同及相关记录已删除" ;;
    redirect "contracts.list_contracts" None).

End Company.

Definition resolve_feedback (contract_id feedback_id : Z) : View Response :=
  Contracts.login_required (
    user <- current_user ;;
    contract <- get_or_404 contract_id ;;
    fb <- first_or_404 feedbacks
            (fun f => (Feedback.id f =? feedback_id)
                      && (Feedback.contract_id f =? Contract.id contract)) ;;
    session_set_resolved fb true ;;
    Contracts.log_operation user "feedback.resolve" (Some "Feedback")
      (Some (Feedback.id fb)) (Some "标记反馈为已解决")
      (Some [("contract_id", PInt (Contract.id contract))]) ;;
    session_commit ;;
    flash "该反馈已标记为“已解决”。" ;;
    redirect "contracts.manage_feedbacks" (Some (Contract.id contract))).

Definition unresolve_feedback (contract_id feedback_id : Z) : View Response :=
  Contracts.login_required (
    user <- current_user ;;
    contract <- get_or_404 contract_id ;;
    fb <- first_or_404 feedbacks
            (fun f => (Feedback.id f =? feedback_id)
                      && (Feedback.contract_id f =? Contract.id contract)) ;;
    session_set_resolved fb false ;;
    Contracts.log_operation user "feedback.unresolve" (Some "Feedback")
      (Some (Feedback.id fb)) (Some "标记反馈为未解决")
      (Some [("contract_id", PInt (Contract.id contract))]) ;;
    session_commit ;;
    flash "该反馈已标记为“未解决”。" ;;
    redirect "contracts.manage_feedbacks" (Some (Contract.id contract))).

(** [delete_file]: the soft delete.  The permission test is written out in
    the view; a refusal flashes and redirects without a log row. *)
Definition delete_file (contract_id file_id : Z) : View Response :=
  Contracts.login_required (
    user <- current_user ;;
    contract <- get_or_404 contract_id ;;
    pf <- first_or_404 project_files
            (fun f => (ProjectFile.id f =? file_id)
                      && (ProjectFile.contract_id f =? Contract.id contract)
                      && negb (ProjectFile.is_deleted f)) ;;
    let role :=
      match user with
      | Some u =>
          if Py.truthy_str (User.role u)
          then Py.lower (Py.strip (Py.or_str (User.role u) ""))
          else ""
      | None => ""
      end in
    if match user with
       | None => true
       | Some u =>
           negb (Py.opt_int_eqb (Some (User.id u)) (ProjectFile.uploader_id pf))
           && negb (Py.str_in role ["admin"; "boss"])
       end
    then
      flash "你没有权限删除此文件" ;;
      redirect "contracts.manage_files" (Some (Contract.id contract))
    else
      session_mark_deleted pf ;;
      Contracts.log_operation user "file.delete_soft" (Some "ProjectFile")
        (Some (ProjectFile.id pf))
        (Some ("软删除文件：" ++ ProjectFile.original_filename pf))
        (Some [("contract_id", PInt (Contract.id contract));
               ("stored_filename", PStr (ProjectFile.stored_filename pf));
               ("file_type", PStr (ProjectFile.file_type pf))]) ;;
      session_commit ;;
      flash "文件已标记为删除（普通用户将无法再访问）" ;;
      redirect "contracts.manage_files" (Some (Contract.id contract))).

(** Stating what the views leave behind: the user a session stands for, and
    the store without a contract and the rows that point to it. *)
Definition lookup_user (uid : Z) (s : Store) : option User.t :=
  if Py.truthy_int (Some uid)
  then List.find (fun u => User.id u =? uid) (users s)
  else None.

Definition purge (cid : Z) (s : Store) : Store :=
  mkStore (users s)
    (List.filter (fun r => negb (Contract.id r =? cid)) (contracts s))
    (List.filter (fun r => negb (Task.contract_id r =? cid)) (tasks s))
    (List.filter (fun r => negb (ProjectDepartmentLeader.contract_id r =? cid))
       (leaders s))
    (List.filter (fun r => negb (ProcurementItem.contract_id r =? cid))
       (procurement_items s))
    (List.filter (fun r => negb (Acceptance.contract_id r =? cid)) (acceptances s))
    (List.filter (fun r => negb (Payment.contract_id r =? cid)) (payments s))
    (List.filter (fun r => negb (Invoice.contract_id r =? cid)) (invoices s))
    (List.filter (fun r => negb (Refund.contract_id r =? cid)) (refunds s))
    (List.filter (fun r => negb (Feedback.contract_id r =? cid)) (feedbacks s))
    (List.filter (fun r => negb (SalesInfo.contract_id r =? cid)) (sales_infos s))
    (List.filter (fun r => negb (ProjectFile.contract_id r =? cid))
       (project_files s))
    (operation_logs s).

End Views.

(** ** More sample data *)

Module Fixtures.

Definition acme (c : Contract.t) : option string := Some "ACME".

(** Contract 1 with a passed acceptance, a payment, one open feedback and
    the drawing alice uploaded. *)
Definition db_files : Store :=
  mkStore [Sample.alice; Sample.carol] [Sample.contract1] [Sample.task5] [] []
    [Sample.failed; Sample.passed] [Sample.payment9] [] []
    [Feedback.mk 1 1 true; Feedback.mk 2 1 false] [Sample.sales2]
    [Sample.drawing] [].

(** A user whose role is stored with a capital letter, and a file of the
    sales department. *)
Definition mia : User.t := User.mk 4 "mia" (Some "Sales").

Definition price_list : ProjectFile.t :=
  ProjectFile.mk 12 1 (Some 1) "contract" "V1" "prices.pdf"
    "ACME_P-001_prices.pdf" false (Some "sales") false.

(** A role stored between a no-break space (U+00A0) and an ideographic
    space (U+3000). *)
Definition no_break_space : string :=
  String (ascii_of_nat 194) (String (ascii_of_nat 160) EmptyString).

Definition ideographic_space : string :=
  String (ascii_of_nat 227)
    (String (ascii_of_nat 128) (String (ascii_of_nat 128) EmptyString)).

Definition nora : User.t :=
  User.mk 5 "nora" (Some (no_break_space ++ "Boss" ++ ideographic_space)).

(** Two contracts, each with rows of its own in every table: contract 1 is
    paid with an open feedback, contract 8 is complete. *)
Definition contract8 : Contract.t :=
  Contract.mk 8 (Some "Line B") (Some "P-008") None.

Definition db_two : Store :=
  mkStore [Sample.alice; Sample.carol] [Sample.contract1; contract8]
    [Sample.task5; Task.mk 6 8 "painting" None]
    [Sample.leader3; ProjectDepartmentLeader.mk 4 8 2 5]
    [Sample.item7; ProcurementItem.mk 8 8 "pump"]
    [Sample.failed; Sample.passed; Acceptance.mk 3 8 (Some "final") (Some "通过")]
    [Sample.payment9; Payment.mk 10 8 (Some 40000) None]
    [Invoice.mk 1 1 None (Some 25075) None; Invoice.mk 2 8 None (Some 10000) None]
    [Refund.mk 1 8 (Some 500) None None]
    [Feedback.mk 1 1 false; Feedback.mk 2 8 true]
    [Sample.sales2; SalesInfo.mk 3 8 (Some 90000)]
    [Sample.drawing;
     ProjectFile.mk 13 8 (Some 2) "tech" "V1" "manual.pdf" "ACME_P-008_manual.pdf"
       true None false]
    [].

(** The finance sample with an invoice of 120.00 next to its payments and
    its refund. *)
Definition db_ledger : Store :=
  with_invoices Sample.db_finance [Invoice.mk 1 1 (Some "INV-1") (Some 12000) None].

(** Amounts of 28 digits: two payments of 99999999999999999999999999.99, and
    one of them with two payments of 0.04 in both orders. *)
Definition huge : Decimal := 9999999999999999999999999999.

Definition db_huge : Store :=
  with_payments Sample.db
    [Payment.mk 1 1 (Some huge) None; Payment.mk 2 1 (Some huge) None].

Definition db_huge_first : Store :=
  with_payments Sample.db
    [Payment.mk 1 1 (Some huge) None; Payment.mk 2 1 (Some 4) None;
     Payment.mk 3 1 (Some 4) None].

Definition db_huge_last : Store :=
  with_payments Sample.db
    [Payment.mk 2 1 (Some 4) None; Payment.mk 3 1 (Some 4) None;
     Payment.mk 1 1 (Some huge) None].

End Fixtures.


(** * Properties *)

(** ** Python helpers *)

Lemma str_in_In x l : Py.str_in x l = true <-> In x l.
Proof.
  induction l as [|y r IH]; simpl.
  - split; [discriminate | tauto].
  - rewrite orb_true_iff, IH, String.eqb_eq. split; intros [H|H]; auto.
Qed.

Lemma opt_str_eqb_eq a b : Py.opt_str_eqb a b = true <-> a = b.
Proof.
  destruct a, b; simpl; try (split; congruence).
  rewrite String.eqb_eq. split; congruence.
Qed.

Lemma opt_int_eqb_eq a b : Py.opt_int_eqb a b = true <-> a = b.
Proof.
  destruct a, b; simpl; try (split; congruence).
  rewrite Z.eqb_eq. split; congruence.
Qed.

Lemma count_positive {A : Type} (keep : A -> bool) rows :
  (0 <? Py.count keep rows) = negb (List.length (List.filter keep rows) =? 0)%nat.
Proof.
  unfold Py.count. destruct (List.filter keep rows); reflexivity.
Qed.

Lemma filter_twice {A : Type} (f g : A -> bool) l :
  List.filter g (List.filter f l) = List.filter (fun x => f x && g x) l.
Proof.
  induction l as [|x l IH]; simpl; [reflexivity|].
  destruct (f x); simpl; [destruct (g x)|]; rewrite IH; reflexivity.
Qed.

Lemma find_none_iff {A : Type} (keep : A -> bool) l :
  List.find keep l = None <-> forall x, In x l -> keep x = false.
Proof.
  split.
  - apply List.find_none.
  - induction l as [|x l IH]; simpl; intros H; [reflexivity|].
    rewrite (H x (or_introl eq_refl)). apply IH. intros y Hy. apply H. now right.
Qed.

Lemma find_some_of_member {A : Type} (keep : A -> bool) l x :
  In x l -> keep x = true -> exists y, List.find keep l = Some y /\ keep y = true.
Proof.
  intros Hin Hk. destruct (List.find keep l) as [y|] eqn:E.
  - exists y. split; [reflexivity|]. now apply List.find_some in E.
  - rewrite (List.find_none _ _ E x Hin) in Hk. discriminate.
Qed.

(** ** Status deriver *)

Lemma flags_as_counts db c :
  Contracts.has_tasks db (Contract.id c) = negb (Spec.n_tasks db c =? 0)%nat /\
  Contracts.has_payments db (Contract.id c) = negb (Spec.n_payments db c =? 0)%nat /\
  Contracts.has_invoices db (Contract.id c) = negb (Spec.n_invoices db c =? 0)%nat /\
  Contracts.has_acceptance db (Contract.id c)
    = negb (Spec.n_acceptances db c =? 0)%nat /\
  Contracts.has_accepted db (Contract.id c) = negb (Spec.n_passed db c =? 0)%nat /\
  Contracts.has_unresolved_feedback db (Contract.id c)
    = (0 <? Spec.n_unresolved db c)%nat.
Proof.
  unfold Contracts.has_tasks, Contracts.has_payments, Contracts.has_invoices,
    Contracts.has_acceptance, Contracts.has_accepted,
    Contracts.has_unresolved_feedback.
  rewrite !count_positive.
  unfold Spec.n_tasks, Spec.n_payments, Spec.n_invoices, Spec.n_acceptances,
    Spec.n_passed, Spec.n_unresolved.
  rewrite filter_twice.
  repeat split.
  destruct (List.filter _ (feedbacks db)); reflexivity.
Qed.

(** C1. For every store and contract, [get_contract_status] returns the label
    and the tier of the first matching rule of the ordered algorithm: not
    started when the contract has no task, acceptance, payment or invoice;
    else in production when no acceptance is passed; else accepted and
    awaiting payment when there is no payment; else paid with open issues
    when a feedback is unresolved; else complete. *)
Theorem get_contract_status_first_match (db : Store) (c : Contract.t) :
  Contracts.get_contract_status db c
  = Spec.label_and_tier (Spec.derive_status db c).
Proof.
  unfold Contracts.get_contract_status, Contracts.status_site, Spec.derive_status.
  destruct (flags_as_counts db c) as (Ht & Hp & Hi & Ha & Hacc & Hf).
  rewrite Ht, Hp, Hi, Ha, Hacc, Hf.
  destruct (Spec.n_tasks db c =? 0)%nat, (Spec.n_acceptances db c =? 0)%nat,
    (Spec.n_payments db c =? 0)%nat, (Spec.n_invoices db c =? 0)%nat,
    (Spec.n_passed db c =? 0)%nat, (0 <? Spec.n_unresolved db c)%nat;
    reflexivity.
Qed.

(** The five labels on the sample contract. *)
Example status_samples :
  Contracts.get_contract_status empty_store Sample.contract1 = ("未启动", "grey") /\
  Contracts.get_contract_status Sample.db Sample.contract1 = ("生产中", "blue") /\
  Contracts.get_contract_status Sample.db_accepted Sample.contract1
  = ("已验收，待回款", "orange") /\
  Contracts.get_contract_status Sample.db_paid_open Sample.contract1
  = ("已回款，有未解决问题", "red") /\
  Contracts.get_contract_status Sample.db_complete Sample.contract1
  = ("已完成", "green").
Proof. repeat split. Qed.

(** C3. Whatever the values of the flags, the chain of tests of
    [get_contract_status] returns at one of its five rules: the final
    [return] after them is never the one taken, in particular for no store
    and contract. *)
Theorem status_fallback_unreachable :
  (forall has_tasks has_payments has_invoices has_acceptance has_accepted
          has_unresolved_feedback : bool,
      Contracts.return_site has_tasks has_payments has_invoices has_acceptance
        has_accepted has_unresolved_feedback <> Contracts.Fallback) /\
  (forall db c, Contracts.status_site db c <> Contracts.Fallback).
Proof.
  assert (H : forall a b c d e f,
             Contracts.return_site a b c d e f <> Contracts.Fallback)
    by (intros [] [] [] [] [] []; discriminate).
  split; [exact H|]. intros db c. apply H.
Qed.

(** ** The decimal context *)

Lemma count_digits_spec (fuel : nat) (n : Z) :
  0 < n < 10 ^ (Z.of_nat fuel + 1) ->
  10 ^ (Dec.count_digits fuel n - 1) <= n < 10 ^ Dec.count_digits fuel n.
Proof.
  revert n. induction fuel as [|f IH]; intros n H.
  - cbn [Dec.count_digits]. change (10 ^ (1 - 1)) with 1.
    change (Z.of_nat 0 + 1) with 1 in H. lia.
  - cbn [Dec.count_digits]. destruct (Z.ltb_spec n 10) as [Hn|Hn].
    + change (10 ^ (1 - 1)) with 1. change (10 ^ 1) with 10. lia.
    + assert (Hq : 0 < n / 10 < 10 ^ (Z.of_nat f + 1)).
      { split.
        - apply Z.div_str_pos. lia.
        - apply Z.div_lt_upper_bound; [lia|].
          rewrite <- Z.pow_succ_r by lia.
          replace (Z.succ (Z.of_nat f + 1)) with (Z.of_nat (S f) + 1) by lia.
          apply H. }
      specialize (IH (n / 10) Hq).
      set (k := Dec.count_digits f (n / 10)) in *.
      assert (Hk : 0 < k).
      { destruct (Z.ltb_spec 0 k) as [|Hle]; [assumption|].
        exfalso. rewrite (Z.pow_neg_r 10 (k - 1)) in IH by lia.
        destruct IH as [_ IH].
        assert (10 ^ k <= 1); [|lia].
        destruct (Z.eq_dec k 0) as [->|]; [reflexivity|].
        rewrite Z.pow_neg_r by lia. lia. }
      replace (1 + k - 1) with (Z.succ (k - 1)) by lia.
      replace (1 + k) with (Z.succ k) by lia.
      rewrite !Z.pow_succ_r by lia.
      assert (Hd := Z.div_mod n 10 ltac:(lia)).
      assert (Hm := Z.mod_pos_bound n 10 ltac:(lia)).
      lia.
Qed.

(** [Dec.digits] counts the decimal digits of a positive integer. *)
Lemma digits_spec (n : Z) :
  0 < n -> 10 ^ (Dec.digits n - 1) <= n < 10 ^ Dec.digits n.
Proof.
  intros H. unfold Dec.digits. apply count_digits_spec.
  split; [exact H|].
  rewrite Z2Nat.id by apply Z.log2_nonneg.
  destruct (Z.log2_spec n H) as [_ Hlt].
  apply Z.lt_le_trans with (1 := Hlt).
  replace (Z.log2 n + 1) with (Z.succ (Z.log2 n)) by lia.
  apply Z.pow_le_mono_l. split; [lia|lia].
Qed.

(** [Dec.round_half_even] gives a multiple of the unit that is no further
    than half a unit from the number. *)
Lemma round_half_even_spec (n k : Z) :
  0 <= n -> 0 <= k ->
  let r := Dec.round_half_even n k in
  r mod 10 ^ k = 0 /\ 2 * Z.abs (r - n) <= 10 ^ k.
Proof.
  intros Hn Hk. cbv zeta. unfold Dec.round_half_even.
  assert (Hu : 0 < 10 ^ k) by (apply Z.pow_pos_nonneg; lia).
  set (unit := 10 ^ k) in *.
  assert (Hd := Z.div_mod n unit ltac:(lia)).
  assert (Hm := Z.mod_pos_bound n unit Hu).
  set (q := n / unit) in *. set (m := n mod unit) in *.
  destruct ((unit <? 2 * m) || ((unit =? 2 * m) && Z.odd q)) eqn:E.
  - split; [apply Z.mod_mul; lia|].
    apply orb_true_iff in E. destruct E as [E|E].
    + apply Z.ltb_lt in E. nia.
    + apply andb_true_iff in E. destruct E as [E _]. apply Z.eqb_eq in E. nia.
  - split; [apply Z.mod_mul; lia|].
    apply orb_false_iff in E. destruct E as [E _]. apply Z.ltb_ge in E. nia.
Qed.

(** What the context returns for an exact result [v]: [v] itself when it has
    at most 28 digits, else a number of the same sign that is a multiple of
    the unit of its 28th digit and no further than half that unit from [v]. *)
Lemma finish_spec (v r : Z) :
  Dec.finish v = inr r ->
  (Z.abs v < 10 ^ Dec.prec -> r = v)
  /\ (10 ^ Dec.prec <= Z.abs v ->
      let ulp := 10 ^ (Dec.digits (Z.abs v) - Dec.prec) in
      r mod ulp = 0 /\ 2 * Z.abs (r - v) <= ulp /\ 10 ^ Dec.prec * ulp <= 10 * Z.abs v).
Proof.
  unfold Dec.finish. cbv zeta.
  destruct (Z.ltb_spec (Z.abs v) (10 ^ Dec.prec)) as [Hs|Hl].
  - intros E. injection E as <-. split; [reflexivity|]. intros H. lia.
  - destruct (Dec.Emax + 3 <? _); [discriminate|].
    intros E. injection E as <-. split; [intros H; lia|]. intros _.
    assert (Hpos : 0 < Z.abs v).
    { assert (0 < 10 ^ Dec.prec) by (apply Z.pow_pos_nonneg; unfold Dec.prec; lia).
      lia. }
    destruct (digits_spec (Z.abs v) Hpos) as [Hlo Hhi].
    assert (Hk : 0 <= Dec.digits (Z.abs v) - Dec.prec).
    { destruct (Z.le_gt_cases Dec.prec (Dec.digits (Z.abs v))) as [|Hlt]; [lia|].
      exfalso.
      assert (10 ^ Dec.digits (Z.abs v) <= 10 ^ Dec.prec)
        by (apply Z.pow_le_mono_r; lia).
      lia. }
    destruct (round_half_even_spec (Z.abs v) (Dec.digits (Z.abs v) - Dec.prec)
                (Z.abs_nonneg v) Hk) as [Hmul Hnear].
    set (ulp := 10 ^ (Dec.digits (Z.abs v) - Dec.prec)) in *.
    set (m := Dec.round_half_even (Z.abs v) (Dec.digits (Z.abs v) - Dec.prec)) in *.
    assert (Hu : 0 < ulp) by (apply Z.pow_pos_nonneg; lia).
    split; [|split].
    + apply Z.mod_divide in Hmul; [|lia]. apply Z.mod_divide; [lia|].
      apply Z.divide_mul_r. exact Hmul.
    + clearbody m ulp.
      destruct (Z.abs_spec v) as [[Hv E]|[Hv E]]; rewrite E in *.
      * rewrite Z.sgn_pos by lia. replace (1 * m - v) with (m - v) by ring.
        exact Hnear.
      * rewrite Z.sgn_neg by lia.
        replace (-1 * m - v) with (- (m - - v)) by ring.
        rewrite Z.abs_opp. exact Hnear.
    + unfold ulp. rewrite <- Z.pow_add_r; [|unfold Dec.prec; lia|exact Hk].
      replace (Dec.prec + (Dec.digits (Z.abs v) - Dec.prec))
        with (Z.succ (Dec.digits (Z.abs v) - 1)) by ring.
      assert (Hd : 0 <= Dec.digits (Z.abs v) - 1) by (unfold Dec.prec in Hk; lia).
      rewrite Z.pow_succ_r by exact Hd.
      clearbody ulp m. lia.
Qed.

(** A result of [10 ^ (Emax + 1)] units or more raises [Overflow]. *)
Lemma finish_overflow (v : Z) :
  10 ^ (Dec.Emax + 3) <= Z.abs v -> Dec.finish v = inl Dec.Overflow.
Proof.
  unfold Dec.finish. cbv zeta.
  assert (HE : Dec.prec <= Dec.Emax + 3) by (unfold Dec.prec, Dec.Emax; lia).
  assert (Hp : 1 <= Dec.prec) by (unfold Dec.prec; lia).
  generalize dependent (Dec.Emax + 3). generalize dependent Dec.prec.
  intros p Hp E HE Hbig.
  assert (Hprec : 10 ^ p <= 10 ^ E) by (apply Z.pow_le_mono_r; lia).
  destruct (Z.ltb_spec (Z.abs v) (10 ^ p)) as [Hs|_]; [lia|].
  set (n := Z.abs v) in *.
  assert (Hpos : 0 < n).
  { assert (0 < 10 ^ p) by (apply Z.pow_pos_nonneg; lia). lia. }
  destruct (digits_spec n Hpos) as [Hlo Hhi].
  set (d := Dec.digits n) in *.
  assert (Hd : E < d).
  { destruct (Z.lt_ge_cases E d) as [|Hle]; [assumption|].
    exfalso.
    assert (10 ^ d <= 10 ^ E) by (apply Z.pow_le_mono_r; lia).
    lia. }
  assert (Hk : 0 <= d - p) by lia.
  assert (Hround : 10 ^ (d - 1) <= Dec.round_half_even n (d - p)).
  { unfold Dec.round_half_even. cbv zeta.
    assert (Hu : 0 < 10 ^ (d - p)) by (apply Z.pow_pos_nonneg; lia).
    assert (Hsplit : 10 ^ (d - 1) = 10 ^ (p - 1) * 10 ^ (d - p)).
    { rewrite <- Z.pow_add_r by lia. f_equal. lia. }
    assert (Hq : 10 ^ (p - 1) <= n / 10 ^ (d - p)).
    { apply Z.div_le_lower_bound; [exact Hu|].
      rewrite Z.mul_comm, <- Hsplit. exact Hlo. }
    set (u := 10 ^ (d - p)) in *.
    set (q := n / u) in *.
    rewrite Hsplit.
    set (t := 10 ^ (p - 1)) in *.
    clearbody u q t. clear - Hu Hq.
    destruct ((u <? 2 * (n mod u)) || ((u =? 2 * (n mod u)) && Z.odd q));
      nia. }
  set (m := Dec.round_half_even n (d - p)) in *.
  assert (Hm : 0 < m).
  { assert (0 < 10 ^ (d - 1)) by (apply Z.pow_pos_nonneg; lia). lia. }
  destruct (digits_spec m Hm) as [_ Hmhi].
  assert (Hdm : E < Dec.digits m).
  { destruct (Z.lt_ge_cases E (Dec.digits m)) as [|Hle]; [assumption|].
    exfalso.
    assert (10 ^ Dec.digits m <= 10 ^ E) by (apply Z.pow_le_mono_r; lia).
    assert (10 ^ E <= 10 ^ (d - 1)) by (apply Z.pow_le_mono_r; lia).
    lia. }
  apply Z.ltb_lt in Hdm. rewrite Hdm. reflexivity.
Qed.

(** ** Finance aggregator *)

Lemma finish_exact (v : Z) : Z.abs v < 10 ^ Dec.prec -> Dec.finish v = inr v.
Proof.
  intros H. apply Z.ltb_lt in H. unfold Dec.finish. cbv zeta. now rewrite H.
Qed.

Lemma or_ZERO_value (amount : option Decimal) :
  FinanceService.or_ZERO amount = match amount with Some a => a | None => 0 end.
Proof.
  unfold FinanceService.or_ZERO, FinanceService.ZERO.
  destruct amount as [a|]; [|reflexivity].
  destruct (Z.eqb_spec a 0); subst; reflexivity.
Qed.

Lemma magnitude_nonneg (l : list (option Decimal)) : 0 <= Spec.magnitude l.
Proof. induction l as [|[a|] l IH]; simpl; lia. Qed.

Lemma total_within_magnitude (l : list (option Decimal)) :
  Z.abs (Spec.total l) <= Spec.magnitude l.
Proof. induction l as [|[a|] l IH]; simpl; lia. Qed.

Lemma sum_from_exact {A : Type} (amount : A -> option Decimal) (rows : list A)
  (acc : Decimal) :
  Z.abs acc + Spec.magnitude (List.map amount rows) < 10 ^ Dec.prec ->
  FinanceService.sum_from acc
    (List.map (fun r => FinanceService.or_ZERO (amount r)) rows)
  = inr (acc + Spec.total (List.map amount rows)).
Proof.
  revert acc. induction rows as [|r rows IH]; intros acc H;
    cbn [List.map FinanceService.sum_from Spec.total Spec.magnitude] in *.
  - f_equal. lia.
  - rewrite or_ZERO_value. unfold Dec.add.
    assert (Hm := magnitude_nonneg (List.map amount rows)).
    destruct (amount r) as [a|];
      cbn [Spec.total Spec.magnitude] in *.
    + rewrite finish_exact by lia. cbn [Dec.bind].
      rewrite IH by lia. f_equal. lia.
    + rewrite finish_exact by lia. cbn [Dec.bind].
      rewrite IH by lia. f_equal. lia.
Qed.

Lemma sum_exact {A : Type} (amount : A -> option Decimal) (rows : list A) :
  Spec.magnitude (List.map amount rows) < 10 ^ Dec.prec ->
  FinanceService.sum (List.map (fun r => FinanceService.or_ZERO (amount r)) rows)
  = inr (Spec.total (List.map amount rows)).
Proof.
  intros H. unfold FinanceService.sum. rewrite sum_from_exact; [reflexivity|].
  simpl. exact H.
Qed.

Lemma quote_amount_is_quote (db : Store) (c : Contract.t)
  (sales : option SalesInfo.t) :
  match
    match sales with
    | None =>
        List.find (fun s => SalesInfo.contract_id s =? Contract.id c)
          (sales_infos db)
    | Some s => Some s
    end
  with
  | Some s =>
      match SalesInfo.quote_amount s with
      | Some q => Some q
      | None => None
      end
  | None => None
  end = Spec.quote db c sales.
Proof.
  unfold Spec.quote. destruct sales as [s0|].
  - destruct (SalesInfo.quote_amount s0); reflexivity.
  - destruct (List.find _ (sales_infos db)) as [s0|]; [|reflexivity].
    destruct (SalesInfo.quote_amount s0); reflexivity.
Qed.

(** Within the precision of the context the summary is the one of exact
    arithmetic. *)
Lemma summary_within_precision (db : Store) (c : Contract.t)
  (sales : option SalesInfo.t) :
  Spec.within_precision db c sales ->
  let paid := Spec.total (List.map Payment.amount (FinanceService.contract_payments db c)) in
  let refunded :=
    Spec.total (List.map Refund.amount (FinanceService.contract_refunds db c)) in
  let invoiced :=
    Spec.total (List.map Invoice.amount (FinanceService.contract_invoices db c)) in
  FinanceService.get_contract_finance_summary db c sales
  = inr (FinanceService.mkSummary (Spec.quote db c sales) paid refunded
           (paid - refunded) invoiced
           (option_map (fun q => q - (paid - refunded)) (Spec.quote db c sales))
           (option_map (fun q => q - invoiced) (Spec.quote db c sales))).
Proof.
  intros H paid refunded invoiced. unfold Spec.within_precision in H.
  assert (Hp := total_within_magnitude
                  (List.map Payment.amount (FinanceService.contract_payments db c))).
  assert (Hr := total_within_magnitude
                  (List.map Refund.amount (FinanceService.contract_refunds db c))).
  assert (Hi := total_within_magnitude
                  (List.map Invoice.amount (FinanceService.contract_invoices db c))).
  assert (Hq := magnitude_nonneg [Spec.quote db c sales]).
  fold paid in Hp. fold refunded in Hr. fold invoiced in Hi.
  unfold FinanceService.get_contract_finance_summary.
  rewrite quote_amount_is_quote.
  set (B := 10 ^ Dec.prec) in *.
  rewrite !sum_exact by (fold B; lia).
  fold paid. fold refunded. fold invoiced. cbn [Dec.bind].
  unfold Dec.sub. rewrite finish_exact by (fold B; lia). cbn [Dec.bind].
  destruct (Spec.quote db c sales) as [q|]; [|reflexivity].
  cbn [Spec.magnitude] in H.
  rewrite !finish_exact by (fold B; lia). reflexivity.
Qed.

(** C2, amended. [get_contract_finance_summary] returns a quote amount that
    is the one of the sales information, and remainders that are absent, not
    zero, exactly when the quote is.  When the magnitudes of the contract's
    amounts and of the quote add up to less than [10 ^ 28] hundredths, it
    returns, and its totals are the exact sums of the contract's payments,
    refunds and invoices, an absent amount counting as zero, the net amount
    received is their difference and the remainders are the quote less the
    net amount received, respectively less the invoiced total. *)
Theorem finance_summary_exact_within_precision (db : Store) (c : Contract.t)
  (sales : option SalesInfo.t) :
  (forall s,
      FinanceService.get_contract_finance_summary db c sales = inr s ->
      FinanceService.quote_amount s = Spec.quote db c sales /\
      (Spec.quote db c sales = None ->
         FinanceService.receivable_remaining s = None /\
         FinanceService.invoice_remaining s = None) /\
      (Spec.quote db c sales <> None ->
         FinanceService.receivable_remaining s <> None /\
         FinanceService.invoice_remaining s <> None)) /\
  (Spec.within_precision db c sales ->
   exists s,
     FinanceService.get_contract_finance_summary db c sales = inr s /\
     FinanceService.paid_total s
       = Spec.total (List.map Payment.amount (FinanceService.contract_payments db c)) /\
     FinanceService.refund_total s
       = Spec.total (List.map Refund.amount (FinanceService.contract_refunds db c)) /\
     FinanceService.net_received s
       = FinanceService.paid_total s - FinanceService.refund_total s /\
     FinanceService.invoiced_total s
       = Spec.total (List.map Invoice.amount (FinanceService.contract_invoices db c)) /\
     FinanceService.quote_amount s = Spec.quote db c sales /\
     (forall q, Spec.quote db c sales = Some q ->
        FinanceService.receivable_remaining s
          = Some (q - FinanceService.net_received s) /\
        FinanceService.invoice_remaining s
          = Some (q - FinanceService.invoiced_total s)) /\
     (Spec.quote db c sales = None ->
        FinanceService.receivable_remaining s = None /\
        FinanceService.invoice_remaining s = None /\
        FinanceService.receivable_remaining s <> Some 0 /\
        FinanceService.invoice_remaining s <> Some 0)).
Proof.
  split.
  - intros s. unfold FinanceService.get_contract_finance_summary.
    rewrite quote_amount_is_quote.
    destruct (FinanceService.sum _) as [e|paid]; [discriminate|].
    destruct (FinanceService.sum _) as [e|refunded]; [discriminate|].
    cbn [Dec.bind].
    destruct (Dec.sub paid refunded) as [e|net]; [discriminate|].
    cbn [Dec.bind].
    destruct (FinanceService.sum _) as [e|invoiced]; [discriminate|].
    cbn [Dec.bind].
    destruct (Spec.quote db c sales) as [q|].
    + destruct (Dec.sub q net) as [e|r]; [discriminate|]. cbn [Dec.bind].
      destruct (Dec.sub q invoiced) as [e|i]; [discriminate|]. cbn [Dec.bind].
      intros E. injection E as <-. cbn.
      split; [reflexivity|]. split; [discriminate|].
      intros _. split; discriminate.
    + intros E. injection E as <-. cbn.
      split; [reflexivity|]. split; [split; reflexivity|].
      intros H. contradiction.
  - intros H. eexists. split; [exact (summary_within_precision db c sales H)|].
    cbn [FinanceService.paid_total FinanceService.refund_total
         FinanceService.net_received FinanceService.invoiced_total
         FinanceService.quote_amount FinanceService.receivable_remaining
         FinanceService.invoice_remaining].
    do 5 (split; [reflexivity|]).
    split.
    + intros q E. rewrite E. split; reflexivity.
    + intros E. rewrite E. repeat split; discriminate.
Qed.

Lemma finance_summary_exact_within_precision_witness :
  Spec.within_precision Sample.db_finance Sample.contract1 None /\
  exists s,
    FinanceService.get_contract_finance_summary Sample.db_finance
      Sample.contract1 None = inr s /\
    FinanceService.paid_total s = 15050 /\
    FinanceService.refund_total s = 1000 /\
    FinanceService.receivable_remaining s
    = Some (100000 - FinanceService.net_received s).
Proof.
  assert (H : Spec.within_precision Sample.db_finance Sample.contract1 None)
    by (vm_compute; reflexivity).
  split; [exact H|].
  destruct (proj2 (finance_summary_exact_within_precision Sample.db_finance
                     Sample.contract1 None) H)
    as (s & Hs & Hp & Hr & _ & _ & _ & Hq & _).
  exists s. split; [exact Hs|]. split; [exact Hp|]. split; [exact Hr|].
  exact (proj1 (Hq 100000 eq_refl)).
Defined.

(** The worked figures of the finance aggregator: payments of 100.00 and
    50.50 (and one without amount), a refund of 10.00 and a quote of 1000.00
    give 140.50 received net and 859.50 still receivable; without sales
    information both remainders are absent. *)
Example finance_summary_sample :
  FinanceService.get_contract_finance_summary Sample.db_finance Sample.contract1 None
  = inr (FinanceService.mkSummary (Some 100000) 15050 1000 14050 0
           (Some 85950) (Some 100000))
  /\ FinanceService.get_contract_finance_summary Sample.db_without_sales
       Sample.contract1 None
     = inr (FinanceService.mkSummary None 25075 0 25075 0 None None).
Proof. split; vm_compute; reflexivity. Qed.

(** The sums are not exact beyond 28 digits: two payments of
    99999999999999999999999999.99 are summed to 200000000000000000000000000.00,
    two hundredths more than they are worth. *)
Lemma finance_summary_rounds_at_28_digits :
  exists s,
    FinanceService.get_contract_finance_summary Fixtures.db_huge
      Sample.contract1 None = inr s
    /\ FinanceService.paid_total s = 20000000000000000000000000000
    /\ Spec.total
         (List.map Payment.amount
            (FinanceService.contract_payments Fixtures.db_huge Sample.contract1))
       = 19999999999999999999999999998
    /\ FinanceService.paid_total s
       <> Spec.total
            (List.map Payment.amount
               (FinanceService.contract_payments Fixtures.db_huge
                  Sample.contract1)).
Proof.
  eexists. split; [vm_compute; reflexivity|].
  split; [reflexivity|]. split; [reflexivity|]. discriminate.
Qed.

(** ** Audit logger *)

(** C7. [log_operation] returns normally on every input and adds exactly one
    row to the session, built from its arguments; when [json.dumps] fails on
    the extra payload the row is still added, its payload absent.  Nothing
    else of the world changes. *)
Theorem log_operation_always_appends
  (user : option User.t) (action : string) (target_type : option string)
  (target_id : option Z) (message : option string)
  (extra : option (list (string * Json.PyVal))) (w : Flask.World) :
  exists entry : OperationLog.t,
    Contracts.log_operation user action target_type target_id message extra w
    = (Flask.Returned tt,
       Flask.mkWorld (Flask.committed w)
         (with_operation_logs (Flask.working w)
            (operation_logs (Flask.working w) ++ [entry]))
         (Flask.session_user_id w) (Flask.flashes w)) /\
    OperationLog.user_id entry = option_map User.id user /\
    OperationLog.action entry = action /\
    OperationLog.target_type entry = target_type /\
    OperationLog.target_id entry = target_id /\
    OperationLog.message entry = message /\
    (forall items e,
        extra = Some items -> Json.dumps (Json.PDict items) = inl e ->
        OperationLog.extra_data entry = None) /\
    (forall items text,
        extra = Some items -> items <> [] ->
        Json.dumps (Json.PDict items) = inr text ->
        OperationLog.extra_data entry = Some text).
Proof.
  unfold Contracts.log_operation, Flask.session_add_log, Flask.on_working.
  eexists. split; [reflexivity|]. cbn [OperationLog.user_id OperationLog.action
    OperationLog.target_type OperationLog.target_id OperationLog.message
    OperationLog.extra_data].
  split; [destruct user; reflexivity|].
  do 4 (split; [reflexivity|]).
  split.
  - intros items e -> He. destruct items as [|item rest]; [reflexivity|].
    rewrite He. reflexivity.
  - intros items text -> Hne Ht. destruct items as [|item rest]; [congruence|].
    rewrite Ht. reflexivity.
Qed.

(** A payload holding a [Decimal] cannot be serialised: the row is written
    without payload. *)
Example log_operation_unserialisable_extra :
  Contracts.log_operation (Some Sample.alice) "payment.create" (Some "Payment")
    (Some 9) None (Some [("amount", Json.PObj "Decimal")])
    (Flask.mkWorld Sample.db Sample.db (Some 1) [])
  = (Flask.Returned tt,
     Flask.mkWorld Sample.db
       (with_operation_logs Sample.db
          [OperationLog.mk (Some 1) "payment.create" (Some "Payment") (Some 9)
             None None])
       (Some 1) []).
Proof. reflexivity. Qed.

(** ** Views and record services *)

Lemma first_or_404_missing {A : Type} (table : Store -> list A)
  (keep : A -> bool) (w : Flask.World) :
  (forall x, In x (table (Flask.working w)) -> keep x = false) ->
  Flask.first_or_404 table keep w = (Flask.Raised Json.NotFound, w).
Proof.
  intros H. apply find_none_iff in H.
  unfold Flask.first_or_404, Flask.bind, Flask.first. rewrite H. reflexivity.
Qed.

Lemma first_or_404_found {A : Type} (table : Store -> list A)
  (keep : A -> bool) (w : Flask.World) (x : A) :
  List.find keep (table (Flask.working w)) = Some x ->
  Flask.first_or_404 table keep w = (Flask.Returned x, w).
Proof.
  intros H. unfold Flask.first_or_404, Flask.bind, Flask.first. rewrite H.
  reflexivity.
Qed.

Lemma get_or_404_id (cid : Z) (w : Flask.World) (c : Contract.t) :
  List.find (fun c => Contract.id c =? cid) (contracts (Flask.working w)) = Some c ->
  Contract.id c = cid.
Proof.
  intros H. apply List.find_some in H. destruct H as [_ H]. now apply Z.eqb_eq.
Qed.

Lemma no_match_false (a b x y : Z) :
  ~ (a = x /\ b = y) -> (a =? x) && (b =? y) = false.
Proof.
  intros H. destruct (Z.eqb_spec a x), (Z.eqb_spec b y); simpl; try reflexivity.
  exfalso. auto.
Qed.

Ltac unfold_view :=
  unfold Contracts.login_required, Flask.get_or_404, Flask.current_user,
    Flask.session_get_user_id, Flask.first_or_404, Flask.first, Flask.bind,
    Flask.ret, Flask.raise, Flask.unbound_name, Flask.flash, Flask.redirect,
    Flask.session_commit, Flask.on_working.

(** C8. A delete on an (id, contract_id) pair that matches no row changes
    nothing: no row is removed and no log entry is added, in the session or
    in the committed store.  The payment view and the task service fail with
    the 404 error, as the claim says.  The record services of the finance
    module do not: [Payment], [Invoice] and [Refund] are bound nowhere in
    that module, so each of them fails with [NameError] on every call,
    whether a row matches or not. *)
Theorem delete_missing_child_outcomes (contract : Contract.t) (id_ : Z) :
  (forall w,
      (forall p, In p (payments (Flask.working w)) ->
                 ~ (Payment.id p = id_ /\ Payment.contract_id p = Contract.id contract)) ->
      forall uid, Flask.session_user_id w = Some uid ->
        Contracts.delete_payment (Contract.id contract) id_ w
        = (Flask.Raised Json.NotFound, w)) /\
  (forall db uid,
      (forall p, In p (payments db) ->
                 ~ (Payment.id p = id_ /\ Payment.contract_id p = Contract.id contract)) ->
      Flask.serve (Contracts.delete_payment (Contract.id contract) id_) (Some uid) db
      = (Flask.Raised Json.NotFound, db)) /\
  (forall w,
      (forall t, In t (tasks (Flask.working w)) ->
                 ~ (Task.id t = id_ /\ Task.contract_id t = Contract.id contract)) ->
      TaskService.delete_task contract id_ w = (Flask.Raised Json.NotFound, w)) /\
  (forall w,
      FinanceService.delete_payment contract id_ w
      = (Flask.Raised (Json.NameError "Payment"), w)) /\
  (forall w,
      FinanceService.delete_invoice contract id_ w
      = (Flask.Raised (Json.NameError "Invoice"), w)) /\
  (forall w,
      FinanceService.delete_refund contract id_ w
      = (Flask.Raised (Json.NameError "Refund"), w)).
Proof.
  assert (Hview : forall w,
    (forall p, In p (payments (Flask.working w)) ->
               ~ (Payment.id p = id_ /\ Payment.contract_id p = Contract.id contract)) ->
    forall uid, Flask.session_user_id w = Some uid ->
      Contracts.delete_payment (Contract.id contract) id_ w
      = (Flask.Raised Json.NotFound, w)).
  { intros w H uid Hs. unfold Contracts.delete_payment. unfold_view.
    rewrite Hs.
    destruct (if Py.truthy_int (Some uid) then _ else _) as [u w'] eqn:Eu.
    assert (w' = w /\ exists v, u = Flask.Returned v) as [-> [v ->]].
    { destruct (Py.truthy_int (Some uid)); inversion Eu; eauto. }
    destruct (List.find _ (contracts (Flask.working w))) as [c|] eqn:Ec;
      [|reflexivity].
    apply get_or_404_id in Ec. rewrite Ec.
    assert (E : List.find
                  (fun p => (Payment.id p =? id_)
                            && (Payment.contract_id p =? Contract.id contract))
                  (payments (Flask.working w)) = None).
    { apply find_none_iff. intros p Hp. apply no_match_false. now apply H. }
    rewrite E. reflexivity. }
  split; [exact Hview|]. split; [|split; [|repeat split]].
  - intros db uid H. unfold Flask.serve.
    rewrite (Hview (Flask.mkWorld db db (Some uid) []) H uid eq_refl).
    reflexivity.
  - intros w H. unfold TaskService.delete_task, Flask.bind.
    rewrite first_or_404_missing; [reflexivity|].
    intros p Hp. apply no_match_false. now apply H.
Qed.

Lemma delete_missing_child_outcomes_witness :
  (forall p, In p (payments Sample.db) ->
             ~ (Payment.id p = 42 /\ Payment.contract_id p = Contract.id Sample.contract1)) /\
  Flask.serve (Contracts.delete_payment (Contract.id Sample.contract1) 42) (Some 1)
    Sample.db
  = (Flask.Raised Json.NotFound, Sample.db) /\
  FinanceService.delete_payment Sample.contract1 42
    (Flask.mkWorld Sample.db Sample.db (Some 1) [])
  = (Flask.Raised (Json.NameError "Payment"),
     Flask.mkWorld Sample.db Sample.db (Some 1) []).
Proof.
  assert (H : forall p, In p (payments Sample.db) ->
                ~ (Payment.id p = 42
                   /\ Payment.contract_id p = Contract.id Sample.contract1)).
  { simpl. intros p [<-|[]] [H _]. discriminate H. }
  split; [exact H|]. split.
  - exact (proj1 (proj2 (delete_missing_child_outcomes Sample.contract1 42))
             Sample.db 1 H).
  - exact (proj1 (proj2 (proj2 (proj2
             (delete_missing_child_outcomes Sample.contract1 42)))) _).
Defined.

(** The finance service fails in the same way on a payment that exists: the
    row stays. *)
Example finance_service_delete_of_existing_payment :
  FinanceService.delete_payment Sample.contract1 9
    (Flask.mkWorld Sample.db Sample.db (Some 1) [])
  = (Flask.Raised (Json.NameError "Payment"),
     Flask.mkWorld Sample.db Sample.db (Some 1) []).
Proof. reflexivity. Qed.

(** The payment view on a payment that exists: the row goes and one log row
    is committed with it. *)
Example delete_payment_logs :
  Flask.serve (Contracts.delete_payment 1 9) (Some 1) Sample.db
  = (Flask.Returned (Flask.Redirect "contracts.manage_payments" (Some 1)),
     with_operation_logs (with_payments Sample.db [])
       [OperationLog.mk (Some 1) "payment.delete" (Some "Payment") (Some 9)
          (Some ("删除付款记录：金额=" ++ "250.75"))
          (Some ("{" ++ Json.encode_str "contract_id" ++ ": 1, "
                  ++ Json.encode_str "date" ++ ": "
                  ++ Json.encode_str "2024-05-01" ++ "}"))]).
Proof. reflexivity. Qed.

(** C4. The task-delete and leader-delete views add no log row: whatever the
    request, the committed log is the one before it, also when the row is
    removed and the removal committed, as for task 5 and leader 3 of the
    sample contract.  (The sibling payment view does write one, see
    [delete_payment_logs].) *)
Theorem delete_task_and_leader_write_no_log :
  (forall contract_id task_id session db,
      operation_logs
        (snd (Flask.serve (Contracts.delete_task contract_id task_id) session db))
      = operation_logs db) /\
  (forall contract_id leader_id session db,
      operation_logs
        (snd (Flask.serve (Contracts.delete_leader contract_id leader_id) session db))
      = operation_logs db) /\
  Flask.serve (Contracts.delete_task 1 5) (Some 1) Sample.db
  = (Flask.Returned (Flask.Redirect "contracts.manage_tasks" (Some 1)),
     with_tasks Sample.db []) /\
  Flask.serve (Contracts.delete_leader 1 3) (Some 1) Sample.db
  = (Flask.Returned (Flask.Redirect "contracts.manage_leaders" (Some 1)),
     with_leaders Sample.db []).
Proof.
  split; [|split; [|split; reflexivity]].
  - intros cid tid session db.
    unfold Flask.serve, Contracts.delete_task, Flask.session_delete_task.
    unfold_view. simpl.
    destruct session; [|reflexivity].
    destruct (List.find _ (contracts db)); simpl; [|reflexivity].
    destruct (List.find _ (tasks db)); reflexivity.
  - intros cid lid session db.
    unfold Flask.serve, Contracts.delete_leader, Flask.session_delete_leader.
    unfold_view. simpl.
    destruct session; [|reflexivity].
    destruct (List.find _ (contracts db)); simpl; [|reflexivity].
    destruct (List.find _ (leaders db)); reflexivity.
Qed.

(** The sales-delete view on a contract without sales information returns
    its redirect: no error is raised on that request. *)
Lemma delete_sales_without_sales_info_returns :
  Flask.serve (Contracts.delete_sales 1) (Some 1) Sample.db_without_sales
  = (Flask.Returned (Flask.Redirect "contracts.manage_sales" (Some 1)),
     Sample.db_without_sales) /\
  forall e,
    fst (Flask.serve (Contracts.delete_sales 1) (Some 1) Sample.db_without_sales)
    <> Flask.Raised e.
Proof.
  split; [reflexivity|]. intros e. discriminate.
Qed.

(** C9, amended. No request to the procurement-delete or the sales-delete
    view changes the committed store: no row is removed and no log row is
    committed.  A request of a logged-in session that finds its contract and
    its target row raises [NameError] on the unbound name [user], before the
    session has deleted or added anything.  Every other request ends at a
    guard, without that error: without a session it is sent to the login
    page; a contract that does not exist, and for the procurement view an
    item that is not one of the contract, gives the 404 error; and the sales
    view on a contract without sales information flashes that there is
    nothing to delete and redirects. *)
Theorem unbound_user_deletes_never_delete
  (contract_id item_id : Z) (session : option Z) (db : Store) :
  let w := Flask.mkWorld db db session [] in
  snd (Flask.serve (Contracts.delete_procurement contract_id item_id) session db)
  = db /\
  snd (Flask.serve (Contracts.delete_sales contract_id) session db) = db /\
  (forall uid c item,
      session = Some uid ->
      In c (contracts db) -> Contract.id c = contract_id ->
      In item (procurement_items db) ->
      ProcurementItem.id item = item_id ->
      ProcurementItem.contract_id item = contract_id ->
      Contracts.delete_procurement contract_id item_id w
      = (Flask.Raised (Json.NameError "user"), w)) /\
  (forall uid c sales,
      session = Some uid ->
      In c (contracts db) -> Contract.id c = contract_id ->
      In sales (sales_infos db) -> SalesInfo.contract_id sales = contract_id ->
      Contracts.delete_sales contract_id w
      = (Flask.Raised (Json.NameError "user"), w)) /\
  (session = None ->
     Contracts.delete_procurement contract_id item_id w
     = (Flask.Returned (Flask.Redirect "auth.login" None),
        Flask.mkWorld db db None ["请先登录"])
     /\ Contracts.delete_sales contract_id w
        = (Flask.Returned (Flask.Redirect "auth.login" None),
           Flask.mkWorld db db None ["请先登录"])) /\
  (forall uid,
      session = Some uid ->
      (forall c, In c (contracts db) -> Contract.id c <> contract_id) ->
      Contracts.delete_procurement contract_id item_id w
      = (Flask.Raised Json.NotFound, w)
      /\ Contracts.delete_sales contract_id w = (Flask.Raised Json.NotFound, w)) /\
  (forall uid c,
      session = Some uid ->
      In c (contracts db) -> Contract.id c = contract_id ->
      (forall i, In i (procurement_items db) ->
                 ~ (ProcurementItem.id i = item_id
                    /\ ProcurementItem.contract_id i = contract_id)) ->
      Contracts.delete_procurement contract_id item_id w
      = (Flask.Raised Json.NotFound, w)) /\
  (forall uid c,
      session = Some uid ->
      In c (contracts db) -> Contract.id c = contract_id ->
      (forall s, In s (sales_infos db) -> SalesInfo.contract_id s <> contract_id) ->
      Contracts.delete_sales contract_id w
      = (Flask.Returned (Flask.Redirect "contracts.manage_sales" (Some contract_id)),
         Flask.mkWorld db db session ["当前项目没有销售信息可删除"])).
Proof.
  cbv zeta.
  assert (Hfound : forall c, In c (contracts db) -> Contract.id c = contract_id ->
            exists c', List.find (fun c => Contract.id c =? contract_id) (contracts db)
                       = Some c' /\ Contract.id c' = contract_id).
  { intros c Hc Hcid.
    destruct (find_some_of_member (fun c => Contract.id c =? contract_id)
                (contracts db) c Hc) as (c' & Ec & Hc').
    - now apply Z.eqb_eq.
    - exists c'. split; [exact Ec|now apply Z.eqb_eq]. }
  split; [|split; [|split; [|split; [|split; [|split; [|split]]]]]].
  - unfold Flask.serve, Contracts.delete_procurement. unfold_view. simpl.
    destruct session; [|reflexivity].
    destruct (List.find _ (contracts db)); simpl; [|reflexivity].
    destruct (List.find _ (procurement_items db)); reflexivity.
  - unfold Flask.serve, Contracts.delete_sales. unfold_view. simpl.
    destruct session; [|reflexivity].
    destruct (List.find _ (contracts db)); simpl; [|reflexivity].
    destruct (List.find _ (sales_infos db)); reflexivity.
  - intros uid c item -> Hc Hcid Hi Hid Hfk.
    destruct (Hfound c Hc Hcid) as (c' & Ec & Hc').
    destruct (find_some_of_member
                (fun i => (ProcurementItem.id i =? item_id)
                          && (ProcurementItem.contract_id i =? Contract.id c'))
                (procurement_items db) item Hi) as (i' & Ei & _).
    { rewrite Hid, Hfk, Hc', !Z.eqb_refl. reflexivity. }
    unfold Contracts.delete_procurement. unfold_view. simpl.
    rewrite Ec. simpl. rewrite Ei. reflexivity.
  - intros uid c sales -> Hc Hcid Hs Hfk.
    destruct (Hfound c Hc Hcid) as (c' & Ec & Hc').
    destruct (find_some_of_member
                (fun s => SalesInfo.contract_id s =? Contract.id c')
                (sales_infos db) sales Hs) as (s' & Es & _).
    { rewrite Hfk, Hc'. apply Z.eqb_refl. }
    unfold Contracts.delete_sales. unfold_view. simpl.
    rewrite Ec. simpl. rewrite Es. reflexivity.
  - intros ->. split; reflexivity.
  - intros uid -> Hnone.
    assert (Ec : List.find (fun c => Contract.id c =? contract_id) (contracts db)
                 = None).
    { apply find_none_iff. intros c Hc. apply Z.eqb_neq. now apply Hnone. }
    split.
    + unfold Contracts.delete_procurement. unfold_view. simpl.
      rewrite Ec. reflexivity.
    + unfold Contracts.delete_sales. unfold_view. simpl.
      rewrite Ec. reflexivity.
  - intros uid c -> Hc Hcid Hnone.
    destruct (Hfound c Hc Hcid) as (c' & Ec & Hc').
    assert (Ei : List.find
                   (fun i => (ProcurementItem.id i =? item_id)
                             && (ProcurementItem.contract_id i =? Contract.id c'))
                   (procurement_items db) = None).
    { apply find_none_iff. intros i Hi. apply no_match_false.
      rewrite Hc'. now apply Hnone. }
    unfold Contracts.delete_procurement. unfold_view. simpl.
    rewrite Ec. simpl. rewrite Ei. reflexivity.
  - intros uid c -> Hc Hcid Hnone.
    destruct (Hfound c Hc Hcid) as (c' & Ec & Hc').
    assert (Es : List.find (fun s => SalesInfo.contract_id s =? Contract.id c')
                   (sales_infos db) = None).
    { apply find_none_iff. intros s Hs. apply Z.eqb_neq. rewrite Hc'.
      now apply Hnone. }
    unfold Contracts.delete_sales. unfold_view. simpl.
    rewrite Ec. simpl. rewrite Es. simpl. rewrite Hc'. reflexivity.
Qed.

Lemma unbound_user_deletes_never_delete_witness :
  Contracts.delete_procurement 1 7 (Flask.mkWorld Sample.db Sample.db (Some 1) [])
  = (Flask.Raised (Json.NameError "user"),
     Flask.mkWorld Sample.db Sample.db (Some 1) []) /\
  Contracts.delete_sales 1 (Flask.mkWorld Sample.db Sample.db (Some 1) [])
  = (Flask.Raised (Json.NameError "user"),
     Flask.mkWorld Sample.db Sample.db (Some 1) []) /\
  Contracts.delete_procurement 1 8 (Flask.mkWorld Sample.db Sample.db (Some 1) [])
  = (Flask.Raised Json.NotFound, Flask.mkWorld Sample.db Sample.db (Some 1) []) /\
  Contracts.delete_sales 2 (Flask.mkWorld Sample.db Sample.db (Some 1) [])
  = (Flask.Raised Json.NotFound, Flask.mkWorld Sample.db Sample.db (Some 1) []) /\
  Contracts.delete_sales 1
    (Flask.mkWorld Sample.db_without_sales Sample.db_without_sales (Some 1) [])
  = (Flask.Returned (Flask.Redirect "contracts.manage_sales" (Some 1)),
     Flask.mkWorld Sample.db_without_sales Sample.db_without_sales (Some 1)
       ["当前项目没有销售信息可删除"]).
Proof.
  destruct (unbound_user_deletes_never_delete 1 7 (Some 1) Sample.db)
    as (_ & _ & Hp & Hs & _).
  destruct (unbound_user_deletes_never_delete 1 8 (Some 1) Sample.db)
    as (_ & _ & _ & _ & _ & _ & Hitem & _).
  destruct (unbound_user_deletes_never_delete 2 7 (Some 1) Sample.db)
    as (_ & _ & _ & _ & _ & Hmiss & _).
  destruct (unbound_user_deletes_never_delete 1 7 (Some 1) Sample.db_without_sales)
    as (_ & _ & _ & _ & _ & _ & _ & Hnone).
  split; [|split; [|split; [|split]]].
  - apply (Hp 1 Sample.contract1 Sample.item7); try reflexivity; simpl; auto.
  - apply (Hs 1 Sample.contract1 Sample.sales2); try reflexivity; simpl; auto.
  - apply (Hitem 1 Sample.contract1); try reflexivity; [simpl; auto|].
    simpl. intros i [<-|[]] [H _]. discriminate H.
  - apply (Hmiss 1 eq_refl). simpl. intros c [<-|[]]. discriminate.
  - apply (Hnone 1 Sample.contract1); try reflexivity; [simpl; auto|].
    simpl. intros s [].
Defined.

(** ** File access policy *)

Lemma str_in_false x l : Py.str_in x l = false <-> ~ In x l.
Proof.
  rewrite <- str_in_In. destruct (Py.str_in x l); split; congruence.
Qed.

Lemma truthy_str_false (s : option string) :
  Py.truthy_str s = false <-> s = None \/ s = Some "".
Proof.
  destruct s as [[|a r]|]; simpl; split; intros H; auto; try discriminate;
    destruct H; discriminate.
Qed.

Lemma get_role_normalised (user : option User.t) :
  FileService._get_role user
  = Spec.normalised_role
      (match user with Some u => User.role u | None => None end).
Proof. destruct user as [[i n [[|a r]|]]|]; reflexivity. Qed.

(** Roles as stored and as the rules read them.  The white space that goes
    is that of Unicode, and so are the capital letters. *)
Example normalised_role_samples :
  Spec.normalised_role (User.role Sample.root) = "admin"
  /\ Spec.normalised_role (User.role Fixtures.mia) = "sales"
  /\ Spec.normalised_role (User.role Fixtures.nora) = "boss"
  /\ Spec.normalised_role (Some "ÉLÈVE") = "élève"
  /\ Spec.normalised_role (Some "  ") = ""
  /\ Spec.normalised_role None = "".
Proof. repeat split; vm_compute; reflexivity. Qed.

(** The download rules of the claim fail whichever way the role of the user
    is read.  With the role as stored, root, whose role is stored as
    [" Admin "], comes under the third rule and would be refused the drawing
    of the mechanical engineers; the code lets root have it.  With the role
    normalised, mia, whose role is stored as ["Sales"], would be allowed the
    price list of the role [sales]; the code refuses it. *)
Lemma download_rules_role_read_one_way :
  (User.role Sample.root = Some " Admin "
   /\ Spec.download_allowed " Admin " Sample.drawing = false
   /\ FileService.allowed
        (FileService.evaluate_file_download (Some Sample.root) Sample.contract1
           Sample.drawing) = true)
  /\ (Spec.normalised_role (User.role Fixtures.mia) = "sales"
      /\ Spec.download_allowed "sales" Fixtures.price_list = true
      /\ FileService.allowed
           (FileService.evaluate_file_download (Some Fixtures.mia)
              Sample.contract1 Fixtures.price_list) = false).
Proof. repeat split; vm_compute; reflexivity. Qed.

(** C5, amended. For a user [u], the rule is chosen by the role of [u]
    normalised, that is without the white space around it and in lower case:
    admin, boss and software_engineer may always download; a customer may
    download exactly the public files of type contract or tech; any other
    role may download exactly the files whose [owner_role] is unset ([None]
    or empty) or equal to the role of [u] as it is stored, not normalised;
    each refusal carries the log action [file.download_denied]. *)
Theorem evaluate_file_download_rules
  (u : User.t) (c : Contract.t) (pf : ProjectFile.t) :
  let role := Spec.normalised_role (User.role u) in
  let d := FileService.evaluate_file_download (Some u) c pf in
  (In role ["admin"; "boss"; "software_engineer"] ->
     FileService.allowed d = true) /\
  (role = "customer" ->
     (FileService.allowed d = true <->
        ProjectFile.is_public pf = true
        /\ In (ProjectFile.file_type pf) ["contract"; "tech"]) /\
     (FileService.allowed d = false ->
        FileService.log_action d = "file.download_denied")) /\
  (~ In role ["admin"; "boss"; "software_engineer"] -> role <> "customer" ->
     (FileService.allowed d = true <->
        ProjectFile.owner_role pf = None \/ ProjectFile.owner_role pf = Some ""
        \/ ProjectFile.owner_role pf = User.role u) /\
     (FileService.allowed d = false ->
        FileService.log_action d = "file.download_denied")).
Proof.
  intros role d. subst d. unfold FileService.evaluate_file_download.
  rewrite (get_role_normalised (Some u)). fold role.
  destruct (Py.str_in role ["admin"; "boss"; "software_engineer"]) eqn:Er.
  - apply str_in_In in Er. split; [reflexivity|]. split.
    + intros E. rewrite E in Er. simpl in Er. intuition discriminate.
    + intros Hn. contradiction.
  - apply str_in_false in Er. split; [intros H; contradiction|].
    destruct (String.eqb_spec role "customer") as [Ec|Ec].
    + split; [|intros _ H; contradiction].
      intros _.
      destruct (ProjectFile.is_public pf); cbn [andb].
      * destruct (Py.str_in (ProjectFile.file_type pf) ["contract"; "tech"]) eqn:Et;
          cbn [negb FileService.allowed FileService.log_action].
        -- apply str_in_In in Et. split; [split; auto|discriminate].
        -- apply str_in_false in Et. split; [|reflexivity].
           split; [discriminate|]. intros [_ H]. contradiction.
      * cbn [negb FileService.allowed FileService.log_action].
        split; [|reflexivity]. split; [discriminate|]. intros [H _]. discriminate.
    + split; [intros H; contradiction|]. intros _ _.
      destruct (Py.truthy_str (ProjectFile.owner_role pf)) eqn:Eo; cbn [andb].
      * assert (Hset : ~ (ProjectFile.owner_role pf = None
                          \/ ProjectFile.owner_role pf = Some "")).
        { intros H. apply truthy_str_false in H. congruence. }
        destruct (Py.opt_str_eqb (ProjectFile.owner_role pf) (User.role u)) eqn:Ee;
          cbn [negb FileService.allowed FileService.log_action].
        -- apply opt_str_eqb_eq in Ee. split; [split; auto|discriminate].
        -- split; [|reflexivity]. split; [discriminate|].
           intros [H|[H|H]]; [tauto|tauto|].
           apply opt_str_eqb_eq in H. congruence.
      * apply truthy_str_false in Eo.
        cbn [FileService.allowed FileService.log_action].
        split; [|discriminate].
        split; [tauto|reflexivity].
Qed.

(** Root, whose role is stored as [" Admin "], gets the drawing of the
    mechanical engineers; carol, a customer, is refused it; the price list
    of the role [sales] goes to alice, whose role is stored as [sales], and
    not to mia, whose role is stored as [Sales]. *)
Lemma evaluate_file_download_rules_witness :
  FileService.allowed
    (FileService.evaluate_file_download (Some Sample.root) Sample.contract1
       Sample.drawing) = true /\
  FileService.log_action
    (FileService.evaluate_file_download (Some Sample.carol) Sample.contract1
       Sample.drawing) = "file.download_denied" /\
  FileService.allowed
    (FileService.evaluate_file_download (Some Sample.alice) Sample.contract1
       Fixtures.price_list) = true /\
  FileService.allowed
    (FileService.evaluate_file_download (Some Fixtures.mia) Sample.contract1
       Fixtures.price_list) = false.
Proof.
  assert (Hother : forall stored,
            Spec.normalised_role stored = "sales" ->
            ~ In (Spec.normalised_role stored)
                ["admin"; "boss"; "software_engineer"]
            /\ Spec.normalised_role stored <> "customer").
  { intros stored ->. split; [|discriminate].
    simpl. intros [H|[H|[H|[]]]]; discriminate H. }
  split; [|split; [|split]].
  - apply (proj1 (evaluate_file_download_rules Sample.root Sample.contract1
                    Sample.drawing)).
    left. vm_compute. reflexivity.
  - apply (proj1 (proj2 (evaluate_file_download_rules Sample.carol
                           Sample.contract1 Sample.drawing))).
    + vm_compute. reflexivity.
    + vm_compute. reflexivity.
  - destruct (Hother (User.role Sample.alice)) as [H1 H2];
      [vm_compute; reflexivity|].
    apply (proj1 (proj2 (proj2 (evaluate_file_download_rules Sample.alice
                                  Sample.contract1 Fixtures.price_list)) H1 H2)).
    right. right. reflexivity.
  - destruct (Hother (User.role Fixtures.mia)) as [H1 H2];
      [vm_compute; reflexivity|].
    destruct (proj2 (proj2 (evaluate_file_download_rules Fixtures.mia
                              Sample.contract1 Fixtures.price_list)) H1 H2)
      as [Hiff _].
    destruct (FileService.allowed
                (FileService.evaluate_file_download (Some Fixtures.mia)
                   Sample.contract1 Fixtures.price_list)); [|reflexivity].
    destruct (proj1 Hiff eq_refl) as [H|[H|H]]; discriminate H.
Defined.

(** A customer asking for a file that is not public is refused. *)
Example customer_private_file_denied :
  let d := FileService.evaluate_file_download (Some Sample.carol) Sample.contract1
             Sample.drawing in
  FileService.allowed d = false
  /\ FileService.log_action d = "file.download_denied".
Proof. split; vm_compute; reflexivity. Qed.

(** The role is normalised before the first rule: [" Admin "] is admin.  In
    the third rule it is not: alice, whose role is stored as [sales], gets
    the price list of the role [sales], and mia, whose role is stored as
    [Sales], does not. *)
Example admin_any_file_allowed :
  FileService._get_role (Some Sample.root) = "admin"
  /\ FileService.allowed
       (FileService.evaluate_file_download (Some Sample.root) Sample.contract1
          Sample.drawing) = true
  /\ FileService.allowed
       (FileService.evaluate_file_download (Some Sample.alice) Sample.contract1
          Fixtures.price_list) = true
  /\ FileService.allowed
       (FileService.evaluate_file_download (Some Fixtures.mia) Sample.contract1
          Fixtures.price_list) = false.
Proof. repeat split; vm_compute; reflexivity. Qed.

(** C6. [evaluate_file_delete] allows exactly a user who is the uploader of
    the file or whose role, without the white space around it and in lower
    case, is admin or boss; a refusal carries the log action
    [file.delete_denied]; and every decision, allowing or refusing, carries
    its audit record: a log action (one of the two), a log message that is
    not empty and an extra payload that names the contract, the stored file
    and the file type. *)
Theorem evaluate_file_delete_rule
  (user : option User.t) (c : Contract.t) (pf : ProjectFile.t) :
  let d := FileService.evaluate_file_delete user c pf in
  (FileService.allowed d = true <->
     exists u, user = Some u
               /\ (Some (User.id u) = ProjectFile.uploader_id pf
                   \/ In (Spec.normalised_role (User.role u)) ["admin"; "boss"])) /\
  (FileService.allowed d = false ->
     FileService.log_action d = "file.delete_denied") /\
  (FileService.allowed d = true ->
     FileService.log_action d = "file.delete_soft") /\
  FileService.log_message d <> "" /\
  (In ("contract_id", Json.PInt (Contract.id c)) (FileService.log_extra d) /\
   In ("stored_filename", Json.PStr (ProjectFile.stored_filename pf))
      (FileService.log_extra d) /\
   In ("file_type", Json.PStr (ProjectFile.file_type pf)) (FileService.log_extra d)).
Proof.
  intros d. subst d. unfold FileService.evaluate_file_delete.
  rewrite (get_role_normalised user).
  destruct user as [u|].
  - destruct (Py.opt_int_eqb (Some (User.id u)) (ProjectFile.uploader_id pf)) eqn:Eu,
      (Py.str_in (Spec.normalised_role (User.role u)) ["admin"; "boss"]) eqn:Er;
      cbn [negb andb FileService.allowed FileService.log_action
           FileService.log_message FileService.log_extra];
      try apply opt_int_eqb_eq in Eu; try apply str_in_In in Er.
    + split; [split; [eauto|reflexivity]|].
      split; [discriminate|]. split; [reflexivity|].
      split; [discriminate|]. simpl; tauto.
    + split; [split; [eauto|reflexivity]|].
      split; [discriminate|]. split; [reflexivity|].
      split; [discriminate|]. simpl; tauto.
    + split; [split; [eauto|reflexivity]|].
      split; [discriminate|]. split; [reflexivity|].
      split; [discriminate|]. simpl; tauto.
    + assert (Hne : Some (User.id u) <> ProjectFile.uploader_id pf).
      { intros H. apply opt_int_eqb_eq in H. congruence. }
      apply str_in_false in Er.
      split.
      { split; [discriminate|]. intros (u' & E & [H|H]); inversion E; subst;
          contradiction. }
      split; [reflexivity|]. split; [discriminate|].
      split; [discriminate|]. simpl; tauto.
  - cbn [FileService.allowed FileService.log_action FileService.log_message
         FileService.log_extra].
    split.
    { split; [discriminate|]. intros (u' & E & _). discriminate. }
    split; [reflexivity|]. split; [discriminate|].
    split; [discriminate|]. simpl; tauto.
Qed.

(** Who may delete the drawing that alice uploaded: alice, as its uploader;
    root and nora, who did not upload it, by their roles, stored as
    [" Admin "] and as [Boss] between a no-break space and an ideographic
    space; not carol, a customer, and nobody without a user. *)
Lemma evaluate_file_delete_rule_witness :
  FileService.allowed
    (FileService.evaluate_file_delete (Some Sample.alice) Sample.contract1
       Sample.drawing) = true
  /\ FileService.allowed
       (FileService.evaluate_file_delete (Some Sample.root) Sample.contract1
          Sample.drawing) = true
  /\ FileService.allowed
       (FileService.evaluate_file_delete (Some Fixtures.nora) Sample.contract1
          Sample.drawing) = true
  /\ FileService.log_action
       (FileService.evaluate_file_delete (Some Sample.carol) Sample.contract1
          Sample.drawing) = "file.delete_denied"
  /\ FileService.log_action
       (FileService.evaluate_file_delete None Sample.contract1 Sample.drawing)
     = "file.delete_denied".
Proof.
  split; [|split; [|split; [|split]]].
  - apply (proj1 (evaluate_file_delete_rule (Some Sample.alice) Sample.contract1
                    Sample.drawing)).
    exists Sample.alice. split; [reflexivity|]. left. reflexivity.
  - apply (proj1 (evaluate_file_delete_rule (Some Sample.root) Sample.contract1
                    Sample.drawing)).
    exists Sample.root. split; [reflexivity|]. right. left.
    vm_compute. reflexivity.
  - apply (proj1 (evaluate_file_delete_rule (Some Fixtures.nora) Sample.contract1
                    Sample.drawing)).
    exists Fixtures.nora. split; [reflexivity|]. right. right. left.
    vm_compute. reflexivity.
  - apply (proj1 (proj2 (evaluate_file_delete_rule (Some Sample.carol)
                           Sample.contract1 Sample.drawing))).
    vm_compute. reflexivity.
  - apply (proj1 (proj2 (evaluate_file_delete_rule None Sample.contract1
                           Sample.drawing))).
    reflexivity.
Defined.

(** C10. Without a user the derived role is the empty string and
    [evaluate_file_download] allows the download of every file, whatever its
    visibility and its [owner_role], with the log action of a download. *)
Theorem evaluate_file_download_without_user
  (c : Contract.t) (pf : ProjectFile.t) :
  let d := FileService.evaluate_file_download None c pf in
  FileService._get_role None = "" /\
  FileService.allowed d = true /\
  FileService.flash_message d = None /\
  FileService.log_action d = "file.download".
Proof.
  cbv zeta. unfold FileService.evaluate_file_download. simpl.
  rewrite andb_false_r. repeat split.
Qed.

(** Without a user even a file that is not public and has an owning role is
    handed out. *)
Example anonymous_download_of_owned_file :
  ProjectFile.is_public Sample.drawing = false
  /\ ProjectFile.owner_role Sample.drawing = Some "mechanical_engineer"
  /\ FileService.allowed
       (FileService.evaluate_file_download None Sample.contract1 Sample.drawing)
     = true.
Proof. repeat split. Qed.

(** * Further properties of the code *)
(** ** File names and upload rules *)

Lemma has_char_app ch a b :
  Files.has_char ch (a ++ b) = Files.has_char ch a || Files.has_char ch b.
Proof.
  induction a as [|c a IH]; simpl; [reflexivity|].
  rewrite IH. apply orb_assoc.
Qed.

Lemma rsplit_dot_without_dot text :
  Files.has_char Files.dot text = false -> Files.rsplit_dot text = [text].
Proof.
  induction text as [|c r IH]; simpl; [reflexivity|].
  intros H. apply orb_false_iff in H. destruct H as [Hc Hr].
  rewrite (IH Hr), Hc. reflexivity.
Qed.

Lemma rsplit_dot_at_last_dot stem ext :
  Files.has_char Files.dot ext = false ->
  Files.rsplit_dot (stem ++ "." ++ ext) = [stem; ext].
Proof.
  intros H. induction stem as [|c stem IH]; simpl.
  - rewrite (rsplit_dot_without_dot ext H). reflexivity.
  - simpl in IH. rewrite IH. reflexivity.
Qed.

Lemma last_dot_exists text :
  Files.has_char Files.dot text = true ->
  exists stem ext,
    text = stem ++ "." ++ ext /\ Files.has_char Files.dot ext = false.
Proof.
  induction text as [|c r IH]; simpl; [discriminate|].
  destruct (Files.has_char Files.dot r) eqn:Hr.
  - intros _. destruct (IH eq_refl) as (stem & ext & -> & He).
    exists (String c stem), ext. split; [reflexivity|exact He].
  - rewrite orb_false_r. intros Hc. apply Ascii.eqb_eq in Hc. subst c.
    exists "", r. split; [reflexivity|exact Hr].
Qed.

(** X1. [allowed_file] accepts exactly the names that have a dot and whose
    text after the last dot is, in lower case, one of the eight allowed
    extensions: the empty name and a name without a dot are refused, and
    only the last extension counts. *)
Theorem allowed_file_iff (filename : string) :
  Files.allowed_file filename = true <->
  exists stem ext,
    filename = stem ++ "." ++ ext
    /\ Files.has_char Files.dot ext = false
    /\ In (Py.lower ext) Files.ALLOWED_EXTENSIONS.
Proof.
  unfold Files.allowed_file. split.
  - destruct (Py.truthy_str (Some filename)); cbn [negb orb]; [|discriminate].
    destruct (Files.has_char Files.dot filename) eqn:Hd; cbn [negb orb];
      [|discriminate].
    destruct (last_dot_exists filename Hd) as (stem & ext & -> & He).
    rewrite (rsplit_dot_at_last_dot stem ext He). cbn [List.nth].
    intros H. exists stem, ext.
    split; [reflexivity|]. split; [exact He|]. apply str_in_In. exact H.
  - intros (stem & ext & -> & He & Hin).
    assert (Hd : Files.has_char Files.dot (stem ++ "." ++ ext) = true).
    { rewrite has_char_app. simpl. apply orb_true_r. }
    rewrite Hd.
    assert (Ht : Py.truthy_str (Some (stem ++ "." ++ ext)) = true).
    { destruct stem; reflexivity. }
    rewrite Ht. cbn [negb orb].
    rewrite (rsplit_dot_at_last_dot stem ext He). cbn [List.nth].
    now apply str_in_In.
Qed.

Example allowed_file_samples :
  Files.allowed_file "drawing.v2.PDF" = true
  /\ Files.allowed_file "report.pdf.exe" = false
  /\ Files.allowed_file "pdf" = false
  /\ Files.allowed_file "" = false.
Proof. repeat split. Qed.

Lemma has_char_remove_char x ch text :
  Files.has_char x (Files.remove_char ch text)
  = Files.has_char x text && negb (Ascii.eqb x ch).
Proof.
  induction text as [|c r IH]; simpl; [reflexivity|].
  destruct (Ascii.eqb_spec c ch) as [->|Hc]; simpl.
  - rewrite IH. rewrite (Ascii.eqb_sym ch x).
    destruct (Ascii.eqb x ch), (Files.has_char x r); reflexivity.
  - rewrite IH. destruct (Ascii.eqb_spec c x) as [->|Hx]; simpl.
    + destruct (Ascii.eqb_spec x ch); [contradiction|]. reflexivity.
    + reflexivity.
Qed.

Lemma has_char_remove_each x chars text :
  Files.has_char x (Files.remove_each chars text)
  = Files.has_char x text && negb (Files.has_char x chars).
Proof.
  revert text. induction chars as [|ch chars IH]; intros text; simpl.
  - now rewrite andb_true_r.
  - rewrite IH, has_char_remove_char. rewrite (Ascii.eqb_sym ch x).
    destruct (Files.has_char x text), (Ascii.eqb x ch), (Files.has_char x chars);
      reflexivity.
Qed.

Lemma clean_spec text :
  Files.clean text = true <->
  forall ch, Files.has_char ch Files.unsafe = true -> Files.has_char ch text = false.
Proof.
  induction text as [|c r IH]; cbn [Files.clean Files.has_char].
  - split; auto.
  - rewrite andb_true_iff, negb_true_iff, IH. split.
    + intros [Hc Hr] ch Hch. rewrite (Hr ch Hch), orb_false_r.
      destruct (Ascii.eqb_spec c ch); [subst; congruence|reflexivity].
    + intros H. split.
      * destruct (Files.has_char c Files.unsafe) eqn:E; [|reflexivity].
        specialize (H c E). rewrite Ascii.eqb_refl in H. discriminate.
      * intros ch Hch. specialize (H ch Hch). now apply orb_false_iff in H.
Qed.

Lemma clean_app a b : Files.clean (a ++ b) = Files.clean a && Files.clean b.
Proof.
  induction a as [|c a IH]; cbn [Files.clean append]; [reflexivity|].
  rewrite IH. apply andb_assoc.
Qed.

Lemma clean_replace_space text :
  Files.clean (Files.replace_char " "%char "_"%char text)
  = Files.clean (Files.remove_char " "%char text).
Proof.
  induction text as [|c r IH];
    cbn [Files.clean Files.replace_char Files.remove_char]; [reflexivity|].
  destruct (Ascii.eqb_spec c " "%char) as [->|Hc]; cbn [Files.clean];
    rewrite IH; reflexivity.
Qed.

Lemma clean_after_removal text :
  Files.clean (Files.remove_char " "%char (Files.remove_each Files.invalid text)) = true.
Proof.
  apply clean_spec. intros ch Hch.
  rewrite has_char_remove_char, has_char_remove_each.
  unfold Files.unsafe in Hch. rewrite has_char_app in Hch.
  apply orb_true_iff in Hch. destruct Hch as [H|H].
  - rewrite H. cbn [negb]. rewrite andb_false_r. reflexivity.
  - cbn [Files.has_char] in H. rewrite orb_false_r in H.
    apply Ascii.eqb_eq in H. subst ch. rewrite Ascii.eqb_refl.
    cbn [negb]. apply andb_false_r.
Qed.

Lemma sanitize_part_is_clean (text : string) :
  Files.clean (Files.sanitize_part text) = true.
Proof.
  unfold Files.sanitize_part.
  destruct (Py.truthy_str (Some text)); [|reflexivity]. cbn [negb]. cbv iota.
  rewrite clean_replace_space. apply clean_after_removal.
Qed.

(** X2. Whatever the text, [sanitize_part] returns a text without any of the
    nine invalid characters and without a space. *)
Theorem sanitize_part_clean (text : string) :
  forall ch,
    Files.has_char ch Files.invalid = true \/ ch = " "%char ->
    Files.has_char ch (Files.sanitize_part text) = false.
Proof.
  intros ch Hch. apply (proj1 (clean_spec _) (sanitize_part_is_clean text)).
  unfold Files.unsafe. rewrite has_char_app. destruct Hch as [->| ->].
  - reflexivity.
  - rewrite orb_true_r. reflexivity.
Qed.

Lemma sanitize_part_clean_witness :
  Files.has_char "/"%char Files.invalid = true
  /\ Files.has_char "/"%char (Files.sanitize_part "a/b c:d") = false
  /\ Files.sanitize_part "a/b c:d" = "ab_cd".
Proof.
  split; [reflexivity|]. split; [|reflexivity].
  apply (sanitize_part_clean "a/b c:d" "/"%char). left. reflexivity.
Defined.

Lemma remove_char_absent ch text :
  Files.has_char ch text = false -> Files.remove_char ch text = text.
Proof.
  induction text as [|c r IH]; simpl; [reflexivity|].
  intros H. apply orb_false_iff in H. destruct H as [Hc Hr].
  rewrite Hc, (IH Hr). reflexivity.
Qed.

Lemma replace_char_absent a b text :
  Files.has_char a text = false -> Files.replace_char a b text = text.
Proof.
  induction text as [|c r IH]; simpl; [reflexivity|].
  intros H. apply orb_false_iff in H. destruct H as [Hc Hr].
  rewrite Hc, (IH Hr). reflexivity.
Qed.

Lemma remove_each_absent chars text :
  (forall ch, Files.has_char ch chars = true -> Files.has_char ch text = false) ->
  Files.remove_each chars text = text.
Proof.
  revert text. induction chars as [|c chars IH]; intros text H; simpl;
    [reflexivity|].
  rewrite remove_char_absent.
  - apply IH. intros ch Hch. apply H. simpl. rewrite Hch. apply orb_true_r.
  - apply H. simpl. now rewrite Ascii.eqb_refl.
Qed.

Lemma sanitize_part_of_clean text :
  Files.clean text = true -> Files.sanitize_part text = text.
Proof.
  intros H. unfold Files.sanitize_part.
  destruct text as [|c r]; [reflexivity|].
  cbn [Py.truthy_str negb]. cbv iota.
  assert (Hall := proj1 (clean_spec _) H).
  rewrite remove_each_absent.
  - apply replace_char_absent. apply Hall. reflexivity.
  - intros ch Hch. apply Hall. unfold Files.unsafe. rewrite has_char_app, Hch.
    reflexivity.
Qed.

(** X3. [sanitize_part] leaves a text that is already free of the invalid
    characters and of spaces as it is; hence sanitising twice is sanitising
    once. *)
Theorem sanitize_part_idempotent (text : string) :
  (Files.clean text = true -> Files.sanitize_part text = text)
  /\ Files.sanitize_part (Files.sanitize_part text) = Files.sanitize_part text.
Proof.
  split; [apply sanitize_part_of_clean|].
  apply sanitize_part_of_clean. apply sanitize_part_is_clean.
Qed.

Lemma len_app (a b : string) : Py.len (a ++ b) = (Py.len a + Py.len b)%nat.
Proof.
  induction a as [|c a IH]; cbn [append Py.len]; [reflexivity|].
  rewrite IH. destruct (Py.is_continuation c); reflexivity.
Qed.

Lemma len_prefix (n : nat) (s : string) : (Py.len (Py.prefix n s) <= n)%nat.
Proof.
  revert n. induction s as [|c s IH]; intros n; cbn [Py.prefix Py.len]; [lia|].
  destruct (Py.is_continuation c) eqn:E.
  - cbn [Py.len]. rewrite E. apply IH.
  - destruct n as [|m]; cbn [Py.len]; [lia|]. rewrite E. specialize (IH m). lia.
Qed.

Lemma clean_prefix (n : nat) (s : string) :
  Files.clean s = true -> Files.clean (Py.prefix n s) = true.
Proof.
  revert n. induction s as [|c s IH]; intros n;
    cbn [Py.prefix Files.clean]; [reflexivity|].
  rewrite andb_true_iff. intros [Hc Hs].
  destruct (Py.is_continuation c).
  - cbn [Files.clean]. rewrite Hc. now apply IH.
  - destruct n as [|m]; [reflexivity|].
    cbn [Files.clean]. rewrite Hc. now apply IH.
Qed.

Lemma clean_concat (sep : string) (parts : list string) :
  Files.clean sep = true ->
  List.forallb Files.clean parts = true ->
  Files.clean (String.concat sep parts) = true.
Proof.
  intros Hsep. induction parts as [|p parts IH]; [reflexivity|].
  cbn [List.forallb]. rewrite andb_true_iff. intros [Hp Hps].
  destruct parts as [|q parts]; cbn [String.concat]; [exact Hp|].
  rewrite !clean_app, Hp, Hsep. cbn [andb]. now apply IH.
Qed.

Lemma clean_or_default (text default : string) :
  Files.clean text = true -> Files.clean default = true ->
  Files.clean (Py.or_str (Some text) default) = true.
Proof. destruct text; simpl Py.or_str; auto. Qed.

Lemma extension_of_allowed_file (filename : string) :
  Files.allowed_file filename = true ->
  Files.has_char Files.dot filename = true
  /\ In (Py.lower (List.nth 1 (Files.rsplit_dot filename) EmptyString))
        Files.ALLOWED_EXTENSIONS.
Proof.
  unfold Files.allowed_file.
  destruct (Py.truthy_str (Some filename)); cbn [negb orb]; [|discriminate].
  destruct (Files.has_char Files.dot filename); cbn [negb orb]; [|discriminate].
  intros H. split; [reflexivity|]. apply str_in_In. exact H.
Qed.

(** X4. The name [generate_file_name] builds is a base of at most 180
    characters followed by the extension, which is empty for an original name
    without a dot and else a dot and the text after its last dot in lower
    case; so the name has at most 180 characters more than its extension. *)
Theorem generate_file_name_length
  (company_name : option string) (today_str : string) (contract : Contract.t)
  (file_type version author original_filename : string) :
  let name := Files.generate_file_name company_name today_str contract
                file_type version author original_filename in
  let ext :=
    if Files.has_char Files.dot original_filename
    then "." ++ Py.lower (List.nth 1 (Files.rsplit_dot original_filename) EmptyString)
    else "" in
  exists base,
    name = base ++ ext
    /\ (Py.len base <= 180)%nat
    /\ (Py.len name <= 180 + Py.len ext)%nat.
Proof.
  intros name ext. subst name. unfold Files.generate_file_name. fold ext.
  set (joined := String.concat "_" _).
  set (base := if (180 <? Py.len joined)%nat then _ else _).
  assert (Hbase : (Py.len base <= 180)%nat).
  { subst base. destruct (Nat.ltb_spec 180 (Py.len joined)).
    - apply len_prefix.
    - assumption. }
  exists base. split; [reflexivity|]. split; [exact Hbase|].
  rewrite len_app. lia.
Qed.

(** X5. When the date text is free of invalid characters and spaces, the
    generated name is a base free of them, whatever the contract, the type,
    the version and the author are, followed by the extension; and when
    [allowed_file] accepts the original name the whole generated name is
    free of them. *)
Theorem generate_file_name_safe
  (company_name : option string) (today_str : string) (contract : Contract.t)
  (file_type version author original_filename : string) :
  Files.clean today_str = true ->
  let name := Files.generate_file_name company_name today_str contract
                file_type version author original_filename in
  let ext :=
    if Files.has_char Files.dot original_filename
    then "." ++ Py.lower (List.nth 1 (Files.rsplit_dot original_filename) EmptyString)
    else "" in
  (exists base, name = base ++ ext /\ Files.clean base = true)
  /\ (Files.allowed_file original_filename = true -> Files.clean name = true).
Proof.
  intros Htoday name ext. subst name. unfold Files.generate_file_name. fold ext.
  set (joined := String.concat "_" _).
  set (base := if (180 <? Py.len joined)%nat then _ else _).
  assert (Hjoined : Files.clean joined = true).
  { subst joined. apply clean_concat; [reflexivity|].
    cbn [List.forallb].
    rewrite !clean_or_default, Htoday, !sanitize_part_is_clean;
      try reflexivity; apply sanitize_part_is_clean. }
  assert (Hbase : Files.clean base = true).
  { subst base. destruct (180 <? Py.len joined)%nat;
      [now apply clean_prefix|exact Hjoined]. }
  split.
  - exists base. split; [reflexivity|exact Hbase].
  - intros Hok. destruct (extension_of_allowed_file _ Hok) as [Hd Hin].
    rewrite clean_app, Hbase. cbn [andb]. subst ext. rewrite Hd.
    cbn [In Files.ALLOWED_EXTENSIONS] in Hin.
    repeat (destruct Hin as [<-|Hin]; [reflexivity|]). contradiction.
Qed.

Lemma generate_file_name_safe_witness :
  Files.clean "20240501" = true
  /\ (exists base,
        Files.generate_file_name (Some "ACME / Co") "20240501" Sample.contract1
          "tech" "" "alice" "Spec: v2?.PDF" = base ++ ".pdf"
        /\ Files.clean base = true)
  /\ Files.clean
       (Files.generate_file_name (Some "ACME / Co") "20240501" Sample.contract1
          "tech" "" "alice" "Spec: v2?.PDF") = true.
Proof.
  split; [reflexivity|].
  destruct (generate_file_name_safe (Some "ACME / Co") "20240501"
              Sample.contract1 "tech" "" "alice" "Spec: v2?.PDF" eq_refl)
    as [Hbase Hname].
  split; [exact Hbase|]. apply Hname. vm_compute. reflexivity.
Defined.

(** A name of ASCII characters, and a contract with a Chinese name of 200
    characters: the base is cut after 180 characters, which are 540 bytes. *)
Example generate_file_name_sample :
  Files.generate_file_name (Some "ACME / Co") "20240501" Sample.contract1
    "tech" "" "alice" "Spec: v2?.PDF"
  = "ACME__Co_P-001_C-001_Line_A_20240501_tech_V1_alice.pdf"
  /\ (let long := String.concat "" (List.repeat "合同" 100) in
      let name :=
        Files.generate_file_name None "20240501"
          (Contract.mk 1 (Some long) None None) "tech" "V2" "alice" "a.PDF" in
      Py.len long = 200%nat
      /\ name
         = "NoCompany_NoProject_NoContractNo_"
           ++ String.concat "" (List.repeat "合同" 73) ++ "合" ++ ".pdf"
      /\ Py.len name = 184%nat).
Proof. split; [|repeat split]; vm_compute; reflexivity. Qed.

Lemma dict_get_member {V : Type} (key : string) (d : list (string * V)) (v : V) :
  Files.dict_get key d = Some v -> In (key, v) d.
Proof.
  induction d as [|[k x] d IH]; simpl; [discriminate|].
  destruct (String.eqb_spec key k) as [->|Hk].
  - intros E. inversion E. now left.
  - intros E. right. now apply IH.
Qed.

Lemma role_table_range (role : string) (types : list string) :
  In (role, types) Files.ROLE_ALLOWED_TYPES ->
  types <> [] /\ incl types Files.ALL_TYPES.
Proof.
  unfold Files.ROLE_ALLOWED_TYPES. cbn [In].
  intros H.
  repeat (destruct H as [H|H];
          [inversion H; subst; split;
           [discriminate|unfold incl, Files.ALL_TYPES; simpl; tauto]|]).
  contradiction.
Qed.

(** X6. Whatever the user, the types [get_role_allowed_types] grants are a
    non-empty part of the five file types; and a user without role, or with
    a role that has no entry of its own in the table (a customer, say), is
    granted all five. *)
Theorem get_role_allowed_types_range (user : option User.t) :
  Files.get_role_allowed_types user <> []
  /\ incl (Files.get_role_allowed_types user) Files.ALL_TYPES
  /\ (~ In (FileService._get_role user) (List.map fst Files.ROLE_ALLOWED_TYPES) ->
      Files.get_role_allowed_types user = Files.ALL_TYPES).
Proof.
  unfold Files.get_role_allowed_types.
  change (match user with
          | Some u =>
              if Py.truthy_str (User.role u)
              then Py.lower (Py.strip (Py.or_str (User.role u) ""))
              else ""
          | None => ""
          end) with (FileService._get_role user).
  destruct (Files.dict_get (FileService._get_role user) Files.ROLE_ALLOWED_TYPES)
    as [types|] eqn:E.
  - apply dict_get_member in E.
    destruct (role_table_range _ _ E) as [Hne Hincl].
    split; [exact Hne|]. split; [exact Hincl|].
    intros Hout. exfalso. apply Hout.
    change (FileService._get_role user)
      with (fst (FileService._get_role user, types)).
    now apply List.in_map.
  - split; [discriminate|]. split; [apply incl_refl|reflexivity].
Qed.

Example get_role_allowed_types_samples :
  Files.get_role_allowed_types (Some (User.mk 7 "fay" (Some " Finance ")))
  = ["invoice"]
  /\ Files.get_role_allowed_types (Some Sample.carol) = Files.ALL_TYPES
  /\ Files.get_role_allowed_types None = Files.ALL_TYPES.
Proof. repeat split. Qed.

(** ** The contract list *)

Lemma id_in_In (x : Z) (seen : list Z) : Views.id_in x seen = true <-> In x seen.
Proof.
  induction seen as [|y r IH]; simpl; [split; [discriminate|tauto]|].
  rewrite orb_true_iff, IH, Z.eqb_eq. split; intros [H|H]; auto.
Qed.

Lemma unique_from_find (x : Z) (seen : list Z) (l : list Contract.t) :
  List.find (fun c => Contract.id c =? x) (Views.unique_from seen l)
  = if Views.id_in x seen then None
    else List.find (fun c => Contract.id c =? x) l.
Proof.
  revert seen. induction l as [|c l IH]; intros seen; simpl.
  - now destruct (Views.id_in x seen).
  - destruct (Views.id_in (Contract.id c) seen) eqn:Ec.
    + rewrite IH. destruct (Views.id_in x seen) eqn:Ex; [reflexivity|].
      destruct (Z.eqb_spec (Contract.id c) x) as [E|E]; [congruence|reflexivity].
    + simpl. destruct (Z.eqb_spec (Contract.id c) x) as [E|E].
      * subst x. rewrite Ec. reflexivity.
      * rewrite IH. simpl.
        destruct (Z.eqb_spec x (Contract.id c)); [congruence|reflexivity].
Qed.

Lemma unique_from_fresh (seen : list Z) (l : list Contract.t) (c : Contract.t) :
  In c (Views.unique_from seen l) -> In c l /\ ~ In (Contract.id c) seen.
Proof.
  revert seen. induction l as [|d l IH]; intros seen; simpl; [tauto|].
  destruct (Views.id_in (Contract.id d) seen) eqn:Ed.
  - intros H. destruct (IH _ H). tauto.
  - intros [->|H].
    + split; [now left|]. intros Hin. apply id_in_In in Hin. congruence.
    + destruct (IH _ H) as [H1 H2]. split; [now right|].
      intros Hin. apply H2. now right.
Qed.

Lemma unique_from_NoDup (seen : list Z) (l : list Contract.t) :
  NoDup (List.map Contract.id (Views.unique_from seen l)).
Proof.
  revert seen. induction l as [|d l IH]; intros seen; simpl; [constructor|].
  destruct (Views.id_in (Contract.id d) seen); [apply IH|].
  simpl. constructor; [|apply IH].
  intros Hin. apply List.in_map_iff in Hin. destruct Hin as (c & Hc & Hin).
  apply unique_from_fresh in Hin. destruct Hin as [_ Hn]. apply Hn.
  left. symmetry. exact Hc.
Qed.

(** X7. The de-duplication of [list_contracts] returns rows of the list it
    is given, no two with the same id, and for every id the row it keeps is
    the first row of the list with that id (none when the list has none). *)
Theorem unique_contracts_first_rows (contracts : list Contract.t) :
  NoDup (List.map Contract.id (Views.unique_contracts contracts))
  /\ (forall c, In c (Views.unique_contracts contracts) -> In c contracts)
  /\ (forall x,
        List.find (fun c => Contract.id c =? x) (Views.unique_contracts contracts)
        = List.find (fun c => Contract.id c =? x) contracts).
Proof.
  unfold Views.unique_contracts. split; [apply unique_from_NoDup|]. split.
  - intros c H. now apply unique_from_fresh in H.
  - intros x. now rewrite unique_from_find.
Qed.

(** X8. The status filter of [list_contracts]: a [status] parameter that is
    one of the five URL values keeps exactly the contracts whose derived
    label is the one the value stands for, in their order; any other
    parameter, the empty one included, filters nothing. *)
Theorem filter_by_status_spec
  (db : Store) (status_param : string) (contracts : list Contract.t) :
  match Files.dict_get status_param Views.STATUS_FILTERS with
  | Some label =>
      Views.filter_by_status db status_param contracts
      = List.filter
          (fun c => String.eqb (fst (Contracts.get_contract_status db c)) label)
          contracts
  | None => Views.filter_by_status db status_param contracts = contracts
  end.
Proof.
  unfold Views.filter_by_status.
  destruct (Files.dict_get status_param Views.STATUS_FILTERS) as [label|] eqn:E.
  - assert (Hp : Py.truthy_str (Some status_param) = true).
    { destruct status_param; [discriminate E|reflexivity]. }
    rewrite Hp.
    assert (Hl : Py.truthy_str (Some label) = true).
    { apply dict_get_member in E. unfold Views.STATUS_FILTERS in E.
      cbn [In] in E.
      repeat (destruct E as [E|E]; [inversion E; reflexivity|]).
      contradiction. }
    rewrite Hl. reflexivity.
  - destruct (Py.truthy_str (Some status_param)); reflexivity.
Qed.

Example filter_by_status_samples :
  Views.filter_by_status Sample.db_complete "finished" [Sample.contract1]
  = [Sample.contract1]
  /\ Views.filter_by_status Sample.db_complete "in_production" [Sample.contract1]
     = []
  /\ Views.filter_by_status Sample.db_complete "done" [Sample.contract1]
     = [Sample.contract1].
Proof. repeat split. Qed.

(** ** Deleting a contract *)

Ltac run_view :=
  cbv beta iota zeta delta
    [Flask.serve Flask.bind Flask.ret Flask.raise Flask.first Flask.first_or_404
     Flask.get_or_404 Flask.current_user Flask.session_get_user_id
     Flask.session_add_log Flask.on_working Flask.session_commit Flask.flash
     Flask.redirect Flask.unbound_name
     Flask.session_delete_task Flask.session_delete_leader
     Flask.session_delete_procurement Flask.session_delete_payment
     Flask.session_delete_invoice Flask.session_delete_refund
     Flask.session_delete_sales
     Flask.committed Flask.working Flask.session_user_id Flask.flashes
     Contracts.login_required Contracts.log_operation
     Views.delete_contract Views.delete_file Views.resolve_feedback
     Views.unresolve_feedback Views.lookup_user
     Views.query_delete_tasks Views.query_delete_procurement_items
     Views.query_delete_acceptances Views.query_delete_payments
     Views.query_delete_invoices Views.query_delete_refunds
     Views.query_delete_feedbacks Views.query_delete_leaders
     Views.query_delete_sales_infos Views.query_delete_project_files
     Views.session_delete_contract Views.session_mark_deleted
     Views.session_set_resolved Views.purge
     with_tasks with_leaders with_procurement_items with_payments with_invoices
     with_refunds with_sales_infos with_operation_logs with_contracts
     with_acceptances with_feedbacks with_project_files
     users contracts tasks leaders procurement_items acceptances payments
     invoices refunds feedbacks sales_infos project_files operation_logs].

Lemma contract_payload_encodes (a b c : option string) (k1 k2 k3 : string) :
  exists text,
    Json.dumps (Json.PDict [(k1, Json.of_opt_str a); (k2, Json.of_opt_str b);
                            (k3, Json.of_opt_str c)]) = inr text.
Proof. destruct a, b, c; simpl; eexists; reflexivity. Qed.

Lemma delete_contract_run (company : Contract.t -> option string)
  (cid uid : Z) (db : Store) (c : Contract.t) :
  List.find (fun r => Contract.id r =? cid) (contracts db) = Some c ->
  exists text,
    Flask.serve (Views.delete_contract company cid) (Some uid) db
    = (Flask.Returned (Flask.Redirect "contracts.list_contracts" None),
       with_operation_logs (Views.purge cid db)
         (operation_logs db
          ++ [OperationLog.mk (option_map User.id (Views.lookup_user uid db))
                "contract.delete" (Some "Contract") (Some cid)
                (Some ("删除合同：" ++ Py.or_str (Contract.name c) ""))
                (Some text)])).
Proof.
  intros Hc. assert (Hid := Hc). apply List.find_some in Hid.
  destruct Hid as [_ Hid]. apply Z.eqb_eq in Hid.
  destruct (contract_payload_encodes (company c) (Contract.project_code c)
              (Contract.contract_number c) "company" "project_code"
              "contract_number") as [text Ht].
  exists text. run_view.
  cbv beta delta [contracts] in Hc.
  destruct (Py.truthy_int (Some uid)); cbv beta iota zeta;
    rewrite Hc; cbv beta iota zeta; rewrite Ht, Hid; reflexivity.
Qed.

Lemma delete_contract_missing (company : Contract.t -> option string)
  (cid uid : Z) (db : Store) :
  List.find (fun r => Contract.id r =? cid) (contracts db) = None ->
  Flask.serve (Views.delete_contract company cid) (Some uid) db
  = (Flask.Raised Json.NotFound, db).
Proof.
  intros Hc. run_view. cbv beta delta [contracts] in Hc.
  destruct (Py.truthy_int (Some uid)); cbv beta iota zeta;
    rewrite Hc; reflexivity.
Qed.

Lemma filter_out_spec {A : Type} (key : A -> Z) (cid : Z) (l : list A) (x : A) :
  In x (List.filter (fun r => negb (key r =? cid)) l) -> key x <> cid.
Proof.
  intros H. apply List.filter_In in H. destruct H as [_ H].
  apply negb_true_iff in H. now apply Z.eqb_neq.
Qed.

Lemma filter_other {A : Type} (key : A -> Z) (cid other : Z) (l : list A) :
  other <> cid ->
  List.filter (fun r => key r =? other)
    (List.filter (fun r => negb (key r =? cid)) l)
  = List.filter (fun r => key r =? other) l.
Proof.
  intros Hne. rewrite filter_twice. apply List.filter_ext. intros r.
  destruct (Z.eqb_spec (key r) other) as [E|E]; [|apply andb_false_r].
  rewrite andb_true_r. apply negb_true_iff, Z.eqb_neq. congruence.
Qed.

Lemma filter_same_empty {A : Type} (key : A -> Z) (cid : Z) (l : list A) :
  List.filter (fun r => key r =? cid)
    (List.filter (fun r => negb (key r =? cid)) l) = [].
Proof.
  rewrite filter_twice. induction l as [|x l IH]; simpl; [reflexivity|].
  destruct (key x =? cid); simpl; exact IH.
Qed.

Lemma find_other {A : Type} (key : A -> Z) (cid other : Z) (l : list A) :
  other <> cid ->
  List.find (fun r => key r =? other)
    (List.filter (fun r => negb (key r =? cid)) l)
  = List.find (fun r => key r =? other) l.
Proof.
  intros Hne. induction l as [|x l IH]; simpl; [reflexivity|].
  destruct (Z.eqb_spec (key x) cid) as [E|E]; simpl.
  - destruct (Z.eqb_spec (key x) other); [congruence|exact IH].
  - destruct (key x =? other); [reflexivity|exact IH].
Qed.

Lemma contract_found (cid : Z) (db : Store) (c : Contract.t) :
  In c (contracts db) -> Contract.id c = cid ->
  exists c0, List.find (fun r => Contract.id r =? cid) (contracts db) = Some c0
             /\ Contract.id c0 = cid.
Proof.
  intros Hin Hid.
  destruct (find_some_of_member (fun r => Contract.id r =? cid) (contracts db) c Hin)
    as (c0 & E & H0).
  - now apply Z.eqb_eq.
  - exists c0. split; [exact E|now apply Z.eqb_eq].
Qed.

(** X9. Deleting a contract that exists returns the redirect to the list
    and leaves no row behind: in the committed store no contract has the id
    and no task, leader, procurement item, acceptance, payment, invoice,
    refund, feedback, sales information or file row points to it. *)
Theorem delete_contract_cascades (company : Contract.t -> option string)
  (cid uid : Z) (db : Store) (c : Contract.t) :
  In c (contracts db) -> Contract.id c = cid ->
  let r := Flask.serve (Views.delete_contract company cid) (Some uid) db in
  fst r = Flask.Returned (Flask.Redirect "contracts.list_contracts" None)
  /\ (forall x, In x (contracts (snd r)) -> Contract.id x <> cid)
  /\ (forall x, In x (tasks (snd r)) -> Task.contract_id x <> cid)
  /\ (forall x, In x (leaders (snd r)) ->
                ProjectDepartmentLeader.contract_id x <> cid)
  /\ (forall x, In x (procurement_items (snd r)) ->
                ProcurementItem.contract_id x <> cid)
  /\ (forall x, In x (acceptances (snd r)) -> Acceptance.contract_id x <> cid)
  /\ (forall x, In x (payments (snd r)) -> Payment.contract_id x <> cid)
  /\ (forall x, In x (invoices (snd r)) -> Invoice.contract_id x <> cid)
  /\ (forall x, In x (refunds (snd r)) -> Refund.contract_id x <> cid)
  /\ (forall x, In x (feedbacks (snd r)) -> Feedback.contract_id x <> cid)
  /\ (forall x, In x (sales_infos (snd r)) -> SalesInfo.contract_id x <> cid)
  /\ (forall x, In x (project_files (snd r)) -> ProjectFile.contract_id x <> cid).
Proof.
  intros Hin Hid r.
  destruct (contract_found cid db c Hin Hid) as (c0 & Hc & _).
  destruct (delete_contract_run company cid uid db c0 Hc) as [text Hrun].
  subst r. rewrite Hrun. cbn [fst snd].
  split; [reflexivity|].
  repeat split; intros x Hx; revert Hx; apply filter_out_spec.
Qed.

Lemma delete_contract_cascades_witness :
  In Sample.contract1 (contracts Fixtures.db_files)
  /\ forall x,
       In x (payments
               (snd (Flask.serve (Views.delete_contract Fixtures.acme 1) (Some 1)
                       Fixtures.db_files))) ->
       Payment.contract_id x <> 1.
Proof.
  assert (H : In Sample.contract1 (contracts Fixtures.db_files))
    by (simpl; auto).
  split; [exact H|].
  exact (proj1 (proj2 (proj2 (proj2 (proj2 (proj2 (proj2
    (delete_contract_cascades Fixtures.acme 1 1 Fixtures.db_files
       Sample.contract1 H eq_refl)))))))).
Defined.

(** X10. Deleting a contract leaves every other contract as it was: its row
    stays, and its status and its finance summary are the same before and
    after, whichever sales information is handed in. *)
Theorem delete_contract_spares_others (company : Contract.t -> option string)
  (cid uid : Z) (db : Store) (c other : Contract.t) :
  In c (contracts db) -> Contract.id c = cid ->
  Contract.id other <> cid ->
  let db' := snd (Flask.serve (Views.delete_contract company cid) (Some uid) db) in
  (In other (contracts db) -> In other (contracts db'))
  /\ Contracts.get_contract_status db' other
     = Contracts.get_contract_status db other
  /\ (forall sales,
        FinanceService.get_contract_finance_summary db' other sales
        = FinanceService.get_contract_finance_summary db other sales).
Proof.
  intros Hin Hid Hne db'.
  destruct (contract_found cid db c Hin Hid) as (c0 & Hc & _).
  destruct (delete_contract_run company cid uid db c0 Hc) as [text Hrun].
  subst db'. rewrite Hrun. cbn [snd].
  split; [|split].
  - intros Ho. cbn [with_operation_logs Views.purge contracts].
    apply List.filter_In. split; [exact Ho|].
    apply negb_true_iff, Z.eqb_neq. exact Hne.
  - unfold Contracts.get_contract_status, Contracts.status_site,
      Contracts.has_tasks, Contracts.has_payments, Contracts.has_invoices,
      Contracts.has_acceptance, Contracts.has_accepted,
      Contracts.has_unresolved_feedback, Py.count.
    cbn [with_operation_logs Views.purge tasks payments invoices acceptances
         feedbacks].
    rewrite (filter_other Task.contract_id), (filter_other Payment.contract_id),
      (filter_other Invoice.contract_id), (filter_other Acceptance.contract_id)
      by exact Hne.
    replace (List.filter
               (fun f => (Feedback.contract_id f =? Contract.id other)
                         && negb (Feedback.is_resolved f))
               (List.filter (fun r => negb (Feedback.contract_id r =? cid))
                  (feedbacks db)))
      with (List.filter
              (fun f => (Feedback.contract_id f =? Contract.id other)
                        && negb (Feedback.is_resolved f))
              (feedbacks db)); [reflexivity|].
    rewrite <- !(filter_twice (fun f => Feedback.contract_id f =? Contract.id other)
                   (fun f => negb (Feedback.is_resolved f))).
    now rewrite (filter_other Feedback.contract_id).
  - intros sales.
    unfold FinanceService.get_contract_finance_summary,
      FinanceService.contract_payments, FinanceService.contract_refunds,
      FinanceService.contract_invoices.
    cbn [with_operation_logs Views.purge payments invoices refunds sales_infos].
    rewrite (filter_other Payment.contract_id), (filter_other Invoice.contract_id),
      (filter_other Refund.contract_id), (find_other SalesInfo.contract_id)
      by exact Hne.
    reflexivity.
Qed.

(** Deleting contract 1 of two: contract 8 keeps its row, it is complete
    before and after, and its summary is the same, 395.00 received net of
    the 900.00 quoted and 100.00 invoiced. *)
Lemma delete_contract_spares_others_witness :
  let db' :=
    snd (Flask.serve (Views.delete_contract Fixtures.acme 1) (Some 1)
           Fixtures.db_two) in
  In Fixtures.contract8 (contracts db')
  /\ Contracts.get_contract_status db' Fixtures.contract8
     = Contracts.get_contract_status Fixtures.db_two Fixtures.contract8
  /\ Contracts.get_contract_status Fixtures.db_two Fixtures.contract8
     = ("已完成", "green")
  /\ FinanceService.get_contract_finance_summary db' Fixtures.contract8 None
     = FinanceService.get_contract_finance_summary Fixtures.db_two
         Fixtures.contract8 None
  /\ FinanceService.get_contract_finance_summary Fixtures.db_two
       Fixtures.contract8 None
     = inr (FinanceService.mkSummary (Some 90000) 40000 500 39500 10000
              (Some 50500) (Some 80000)).
Proof.
  cbv zeta.
  destruct (delete_contract_spares_others Fixtures.acme 1 1 Fixtures.db_two
              Sample.contract1 Fixtures.contract8) as (Hrow & Hstatus & Hsum).
  - simpl. auto.
  - reflexivity.
  - discriminate.
  - split; [apply Hrow; simpl; auto|]. split; [exact Hstatus|].
    split; [reflexivity|]. split; [apply Hsum|]. vm_compute. reflexivity.
Defined.

(** X11. Deleting a contract adds exactly one row to the log and removes
    none: the committed log is the log before followed by one row with the
    action [contract.delete], the target type [Contract], the id of the
    contract and a payload that was encoded; the users are untouched. *)
Theorem delete_contract_logged (company : Contract.t -> option string)
  (cid uid : Z) (db : Store) (c : Contract.t) :
  In c (contracts db) -> Contract.id c = cid ->
  let db' := snd (Flask.serve (Views.delete_contract company cid) (Some uid) db) in
  users db' = users db
  /\ exists entry,
       operation_logs db' = (operation_logs db ++ [entry])%list
       /\ OperationLog.action entry = "contract.delete"
       /\ OperationLog.target_type entry = Some "Contract"
       /\ OperationLog.target_id entry = Some cid
       /\ OperationLog.user_id entry
          = option_map User.id (Views.lookup_user uid db)
       /\ OperationLog.extra_data entry <> None.
Proof.
  intros Hin Hid db'.
  destruct (contract_found cid db c Hin Hid) as (c0 & Hc & _).
  destruct (delete_contract_run company cid uid db c0 Hc) as [text Hrun].
  subst db'. rewrite Hrun. cbn [snd]. split; [reflexivity|].
  eexists. split; [reflexivity|]. cbn. repeat split. discriminate.
Qed.

Lemma delete_contract_logged_witness :
  exists entry,
    operation_logs
      (snd (Flask.serve (Views.delete_contract Fixtures.acme 1) (Some 1)
              Fixtures.db_files))
    = (operation_logs Fixtures.db_files ++ [entry])%list
    /\ OperationLog.action entry = "contract.delete".
Proof.
  destruct (delete_contract_logged Fixtures.acme 1 1 Fixtures.db_files
              Sample.contract1) as [_ [entry (H1 & H2 & _)]].
  - simpl. auto.
  - reflexivity.
  - exists entry. split; assumption.
Defined.

(** X12. Once a contract is deleted, its status is that of a contract that
    was never started, and asking again to delete it fails with the 404
    error and changes nothing. *)
Theorem delete_contract_twice (company : Contract.t -> option string)
  (cid uid uid' : Z) (db : Store) (c : Contract.t) :
  In c (contracts db) -> Contract.id c = cid ->
  let db' := snd (Flask.serve (Views.delete_contract company cid) (Some uid) db) in
  Contracts.get_contract_status db' c = ("未启动", "grey")
  /\ Flask.serve (Views.delete_contract company cid) (Some uid') db'
     = (Flask.Raised Json.NotFound, db').
Proof.
  intros Hin Hid db'.
  destruct (contract_found cid db c Hin Hid) as (c0 & Hc & _).
  destruct (delete_contract_run company cid uid db c0 Hc) as [text Hrun].
  subst db'. rewrite Hrun. cbn [snd]. split.
  - unfold Contracts.get_contract_status, Contracts.status_site,
      Contracts.has_tasks, Contracts.has_payments, Contracts.has_invoices,
      Contracts.has_acceptance, Contracts.has_accepted,
      Contracts.has_unresolved_feedback, Py.count.
    cbn [with_operation_logs Views.purge tasks payments invoices acceptances
         feedbacks].
    rewrite Hid.
    rewrite (filter_same_empty Task.contract_id),
      (filter_same_empty Payment.contract_id),
      (filter_same_empty Invoice.contract_id),
      (filter_same_empty Acceptance.contract_id).
    reflexivity.
  - apply delete_contract_missing.
    cbn [with_operation_logs Views.purge contracts].
    apply find_none_iff. intros x Hx. apply filter_out_spec in Hx.
    now apply Z.eqb_neq.
Qed.

Lemma delete_contract_twice_witness :
  Flask.serve (Views.delete_contract Fixtures.acme 1) (Some 2)
    (snd (Flask.serve (Views.delete_contract Fixtures.acme 1) (Some 1)
            Fixtures.db_files))
  = (Flask.Raised Json.NotFound,
     snd (Flask.serve (Views.delete_contract Fixtures.acme 1) (Some 1)
            Fixtures.db_files)).
Proof.
  refine (proj2 (delete_contract_twice Fixtures.acme 1 1 2 Fixtures.db_files
                   Sample.contract1 _ eq_refl)).
  simpl. auto.
Defined.

(** ** Soft-deleting a file *)

Ltac unfold_tables_in H :=
  cbv beta delta
    [users contracts tasks leaders procurement_items acceptances payments
     invoices refunds feedbacks sales_infos project_files operation_logs] in H.

Lemma delete_file_test_is_service_rule
  (user : option User.t) (c : Contract.t) (pf : ProjectFile.t) :
  FileService.allowed (FileService.evaluate_file_delete user c pf)
  = negb match user with
         | None => true
         | Some u =>
             negb (Py.opt_int_eqb (Some (User.id u)) (ProjectFile.uploader_id pf))
             && negb (Py.str_in (FileService._get_role user) ["admin"; "boss"])
         end.
Proof.
  unfold FileService.evaluate_file_delete.
  destruct user as [u|]; [|reflexivity].
  destruct (negb (Py.opt_int_eqb _ _) && negb (Py.str_in _ _)); reflexivity.
Qed.

Lemma delete_file_run (cid fid uid : Z) (db : Store) (c : Contract.t)
  (pf : ProjectFile.t) :
  List.find (fun r => Contract.id r =? cid) (contracts db) = Some c ->
  List.find
    (fun f => (ProjectFile.id f =? fid)
              && (ProjectFile.contract_id f =? Contract.id c)
              && negb (ProjectFile.is_deleted f))
    (project_files db) = Some pf ->
  let user := Views.lookup_user uid db in
  let d := FileService.evaluate_file_delete user c pf in
  Views.delete_file cid fid (Flask.mkWorld db db (Some uid) [])
  = if FileService.allowed d then
      (Flask.Returned (Flask.Redirect "contracts.manage_files" (Some (Contract.id c))),
       let db' :=
         with_operation_logs
           (with_project_files db
              (List.map
                 (fun r => if ProjectFile.id r =? ProjectFile.id pf
                           then Views.mark_deleted r else r)
                 (project_files db)))
           (operation_logs db
            ++ [OperationLog.mk (option_map User.id user)
                  (FileService.log_action d) (Some "ProjectFile")
                  (Some (ProjectFile.id pf))
                  (Some (FileService.log_message d))
                  (match Json.dumps (Json.PDict (FileService.log_extra d)) with
                   | inr text => Some text
                   | inl _ => None
                   end)]) in
       Flask.mkWorld db' db' (Some uid)
         ["文件已标记为删除（普通用户将无法再访问）"])
    else
      (Flask.Returned (Flask.Redirect "contracts.manage_files" (Some (Contract.id c))),
       Flask.mkWorld db db (Some uid)
         [match FileService.flash_message d with Some m => m | None => "" end]).
Proof.
  intros Hc Hf user d. subst d.
  rewrite delete_file_test_is_service_rule.
  unfold FileService.evaluate_file_delete, FileService._get_role.
  subst user. run_view. unfold_tables_in Hc. unfold_tables_in Hf.
  destruct (Py.truthy_int (Some uid)); cbv beta iota zeta;
    rewrite Hc; cbv beta iota zeta; rewrite Hf; cbv beta iota zeta.
  - destruct (List.find (fun u : User.t => User.id u =? uid) _) as [u|];
      [|reflexivity].
    destruct (negb (Py.opt_int_eqb _ _) && negb (Py.str_in _ _));
      reflexivity.
  - reflexivity.
Qed.

Lemma delete_file_missing (cid fid uid : Z) (db : Store) :
  (List.find (fun r => Contract.id r =? cid) (contracts db) = None
   \/ exists c,
        List.find (fun r => Contract.id r =? cid) (contracts db) = Some c
        /\ List.find
             (fun f => (ProjectFile.id f =? fid)
                       && (ProjectFile.contract_id f =? Contract.id c)
                       && negb (ProjectFile.is_deleted f))
             (project_files db) = None) ->
  Views.delete_file cid fid (Flask.mkWorld db db (Some uid) [])
  = (Flask.Raised Json.NotFound, Flask.mkWorld db db (Some uid) []).
Proof.
  intros [Hc|(c & Hc & Hf)]; run_view; unfold_tables_in Hc.
  - destruct (Py.truthy_int (Some uid)); cbv beta iota zeta;
      rewrite Hc; reflexivity.
  - unfold_tables_in Hf.
    destruct (Py.truthy_int (Some uid)); cbv beta iota zeta;
      rewrite Hc; cbv beta iota zeta; rewrite Hf; reflexivity.
Qed.

(** X13. When the contract and a file of it that is not deleted are found
    and [evaluate_file_delete] allows the user of the session, the
    file-delete view marks the file deleted and commits with it one log row,
    which is the audit record the service prepares: its action
    ([file.delete_soft]), its message and its extra payload encoded. *)
Theorem delete_file_granted (cid fid uid : Z) (db : Store) (c : Contract.t)
  (pf : ProjectFile.t) :
  List.find (fun r => Contract.id r =? cid) (contracts db) = Some c ->
  List.find
    (fun f => (ProjectFile.id f =? fid)
              && (ProjectFile.contract_id f =? Contract.id c)
              && negb (ProjectFile.is_deleted f))
    (project_files db) = Some pf ->
  let user := Views.lookup_user uid db in
  let d := FileService.evaluate_file_delete user c pf in
  FileService.allowed d = true ->
  let r := Flask.serve (Views.delete_file cid fid) (Some uid) db in
  fst r = Flask.Returned
            (Flask.Redirect "contracts.manage_files" (Some (Contract.id c)))
  /\ project_files (snd r)
     = List.map
         (fun x => if ProjectFile.id x =? fid then Views.mark_deleted x else x)
         (project_files db)
  /\ exists text,
       Json.dumps (Json.PDict (FileService.log_extra d)) = inr text
       /\ operation_logs (snd r)
          = (operation_logs db
             ++ [OperationLog.mk (option_map User.id user)
                   (FileService.log_action d) (Some "ProjectFile") (Some fid)
                   (Some (FileService.log_message d)) (Some text)])%list
       /\ FileService.log_action d = "file.delete_soft".
Proof.
  intros Hc Hf user d Hd r.
  assert (Hid : ProjectFile.id pf = fid).
  { apply List.find_some in Hf. destruct Hf as [_ Hf].
    apply andb_true_iff in Hf. destruct Hf as [Hf _].
    apply andb_true_iff in Hf. destruct Hf as [Hf _]. now apply Z.eqb_eq. }
  subst r. unfold Flask.serve.
  rewrite (delete_file_run cid fid uid db c pf Hc Hf).
  fold user. fold d. rewrite Hd. cbn [fst snd Flask.committed].
  rewrite Hid.
  split; [reflexivity|]. split; [reflexivity|].
  assert (Hsoft : FileService.log_action d = "file.delete_soft"
                  /\ FileService.log_extra d
                     = [("contract_id", Json.PInt (Contract.id c));
                        ("stored_filename",
                         Json.PStr (ProjectFile.stored_filename pf));
                        ("file_type", Json.PStr (ProjectFile.file_type pf))]).
  { subst d. revert Hd. unfold FileService.evaluate_file_delete.
    destruct (match user with None => true | Some _ => _ end);
      [discriminate|]. intros _. split; reflexivity. }
  destruct Hsoft as [Ha He].
  eexists. split; [rewrite He; reflexivity|].
  split; [|exact Ha].
  cbn [with_operation_logs operation_logs]. rewrite He. reflexivity.
Qed.

Lemma delete_file_granted_witness :
  FileService.allowed
    (FileService.evaluate_file_delete (Views.lookup_user 1 Fixtures.db_files)
       Sample.contract1 Sample.drawing) = true
  /\ project_files
       (snd (Flask.serve (Views.delete_file 1 11) (Some 1) Fixtures.db_files))
     = [Views.mark_deleted Sample.drawing].
Proof.
  split; [reflexivity|].
  exact (proj1 (proj2 (delete_file_granted 1 11 1 Fixtures.db_files
                         Sample.contract1 Sample.drawing eq_refl eq_refl eq_refl))).
Defined.

(** X14. When [evaluate_file_delete] refuses the user of the session, the
    file-delete view flashes the refusal of the service and redirects, and
    nothing is written: the session is as before, so the log row with action
    [file.delete_denied] that the service prepares is not added. *)
Theorem delete_file_refused (cid fid uid : Z) (db : Store) (c : Contract.t)
  (pf : ProjectFile.t) :
  List.find (fun r => Contract.id r =? cid) (contracts db) = Some c ->
  List.find
    (fun f => (ProjectFile.id f =? fid)
              && (ProjectFile.contract_id f =? Contract.id c)
              && negb (ProjectFile.is_deleted f))
    (project_files db) = Some pf ->
  let d := FileService.evaluate_file_delete (Views.lookup_user uid db) c pf in
  FileService.allowed d = false ->
  FileService.log_action d = "file.delete_denied"
  /\ exists message,
       FileService.flash_message d = Some message
       /\ Views.delete_file cid fid (Flask.mkWorld db db (Some uid) [])
          = (Flask.Returned
               (Flask.Redirect "contracts.manage_files" (Some (Contract.id c))),
             Flask.mkWorld db db (Some uid) [message]).
Proof.
  intros Hc Hf d Hd.
  rewrite (delete_file_run cid fid uid db c pf Hc Hf).
  fold d. rewrite Hd.
  assert (H : FileService.log_action d = "file.delete_denied"
              /\ FileService.flash_message d = Some "你没有权限删除此文件").
  { subst d. revert Hd. unfold FileService.evaluate_file_delete.
    destruct (match Views.lookup_user uid db with None => true | Some _ => _ end);
      [|discriminate]. intros _. split; reflexivity. }
  destruct H as [Ha Hm]. split; [exact Ha|].
  eexists. split; [exact Hm|]. rewrite Hm. reflexivity.
Qed.

Lemma delete_file_refused_witness :
  FileService.allowed
    (FileService.evaluate_file_delete (Views.lookup_user 2 Fixtures.db_files)
       Sample.contract1 Sample.drawing) = false
  /\ FileService.log_action
       (FileService.evaluate_file_delete (Views.lookup_user 2 Fixtures.db_files)
          Sample.contract1 Sample.drawing) = "file.delete_denied".
Proof.
  split; [reflexivity|].
  exact (proj1 (delete_file_refused 1 11 2 Fixtures.db_files Sample.contract1
                  Sample.drawing eq_refl eq_refl eq_refl)).
Defined.

Lemma Forall2_same {A : Type} (R : A -> A -> Prop) (l : list A) :
  (forall x, R x x) -> List.Forall2 R l l.
Proof. intros H. induction l; constructor; auto. Qed.

Lemma Forall2_map_right {A : Type} (R : A -> A -> Prop) (f : A -> A) (l : list A) :
  (forall x, R x (f x)) -> List.Forall2 R l (List.map f l).
Proof. intros H. induction l; simpl; constructor; auto. Qed.

(** X15. The file-delete view never removes a file row and never touches
    another table than the log: whatever the request, every file row of the
    committed store is the row before or that row marked deleted, the eleven
    other tables are the same, and the log has grown by at most one row. *)
Theorem delete_file_keeps_rows (cid fid : Z) (session : option Z) (db : Store) :
  let db' := snd (Flask.serve (Views.delete_file cid fid) session db) in
  List.Forall2 (fun old new => new = old \/ new = Views.mark_deleted old)
    (project_files db) (project_files db')
  /\ (users db' = users db /\ contracts db' = contracts db
      /\ tasks db' = tasks db /\ leaders db' = leaders db
      /\ procurement_items db' = procurement_items db
      /\ acceptances db' = acceptances db /\ payments db' = payments db
      /\ invoices db' = invoices db /\ refunds db' = refunds db
      /\ feedbacks db' = feedbacks db /\ sales_infos db' = sales_infos db)
  /\ exists added,
       operation_logs db' = (operation_logs db ++ added)%list
       /\ (List.length added <= 1)%nat.
Proof.
  intros db'.
  assert (Hsame : snd (Flask.serve (Views.delete_file cid fid) session db) = db ->
                  List.Forall2 (fun old new => new = old \/ new = Views.mark_deleted old)
                    (project_files db) (project_files db')
                  /\ (users db' = users db /\ contracts db' = contracts db
                      /\ tasks db' = tasks db /\ leaders db' = leaders db
                      /\ procurement_items db' = procurement_items db
                      /\ acceptances db' = acceptances db /\ payments db' = payments db
                      /\ invoices db' = invoices db /\ refunds db' = refunds db
                      /\ feedbacks db' = feedbacks db
                      /\ sales_infos db' = sales_infos db)
                  /\ exists added,
                       operation_logs db' = (operation_logs db ++ added)%list
                       /\ (List.length added <= 1)%nat).
  { intros E. subst db'. rewrite E. split; [apply Forall2_same; auto|].
    split; [repeat split|]. exists []. split; [now rewrite List.app_nil_r|].
    simpl. lia. }
  destruct session as [uid|]; [|apply Hsame; reflexivity].
  destruct (List.find (fun r => Contract.id r =? cid) (contracts db)) as [c|] eqn:Hc.
  2:{ apply Hsame. unfold Flask.serve.
      rewrite (delete_file_missing cid fid uid db); [reflexivity|now left]. }
  destruct (List.find
              (fun f => (ProjectFile.id f =? fid)
                        && (ProjectFile.contract_id f =? Contract.id c)
                        && negb (ProjectFile.is_deleted f))
              (project_files db)) as [pf|] eqn:Hf.
  2:{ apply Hsame. unfold Flask.serve.
      rewrite (delete_file_missing cid fid uid db); [reflexivity|].
      right. exists c. split; assumption. }
  destruct (FileService.allowed
              (FileService.evaluate_file_delete (Views.lookup_user uid db) c pf))
    eqn:Hd.
  - clear Hsame. subst db'. unfold Flask.serve.
    rewrite (delete_file_run cid fid uid db c pf Hc Hf). rewrite Hd.
    cbn [snd Flask.committed with_operation_logs with_project_files
         project_files users contracts tasks leaders procurement_items
         acceptances payments invoices refunds feedbacks sales_infos
         operation_logs].
    split.
    + apply Forall2_map_right. intros x.
      destruct (ProjectFile.id x =? ProjectFile.id pf); auto.
    + split; [repeat split|]. eexists. split; [reflexivity|]. simpl. lia.
  - apply Hsame. unfold Flask.serve.
    rewrite (delete_file_run cid fid uid db c pf Hc Hf). rewrite Hd. reflexivity.
Qed.

Lemma find_map_none {A : Type} (p : A -> bool) (f : A -> A) (l : list A) :
  (forall x, In x l -> p (f x) = false) -> List.find p (List.map f l) = None.
Proof.
  intros H. apply find_none_iff. intros y Hy.
  apply List.in_map_iff in Hy. destruct Hy as (x & <- & Hx). now apply H.
Qed.

(** X16. A file that has been soft-deleted is out of reach of the view:
    once a delete was granted, the same request, by whatever user, fails
    with the 404 error and changes nothing. *)
Theorem delete_file_twice (cid fid uid uid' : Z) (db : Store) (c : Contract.t)
  (pf : ProjectFile.t) :
  List.find (fun r => Contract.id r =? cid) (contracts db) = Some c ->
  List.find
    (fun f => (ProjectFile.id f =? fid)
              && (ProjectFile.contract_id f =? Contract.id c)
              && negb (ProjectFile.is_deleted f))
    (project_files db) = Some pf ->
  FileService.allowed
    (FileService.evaluate_file_delete (Views.lookup_user uid db) c pf) = true ->
  let db' := snd (Flask.serve (Views.delete_file cid fid) (Some uid) db) in
  Flask.serve (Views.delete_file cid fid) (Some uid') db'
  = (Flask.Raised Json.NotFound, db').
Proof.
  intros Hc Hf Hd db'.
  assert (Hid : ProjectFile.id pf = fid).
  { apply List.find_some in Hf. destruct Hf as [_ Hf].
    apply andb_true_iff in Hf. destruct Hf as [Hf _].
    apply andb_true_iff in Hf. destruct Hf as [Hf _]. now apply Z.eqb_eq. }
  assert (E : db' = with_operation_logs
                      (with_project_files db
                         (List.map
                            (fun r => if ProjectFile.id r =? ProjectFile.id pf
                                      then Views.mark_deleted r else r)
                            (project_files db)))
                      (operation_logs db')).
  { subst db'. unfold Flask.serve.
    rewrite (delete_file_run cid fid uid db c pf Hc Hf). rewrite Hd. reflexivity. }
  unfold Flask.serve at 1.
  rewrite (delete_file_missing cid fid uid' db'); [reflexivity|].
  right. exists c. rewrite E.
  cbn [with_operation_logs with_project_files contracts project_files].
  split; [exact Hc|].
  apply find_map_none. intros x _. rewrite Hid.
  destruct (Z.eqb_spec (ProjectFile.id x) fid) as [Ex|Ex].
  - cbn [Views.mark_deleted ProjectFile.is_deleted ProjectFile.id
         ProjectFile.contract_id]. cbn [negb]. apply andb_false_r.
  - apply Z.eqb_neq in Ex. rewrite Ex. reflexivity.
Qed.

Lemma delete_file_twice_witness :
  Flask.serve (Views.delete_file 1 11) (Some 2)
    (snd (Flask.serve (Views.delete_file 1 11) (Some 1) Fixtures.db_files))
  = (Flask.Raised Json.NotFound,
     snd (Flask.serve (Views.delete_file 1 11) (Some 1) Fixtures.db_files)).
Proof.
  exact (delete_file_twice 1 11 1 2 Fixtures.db_files Sample.contract1
           Sample.drawing eq_refl eq_refl eq_refl).
Defined.

(** ** Resolving a feedback *)

Lemma set_resolved_run (flag : bool) (cid fid uid : Z) (db : Store)
  (c : Contract.t) (fb : Feedback.t) :
  List.find (fun r => Contract.id r =? cid) (contracts db) = Some c ->
  List.find
    (fun f => (Feedback.id f =? fid) && (Feedback.contract_id f =? Contract.id c))
    (feedbacks db) = Some fb ->
  exists text,
    Flask.serve
      (if flag then Views.resolve_feedback cid fid
       else Views.unresolve_feedback cid fid) (Some uid) db
    = (Flask.Returned
         (Flask.Redirect "contracts.manage_feedbacks" (Some (Contract.id c))),
       with_operation_logs
         (with_feedbacks db
            (List.map
               (fun r => if Feedback.id r =? fid
                         then Feedback.mk (Feedback.id r) (Feedback.contract_id r) flag
                         else r)
               (feedbacks db)))
         (operation_logs db
          ++ [OperationLog.mk (option_map User.id (Views.lookup_user uid db))
                (if flag then "feedback.resolve" else "feedback.unresolve")
                (Some "Feedback") (Some fid)
                (Some (if flag then "标记反馈为已解决" else "标记反馈为未解决"))
                (Some text)])).
Proof.
  intros Hc Hf.
  assert (Hid : Feedback.id fb = fid).
  { apply List.find_some in Hf. destruct Hf as [_ Hf].
    apply andb_true_iff in Hf. destruct Hf as [Hf _]. now apply Z.eqb_eq. }
  exists ("{" ++ Json.encode_str "contract_id" ++ ": "
          ++ Json.str_int (Contract.id c) ++ "}").
  unfold_tables_in Hc. unfold_tables_in Hf.
  destruct flag; run_view;
    (destruct (Py.truthy_int (Some uid)); cbv beta iota zeta;
     rewrite Hc; cbv beta iota zeta; rewrite Hf; cbv beta iota zeta;
     rewrite Hid; reflexivity).
Qed.

Lemma red_status_flags (db : Store) (c : Contract.t) :
  fst (Contracts.get_contract_status db c) = "已回款，有未解决问题" ->
  Contracts.has_accepted db (Contract.id c) = true
  /\ Contracts.has_payments db (Contract.id c) = true.
Proof.
  unfold Contracts.get_contract_status, Contracts.status_site.
  destruct (Contracts.has_tasks db (Contract.id c)),
    (Contracts.has_payments db (Contract.id c)),
    (Contracts.has_invoices db (Contract.id c)),
    (Contracts.has_acceptance db (Contract.id c)),
    (Contracts.has_accepted db (Contract.id c)),
    (Contracts.has_unresolved_feedback db (Contract.id c));
    cbn; intros H; try (split; reflexivity); discriminate H.
Qed.

(** X17. If a contract is paid with open issues and all its unresolved
    feedback rows carry one id, resolving the feedback with that id makes the
    contract complete. *)
Theorem resolve_feedback_completes (cid fid uid : Z) (db : Store)
  (c : Contract.t) (fb : Feedback.t) :
  List.find (fun r => Contract.id r =? cid) (contracts db) = Some c ->
  List.find
    (fun f => (Feedback.id f =? fid) && (Feedback.contract_id f =? Contract.id c))
    (feedbacks db) = Some fb ->
  Contracts.get_contract_status db c = ("已回款，有未解决问题", "red") ->
  (forall f, In f (feedbacks db) -> Feedback.contract_id f = Contract.id c ->
             Feedback.is_resolved f = false -> Feedback.id f = fid) ->
  Contracts.get_contract_status
    (snd (Flask.serve (Views.resolve_feedback cid fid) (Some uid) db)) c
  = ("已完成", "green").
Proof.
  intros Hc Hf Hred Honly.
  destruct (set_resolved_run true cid fid uid db c fb Hc Hf) as [text Hrun].
  cbv iota in Hrun. rewrite Hrun. cbn [snd].
  destruct (red_status_flags db c) as [Hacc Hpay]; [now rewrite Hred|].
  unfold Contracts.get_contract_status, Contracts.status_site.
  assert (Hacc' : Contracts.has_accepted
                    (with_operation_logs (with_feedbacks db
                       (List.map
                          (fun r => if Feedback.id r =? fid
                                    then Feedback.mk (Feedback.id r)
                                           (Feedback.contract_id r) true
                                    else r) (feedbacks db)))
                       (operation_logs db ++ [OperationLog.mk
                          (option_map User.id (Views.lookup_user uid db))
                          "feedback.resolve" (Some "Feedback") (Some fid)
                          (Some "标记反馈为已解决") (Some text)]))
                    (Contract.id c) = true) by exact Hacc.
  assert (Hpay' : Contracts.has_payments
                    (with_operation_logs (with_feedbacks db
                       (List.map
                          (fun r => if Feedback.id r =? fid
                                    then Feedback.mk (Feedback.id r)
                                           (Feedback.contract_id r) true
                                    else r) (feedbacks db)))
                       (operation_logs db ++ [OperationLog.mk
                          (option_map User.id (Views.lookup_user uid db))
                          "feedback.resolve" (Some "Feedback") (Some fid)
                          (Some "标记反馈为已解决") (Some text)]))
                    (Contract.id c) = true) by exact Hpay.
  rewrite Hacc', Hpay'.
  assert (Hopen : Contracts.has_unresolved_feedback
                    (with_operation_logs (with_feedbacks db
                       (List.map
                          (fun r => if Feedback.id r =? fid
                                    then Feedback.mk (Feedback.id r)
                                           (Feedback.contract_id r) true
                                    else r) (feedbacks db)))
                       (operation_logs db ++ [OperationLog.mk
                          (option_map User.id (Views.lookup_user uid db))
                          "feedback.resolve" (Some "Feedback") (Some fid)
                          (Some "标记反馈为已解决") (Some text)]))
                    (Contract.id c) = false).
  { unfold Contracts.has_unresolved_feedback, Py.count.
    cbn [with_operation_logs with_feedbacks feedbacks].
    replace (List.filter _ (List.map _ (feedbacks db))) with (@nil Feedback.t);
      [reflexivity|].
    symmetry. clear - Honly.
    induction (feedbacks db) as [|f l IH]; [reflexivity|].
    cbn [List.map List.filter].
    rewrite IH by (intros; apply Honly; auto; now right).
    destruct (Z.eqb_spec (Feedback.id f) fid) as [E|E].
    + cbn. now rewrite andb_false_r.
    + destruct (Z.eqb_spec (Feedback.contract_id f) (Contract.id c)) as [Ec|Ec];
        [|reflexivity].
      destruct (Feedback.is_resolved f) eqn:Er; [reflexivity|].
      exfalso. apply E. apply Honly; auto. now left. }
  rewrite Hopen.
  destruct (Contracts.has_tasks _ _), (Contracts.has_invoices _ _),
    (Contracts.has_acceptance _ _); reflexivity.
Qed.

Lemma resolve_feedback_completes_witness :
  Contracts.get_contract_status Fixtures.db_files Sample.contract1
  = ("已回款，有未解决问题", "red")
  /\ Contracts.get_contract_status
       (snd (Flask.serve (Views.resolve_feedback 1 2) (Some 1) Fixtures.db_files))
       Sample.contract1
     = ("已完成", "green").
Proof.
  split; [reflexivity|].
  apply (resolve_feedback_completes 1 2 1 Fixtures.db_files Sample.contract1
           (Feedback.mk 2 1 false) eq_refl eq_refl eq_refl).
  simpl. intros f [<-|[<-|[]]] _ H; [discriminate H|reflexivity].
Defined.

Lemma find_map_preserving {A : Type} (p : A -> bool) (g : A -> A) (l : list A) :
  (forall x, p (g x) = p x) ->
  List.find p (List.map g l) = option_map g (List.find p l).
Proof.
  intros H. induction l as [|x l IH]; simpl; [reflexivity|].
  rewrite H. destruct (p x); [reflexivity|exact IH].
Qed.

Lemma set_resolved_back (fid : Z) (l : list Feedback.t) :
  (forall f, In f l -> Feedback.id f = fid -> Feedback.is_resolved f = false) ->
  List.map
    (fun r => if Feedback.id r =? fid
              then Feedback.mk (Feedback.id r) (Feedback.contract_id r) false
              else r)
    (List.map
       (fun r => if Feedback.id r =? fid
                 then Feedback.mk (Feedback.id r) (Feedback.contract_id r) true
                 else r) l)
  = l.
Proof.
  intros H. induction l as [|f l IH]; [reflexivity|].
  cbn [List.map]. rewrite IH by (intros; apply H; auto; now right).
  f_equal.
  destruct (Z.eqb_spec (Feedback.id f) fid) as [E|E].
  - cbn [Feedback.id]. rewrite E, Z.eqb_refl. cbn [Feedback.contract_id].
    rewrite <- E.
    specialize (H f (or_introl eq_refl) E). destruct f as [i k r].
    simpl in *. now rewrite H.
  - apply Z.eqb_neq in E. now rewrite E.
Qed.

(** X18. Resolving a feedback and then marking it unresolved again brings
    the store back, log apart: when the rows with that id were unresolved,
    every table is as before the two requests and the log has two more rows,
    [feedback.resolve] then [feedback.unresolve]; so the status of the
    contract is the one before. *)
Theorem resolve_then_unresolve (cid fid uid : Z) (db : Store)
  (c : Contract.t) (fb : Feedback.t) :
  List.find (fun r => Contract.id r =? cid) (contracts db) = Some c ->
  List.find
    (fun f => (Feedback.id f =? fid) && (Feedback.contract_id f =? Contract.id c))
    (feedbacks db) = Some fb ->
  (forall f, In f (feedbacks db) -> Feedback.id f = fid ->
             Feedback.is_resolved f = false) ->
  let db1 := snd (Flask.serve (Views.resolve_feedback cid fid) (Some uid) db) in
  let db2 := snd (Flask.serve (Views.unresolve_feedback cid fid) (Some uid) db1) in
  with_operation_logs db2 (operation_logs db) = db
  /\ (exists e1 e2,
        operation_logs db2 = (operation_logs db ++ [e1; e2])%list
        /\ OperationLog.action e1 = "feedback.resolve"
        /\ OperationLog.action e2 = "feedback.unresolve")
  /\ Contracts.get_contract_status db2 c = Contracts.get_contract_status db c.
Proof.
  intros Hc Hf Hopen db1 db2.
  destruct (set_resolved_run true cid fid uid db c fb Hc Hf) as [t1 Hrun1].
  cbv iota in Hrun1.
  assert (E1 : db1 = with_operation_logs
                       (with_feedbacks db
                          (List.map
                             (fun r => if Feedback.id r =? fid
                                       then Feedback.mk (Feedback.id r)
                                              (Feedback.contract_id r) true
                                       else r) (feedbacks db)))
                       (operation_logs db
                        ++ [OperationLog.mk
                              (option_map User.id (Views.lookup_user uid db))
                              "feedback.resolve" (Some "Feedback") (Some fid)
                              (Some "标记反馈为已解决") (Some t1)])).
  { subst db1. rewrite Hrun1. reflexivity. }
  assert (Hc1 : List.find (fun r => Contract.id r =? cid) (contracts db1) = Some c).
  { rewrite E1. exact Hc. }
  assert (Hf1 : exists fb1,
             List.find
               (fun f => (Feedback.id f =? fid)
                         && (Feedback.contract_id f =? Contract.id c))
               (feedbacks db1) = Some fb1).
  { rewrite E1. cbn [with_operation_logs with_feedbacks feedbacks].
    rewrite find_map_preserving.
    - rewrite Hf. eexists. reflexivity.
    - intros x. cbv beta.
      destruct (Feedback.id x =? fid) eqn:Ex;
        cbn [Feedback.id Feedback.contract_id]; rewrite ?Ex; reflexivity. }
  destruct Hf1 as [fb1 Hf1].
  destruct (set_resolved_run false cid fid uid db1 c fb1 Hc1 Hf1) as [t2 Hrun2].
  cbv iota in Hrun2.
  assert (E2 : db2 = with_operation_logs
                       (with_feedbacks db1
                          (List.map
                             (fun r => if Feedback.id r =? fid
                                       then Feedback.mk (Feedback.id r)
                                              (Feedback.contract_id r) false
                                       else r) (feedbacks db1)))
                       (operation_logs db1
                        ++ [OperationLog.mk
                              (option_map User.id (Views.lookup_user uid db1))
                              "feedback.unresolve" (Some "Feedback") (Some fid)
                              (Some "标记反馈为未解决") (Some t2)])).
  { subst db2. rewrite Hrun2. reflexivity. }
  assert (Hfb : feedbacks db2 = feedbacks db).
  { rewrite E2, E1. cbn [with_operation_logs with_feedbacks feedbacks].
    now apply set_resolved_back. }
  assert (Hstore : with_operation_logs db2 (operation_logs db) = db).
  { unfold with_operation_logs at 1. rewrite Hfb. rewrite E2, E1.
    cbn [with_operation_logs with_feedbacks users contracts tasks leaders
         procurement_items acceptances payments invoices refunds sales_infos
         project_files]. destruct db; reflexivity. }
  split; [exact Hstore|]. split.
  - eexists _, _. split; [|split].
    + rewrite E2, E1. cbn [with_operation_logs with_feedbacks operation_logs].
      rewrite <- List.app_assoc. reflexivity.
    + reflexivity.
    + reflexivity.
  - transitivity
      (Contracts.get_contract_status
         (with_operation_logs db2 (operation_logs db)) c);
      [reflexivity|now rewrite Hstore].
Qed.

Lemma resolve_then_unresolve_witness :
  feedbacks
    (snd (Flask.serve (Views.unresolve_feedback 1 2) (Some 1)
            (snd (Flask.serve (Views.resolve_feedback 1 2) (Some 1)
                    Fixtures.db_files))))
  = feedbacks Fixtures.db_files.
Proof.
  destruct (resolve_then_unresolve 1 2 1 Fixtures.db_files Sample.contract1
              (Feedback.mk 2 1 false) eq_refl eq_refl) as [H _].
  - simpl. intros f [<-|[<-|[]]] H; [discriminate H|reflexivity].
  - apply (f_equal feedbacks) in H. exact H.
Defined.

(** ** Status and finance, in terms of rows *)

Lemma count_positive_iff {A : Type} (keep : A -> bool) (rows : list A) :
  (0 <? Py.count keep rows) = true <-> exists x, In x rows /\ keep x = true.
Proof.
  unfold Py.count. split.
  - destruct (List.filter keep rows) as [|x l] eqn:E; [discriminate|].
    intros _. exists x. apply List.filter_In. rewrite E. now left.
  - intros (x & Hin & Hk).
    assert (H : In x (List.filter keep rows)) by (apply List.filter_In; auto).
    destruct (List.filter keep rows); [contradiction|reflexivity].
Qed.

Lemma count_zero_iff {A : Type} (keep : A -> bool) (rows : list A) :
  (0 <? Py.count keep rows) = false <-> forall x, In x rows -> keep x = false.
Proof.
  split.
  - intros H x Hin. destruct (keep x) eqn:E; [|reflexivity].
    assert (Hp : (0 <? Py.count keep rows) = true)
      by (apply count_positive_iff; eauto).
    congruence.
  - intros H. destruct (0 <? Py.count keep rows) eqn:E; [|reflexivity].
    apply count_positive_iff in E. destruct E as (x & Hin & Hk).
    rewrite (H x Hin) in Hk. discriminate.
Qed.

(** X20. In terms of rows: a contract has the status not started exactly
    when no task, acceptance, payment or invoice row points to it; and it
    has the status complete exactly when an acceptance row of it has the
    status passed, a payment row points to it and none of its feedback rows
    is unresolved. *)
Theorem status_by_rows (db : Store) (c : Contract.t) :
  (Contracts.get_contract_status db c = ("未启动", "grey") <->
     (forall t, In t (tasks db) -> Task.contract_id t <> Contract.id c)
     /\ (forall a, In a (acceptances db) ->
                   Acceptance.contract_id a <> Contract.id c)
     /\ (forall p, In p (payments db) -> Payment.contract_id p <> Contract.id c)
     /\ (forall i, In i (invoices db) -> Invoice.contract_id i <> Contract.id c))
  /\ (Contracts.get_contract_status db c = ("已完成", "green") <->
        (exists a, In a (acceptances db)
                   /\ Acceptance.contract_id a = Contract.id c
                   /\ Acceptance.status a = Some "通过")
        /\ (exists p, In p (payments db) /\ Payment.contract_id p = Contract.id c)
        /\ (forall f, In f (feedbacks db) ->
                      Feedback.contract_id f = Contract.id c ->
                      Feedback.is_resolved f = true)).
Proof.
  assert (Ht : Contracts.has_tasks db (Contract.id c) = false <->
               forall t, In t (tasks db) -> Task.contract_id t <> Contract.id c).
  { unfold Contracts.has_tasks. rewrite count_zero_iff.
    split; intros H x Hx; specialize (H x Hx); now apply Z.eqb_neq. }
  assert (Ha : Contracts.has_acceptance db (Contract.id c) = false <->
               forall a, In a (acceptances db) ->
                         Acceptance.contract_id a <> Contract.id c).
  { unfold Contracts.has_acceptance. rewrite count_zero_iff.
    split; intros H x Hx; specialize (H x Hx); now apply Z.eqb_neq. }
  assert (Hp : Contracts.has_payments db (Contract.id c) = false <->
               forall p, In p (payments db) ->
                         Payment.contract_id p <> Contract.id c).
  { unfold Contracts.has_payments. rewrite count_zero_iff.
    split; intros H x Hx; specialize (H x Hx); now apply Z.eqb_neq. }
  assert (Hi : Contracts.has_invoices db (Contract.id c) = false <->
               forall i, In i (invoices db) ->
                         Invoice.contract_id i <> Contract.id c).
  { unfold Contracts.has_invoices. rewrite count_zero_iff.
    split; intros H x Hx; specialize (H x Hx); now apply Z.eqb_neq. }
  assert (Hp' : Contracts.has_payments db (Contract.id c) = true <->
                exists p, In p (payments db)
                          /\ Payment.contract_id p = Contract.id c).
  { unfold Contracts.has_payments. rewrite count_positive_iff.
    split; intros (x & Hx & E); exists x; split; auto; now apply Z.eqb_eq. }
  assert (Hacc : Contracts.has_accepted db (Contract.id c) = true <->
                 exists a, In a (acceptances db)
                           /\ Acceptance.contract_id a = Contract.id c
                           /\ Acceptance.status a = Some "通过").
  { unfold Contracts.has_accepted. rewrite count_positive_iff. split.
    - intros (x & Hx & E). apply List.filter_In in Hx. destruct Hx as [Hx Hc].
      exists x. split; [exact Hx|]. split; [now apply Z.eqb_eq|].
      now apply opt_str_eqb_eq.
    - intros (x & Hx & Hc & E). exists x. split.
      + apply List.filter_In. split; [exact Hx|now apply Z.eqb_eq].
      + now apply opt_str_eqb_eq. }
  assert (Hf : Contracts.has_unresolved_feedback db (Contract.id c) = false <->
               forall f, In f (feedbacks db) ->
                         Feedback.contract_id f = Contract.id c ->
                         Feedback.is_resolved f = true).
  { unfold Contracts.has_unresolved_feedback. rewrite count_zero_iff. split.
    - intros H f Hin Hc. specialize (H f Hin).
      apply Z.eqb_eq in Hc. rewrite Hc in H.
      destruct (Feedback.is_resolved f); [reflexivity|discriminate H].
    - intros H f Hin.
      destruct (Z.eqb_spec (Feedback.contract_id f) (Contract.id c)) as [E|E];
        [|reflexivity].
      rewrite (H f Hin E). reflexivity. }
  rewrite <- Ht, <- Ha, <- Hp, <- Hi, <- Hacc, <- Hp', <- Hf.
  unfold Contracts.get_contract_status, Contracts.status_site.
  destruct (Contracts.has_tasks db (Contract.id c)),
    (Contracts.has_payments db (Contract.id c)),
    (Contracts.has_invoices db (Contract.id c)),
    (Contracts.has_acceptance db (Contract.id c)),
    (Contracts.has_accepted db (Contract.id c)),
    (Contracts.has_unresolved_feedback db (Contract.id c)); cbn;
    split; split; intros H; repeat split;
    try reflexivity; try discriminate H;
    try (destruct H as (H1 & H2 & H3); discriminate);
    try (destruct H as (H1 & H2 & H3 & H4); discriminate).
Qed.

Lemma Permutation_filter_keeps {A : Type} (keep : A -> bool) (l l' : list A) :
  Permutation l l' -> Permutation (List.filter keep l) (List.filter keep l').
Proof.
  induction 1 as [|x l l' _ IH|x y l|l l' l'' _ IH1 _ IH2]; simpl.
  - constructor.
  - destruct (keep x); [now constructor|exact IH].
  - destruct (keep x), (keep y); try apply Permutation_refl. constructor.
  - now transitivity (List.filter keep l').
Qed.

Lemma total_Permutation (l l' : list (option Decimal)) :
  Permutation l l' -> Spec.total l = Spec.total l'.
Proof.
  induction 1 as [|x l l' _ IH|x y l|l l' l'' _ IH1 _ IH2]; simpl.
  - reflexivity.
  - destruct x; now rewrite IH.
  - destruct x, y; lia.
  - congruence.
Qed.

Lemma magnitude_Permutation (l l' : list (option Decimal)) :
  Permutation l l' -> Spec.magnitude l = Spec.magnitude l'.
Proof.
  induction 1 as [|x l l' _ IH|x y l|l l' l'' _ IH1 _ IH2]; simpl.
  - reflexivity.
  - destruct x; now rewrite IH.
  - destruct x, y; lia.
  - congruence.
Qed.

(** X21. Within the precision of the decimal context the finance summary
    does not depend on the order in which the store holds the rows: two
    stores whose payment, refund and invoice tables are permutations of each
    other, with the same sales information, give the same summary.  Beyond
    that precision it does: a payment of 99999999999999999999999999.99
    before two payments of 0.04 gives a paid total of
    100000000000000000000000000.00, and after them one of
    100000000000000000000000000.10. *)
Theorem finance_summary_order_free :
  (forall (db1 db2 : Store) (c : Contract.t) (sales : option SalesInfo.t),
      Permutation (payments db1) (payments db2) ->
      Permutation (refunds db1) (refunds db2) ->
      Permutation (invoices db1) (invoices db2) ->
      sales_infos db1 = sales_infos db2 ->
      Spec.within_precision db1 c sales ->
      FinanceService.get_contract_finance_summary db1 c sales
      = FinanceService.get_contract_finance_summary db2 c sales) /\
  (Permutation (payments Fixtures.db_huge_first) (payments Fixtures.db_huge_last)
   /\ exists s1 s2,
        FinanceService.get_contract_finance_summary Fixtures.db_huge_first
          Sample.contract1 None = inr s1
        /\ FinanceService.get_contract_finance_summary Fixtures.db_huge_last
             Sample.contract1 None = inr s2
        /\ FinanceService.paid_total s1 = 10000000000000000000000000000
        /\ FinanceService.paid_total s2 = 10000000000000000000000000010).
Proof.
  split.
  - intros db1 db2 c sales Hp Hr Hi Hs H1.
    assert (Pp : Permutation
                   (List.map Payment.amount (FinanceService.contract_payments db1 c))
                   (List.map Payment.amount (FinanceService.contract_payments db2 c)))
      by (apply Permutation_map, Permutation_filter_keeps, Hp).
    assert (Pr : Permutation
                   (List.map Refund.amount (FinanceService.contract_refunds db1 c))
                   (List.map Refund.amount (FinanceService.contract_refunds db2 c)))
      by (apply Permutation_map, Permutation_filter_keeps, Hr).
    assert (Pi : Permutation
                   (List.map Invoice.amount (FinanceService.contract_invoices db1 c))
                   (List.map Invoice.amount (FinanceService.contract_invoices db2 c)))
      by (apply Permutation_map, Permutation_filter_keeps, Hi).
    assert (Hq : Spec.quote db1 c sales = Spec.quote db2 c sales)
      by (unfold Spec.quote; now rewrite Hs).
    assert (H2 : Spec.within_precision db2 c sales).
    { unfold Spec.within_precision in *.
      rewrite <- (magnitude_Permutation _ _ Pp), <- (magnitude_Permutation _ _ Pr),
        <- (magnitude_Permutation _ _ Pi), <- Hq. exact H1. }
    rewrite (summary_within_precision db1 c sales H1),
      (summary_within_precision db2 c sales H2).
    cbv zeta.
    rewrite (total_Permutation _ _ Pp), (total_Permutation _ _ Pr),
      (total_Permutation _ _ Pi), Hq. reflexivity.
  - split.
    + unfold Fixtures.db_huge_first, Fixtures.db_huge_last. cbn [with_payments payments].
      apply Permutation_sym.
      apply (Permutation_app_comm
               [Payment.mk 2 1 (Some 4) None; Payment.mk 3 1 (Some 4) None]
               [Payment.mk 1 1 (Some Fixtures.huge) None]).
    + eexists _, _. split; [vm_compute; reflexivity|].
      split; [vm_compute; reflexivity|]. split; reflexivity.
Qed.

Lemma finance_summary_order_free_witness :
  Spec.within_precision Sample.db_finance Sample.contract1 None
  /\ FinanceService.get_contract_finance_summary Sample.db_finance
       Sample.contract1 None
     = FinanceService.get_contract_finance_summary
         (with_payments Sample.db_finance
            [Payment.mk 2 1 (Some 5050) None; Payment.mk 1 1 (Some 10000) None;
             Payment.mk 3 8 (Some 77700) None; Payment.mk 4 1 None None])
         Sample.contract1 None.
Proof.
  assert (H : Spec.within_precision Sample.db_finance Sample.contract1 None)
    by (vm_compute; reflexivity).
  split; [exact H|].
  apply (proj1 finance_summary_order_free).
  - apply perm_swap.
  - apply Permutation_refl.
  - apply Permutation_refl.
  - reflexivity.
  - exact H.
Defined.

(** ** Deleting a payment *)

Lemma delete_payment_run (cid pid uid : Z) (db : Store) (c : Contract.t)
  (p : Payment.t) :
  List.find (fun r => Contract.id r =? cid) (contracts db) = Some c ->
  List.find
    (fun r => (Payment.id r =? pid) && (Payment.contract_id r =? Contract.id c))
    (payments db) = Some p ->
  exists text,
    Flask.serve (Contracts.delete_payment cid pid) (Some uid) db
    = (Flask.Returned
         (Flask.Redirect "contracts.manage_payments" (Some (Contract.id c))),
       with_operation_logs
         (with_payments db
            (List.filter (fun r => negb (Payment.id r =? Payment.id p))
               (payments db)))
         (operation_logs db
          ++ [OperationLog.mk (option_map User.id (Views.lookup_user uid db))
                "payment.delete" (Some "Payment") (Some (Payment.id p))
                (Some ("删除付款记录：金额=" ++ Json.str_Decimal (Payment.amount p)))
                (Some text)])).
Proof.
  intros Hc Hp.
  assert (Ht : exists text,
             Json.dumps
               (Json.PDict [("contract_id", Json.PInt (Contract.id c));
                            ("date", Json.of_opt_str (Payment.date p))])
             = inr text).
  { destruct (Payment.date p); eexists; reflexivity. }
  destruct Ht as [text Ht]. exists text.
  unfold_tables_in Hc. unfold_tables_in Hp.
  cbv beta iota zeta delta [Contracts.delete_payment]. run_view.
  destruct (Py.truthy_int (Some uid)); cbv beta iota zeta;
    rewrite Hc; cbv beta iota zeta; rewrite Hp; cbv beta iota zeta;
    rewrite Ht; reflexivity.
Qed.

Lemma filter_all {A : Type} (keep : A -> bool) (l : list A) :
  (forall x, In x l -> keep x = true) -> List.filter keep l = l.
Proof.
  induction l as [|x l IH]; simpl; intros H; [reflexivity|].
  rewrite (H x (or_introl eq_refl)), IH; [reflexivity|].
  intros y Hy. apply H. now right.
Qed.

Lemma total_without_payment (cid : Z) (p : Payment.t) (l : list Payment.t) :
  NoDup (List.map Payment.id l) -> In p l -> Payment.contract_id p = cid ->
  Spec.total
    (List.map Payment.amount (List.filter (fun r => Payment.contract_id r =? cid) l))
  = FinanceService.or_ZERO (Payment.amount p)
    + Spec.total
        (List.map Payment.amount
           (List.filter (fun r => Payment.contract_id r =? cid)
              (List.filter (fun r => negb (Payment.id r =? Payment.id p)) l))).
Proof.
  intros Hnd Hin Hcid. rewrite or_ZERO_value.
  induction l as [|x l IH]; [contradiction|].
  cbn [List.map] in Hnd. inversion Hnd as [|? ? Hx Hl]; subst.
  destruct Hin as [->|Hin].
  - cbn [List.filter]. rewrite !Z.eqb_refl. cbn [negb List.map Spec.total].
    rewrite (filter_all (fun r => negb (Payment.id r =? Payment.id p)) l).
    + destruct (Payment.amount p) as [a|]; reflexivity.
    + intros y Hy. apply negb_true_iff, Z.eqb_neq. intros E. apply Hx.
      rewrite <- E. now apply List.in_map.
  - assert (Hne : Payment.id x <> Payment.id p).
    { intros E. apply Hx. rewrite E. now apply List.in_map. }
    cbn [List.filter]. apply Z.eqb_neq in Hne. rewrite Hne. cbn [negb].
    cbn [List.filter].
    destruct (Payment.contract_id x =? Payment.contract_id p);
      cbn [List.map Spec.total]; rewrite (IH Hl Hin);
      [destruct (Payment.amount x), (Payment.amount p); lia|reflexivity].
Qed.

Lemma magnitude_without {A : Type} (amount : A -> option Decimal)
  (f g : A -> bool) (l : list A) :
  Spec.magnitude (List.map amount (List.filter f (List.filter g l)))
  <= Spec.magnitude (List.map amount (List.filter f l)).
Proof.
  induction l as [|x l IH]; cbn [List.filter]; [reflexivity|].
  destruct (g x); cbn [List.filter]; destruct (f x);
    cbn [List.map Spec.magnitude]; try exact IH;
    destruct (amount x); lia.
Qed.

(** X22. When payment ids are unique and the amounts of the contract are
    within the precision of the decimal context, a granted payment delete
    lowers the paid total and the net amount received of the contract by the
    amount of the deleted payment (zero when it has none), leaves the refund
    total, the invoiced total, the quote and the amount still to invoice as
    they were, and so raises the remaining receivable by that amount. *)
Theorem delete_payment_lowers_paid_total (cid pid uid : Z) (db : Store)
  (c : Contract.t) (p : Payment.t) (sales : option SalesInfo.t) :
  List.find (fun r => Contract.id r =? cid) (contracts db) = Some c ->
  List.find
    (fun r => (Payment.id r =? pid) && (Payment.contract_id r =? Contract.id c))
    (payments db) = Some p ->
  NoDup (List.map Payment.id (payments db)) ->
  Spec.within_precision db c sales ->
  let amount := FinanceService.or_ZERO (Payment.amount p) in
  exists before after,
    FinanceService.get_contract_finance_summary db c sales = inr before
    /\ FinanceService.get_contract_finance_summary
         (snd (Flask.serve (Contracts.delete_payment cid pid) (Some uid) db))
         c sales = inr after
    /\ FinanceService.paid_total after = FinanceService.paid_total before - amount
    /\ FinanceService.net_received after
       = FinanceService.net_received before - amount
    /\ FinanceService.refund_total after = FinanceService.refund_total before
    /\ FinanceService.invoiced_total after = FinanceService.invoiced_total before
    /\ FinanceService.quote_amount after = FinanceService.quote_amount before
    /\ FinanceService.invoice_remaining after
       = FinanceService.invoice_remaining before
    /\ (forall q, FinanceService.receivable_remaining before = Some q ->
                  FinanceService.receivable_remaining after = Some (q + amount)).
Proof.
  intros Hc Hp Hnd Hsmall amount.
  destruct (delete_payment_run cid pid uid db c p Hc Hp) as [text Hrun].
  assert (Hin := List.find_some _ _ Hp). destruct Hin as [Hin Hkey].
  apply andb_true_iff in Hkey. destruct Hkey as [_ Hcid].
  apply Z.eqb_eq in Hcid.
  rewrite Hrun. cbn [snd].
  set (db' := with_operation_logs _ _).
  assert (Hpay : FinanceService.contract_payments db' c
                 = List.filter (fun r => Payment.contract_id r =? Contract.id c)
                     (List.filter (fun r => negb (Payment.id r =? Payment.id p))
                        (payments db))) by reflexivity.
  assert (Hsmall' : Spec.within_precision db' c sales).
  { unfold Spec.within_precision in *. rewrite Hpay.
    change (FinanceService.contract_refunds db' c)
      with (FinanceService.contract_refunds db c).
    change (FinanceService.contract_invoices db' c)
      with (FinanceService.contract_invoices db c).
    change (Spec.quote db' c sales) with (Spec.quote db c sales).
    assert (Hle := magnitude_without Payment.amount
                     (fun r => Payment.contract_id r =? Contract.id c)
                     (fun r => negb (Payment.id r =? Payment.id p)) (payments db)).
    unfold FinanceService.contract_payments in Hsmall.
    set (B := 10 ^ Dec.prec) in *. lia. }
  rewrite (summary_within_precision db c sales Hsmall),
    (summary_within_precision db' c sales Hsmall').
  cbv zeta. eexists _, _. split; [reflexivity|]. split; [reflexivity|].
  cbn [FinanceService.paid_total FinanceService.refund_total
       FinanceService.net_received FinanceService.invoiced_total
       FinanceService.quote_amount FinanceService.receivable_remaining
       FinanceService.invoice_remaining].
  rewrite Hpay.
  change (FinanceService.contract_refunds db' c)
    with (FinanceService.contract_refunds db c).
  change (FinanceService.contract_invoices db' c)
    with (FinanceService.contract_invoices db c).
  change (Spec.quote db' c sales) with (Spec.quote db c sales).
  unfold FinanceService.contract_payments.
  rewrite (total_without_payment (Contract.id c) p (payments db) Hnd Hin Hcid).
  fold amount.
  split; [lia|]. split; [lia|]. do 4 (split; [reflexivity|]).
  intros q. destruct (Spec.quote db c sales) as [x|]; cbn [option_map];
    [|discriminate].
  intros E. injection E as <-. f_equal. lia.
Qed.

(** Deleting the payment of 50.50 from the ledger of contract 1, which has
    two more payments, a refund and an invoice: 150.50 paid and 140.50
    received net before, 100.00 and 90.00 after; 859.50 receivable before,
    910.00 after. *)
Lemma delete_payment_lowers_paid_total_witness :
  Spec.within_precision Fixtures.db_ledger Sample.contract1 None
  /\ exists before after,
       FinanceService.get_contract_finance_summary Fixtures.db_ledger
         Sample.contract1 None = inr before
       /\ FinanceService.get_contract_finance_summary
            (snd (Flask.serve (Contracts.delete_payment 1 2) (Some 1)
                    Fixtures.db_ledger))
            Sample.contract1 None = inr after
       /\ before
          = FinanceService.mkSummary (Some 100000) 15050 1000 14050 12000
              (Some 85950) (Some 88000)
       /\ FinanceService.paid_total after
          = FinanceService.paid_total before - 5050
       /\ FinanceService.receivable_remaining after = Some (85950 + 5050).
Proof.
  assert (H : Spec.within_precision Fixtures.db_ledger Sample.contract1 None)
    by (vm_compute; reflexivity).
  split; [exact H|].
  destruct (delete_payment_lowers_paid_total 1 2 1 Fixtures.db_ledger
              Sample.contract1 (Payment.mk 2 1 (Some 5050) None) None
              eq_refl eq_refl)
    as (before & after & Hb & Ha & Hpaid & _ & _ & _ & _ & _ & Hrec).
  - simpl. repeat constructor; simpl; intuition discriminate.
  - exact H.
  - exists before, after. split; [exact Hb|]. split; [exact Ha|].
    assert (E : before
                = FinanceService.mkSummary (Some 100000) 15050 1000 14050 12000
                    (Some 85950) (Some 88000)).
    { assert (Hv : FinanceService.get_contract_finance_summary Fixtures.db_ledger
                     Sample.contract1 None
                   = inr (FinanceService.mkSummary (Some 100000) 15050 1000 14050
                            12000 (Some 85950) (Some 88000)))
        by (vm_compute; reflexivity).
      rewrite Hv in Hb. now injection Hb as <-. }
    split; [exact E|]. split; [exact Hpaid|].
    apply Hrec. rewrite E. reflexivity.
Defined.

(** ** Record services *)

(** X23. The task-delete service leaves commit and log to the caller:
    whatever the world, the committed store, the log of the session and the
    flashed messages are as before.  It returns exactly when the session
    holds a task with the id asked for that belongs to the contract; the row
    it returns is such a row, and no task with that id is left in the
    session.  When it raises, it raises the 404 error and the world is as
    before. *)
Theorem delete_task_service_leaves_commit_to_caller (contract : Contract.t)
  (id_ : Z) (w : Flask.World) :
  let r := TaskService.delete_task contract id_ w in
  Flask.committed (snd r) = Flask.committed w
  /\ operation_logs (Flask.working (snd r)) = operation_logs (Flask.working w)
  /\ Flask.flashes (snd r) = Flask.flashes w
  /\ (forall t, fst r = Flask.Returned t ->
        In t (tasks (Flask.working w))
        /\ Task.id t = id_ /\ Task.contract_id t = Contract.id contract
        /\ forall x, In x (tasks (Flask.working (snd r))) -> Task.id x <> id_)
  /\ ((exists x, In x (tasks (Flask.working w))
                 /\ Task.id x = id_ /\ Task.contract_id x = Contract.id contract) ->
      exists t, fst r = Flask.Returned t)
  /\ (forall e, fst r = Flask.Raised e -> e = Json.NotFound /\ snd r = w).
Proof.
  cbv zeta.
  unfold TaskService.delete_task, Flask.session_delete_task.
  unfold_view.
  destruct (List.find _ (tasks (Flask.working w))) as [p|] eqn:E;
    cbn [fst snd Flask.committed Flask.working Flask.flashes with_tasks
         operation_logs tasks].
  - assert (E' := E). apply List.find_some in E'. destruct E' as [Hin Hk].
    apply andb_true_iff in Hk. destruct Hk as [H1 H2].
    apply Z.eqb_eq in H1. apply Z.eqb_eq in H2.
    do 3 (split; [reflexivity|]). split; [|split].
    + intros t Ht. injection Ht as <-. repeat split; try assumption.
      intros x Hx. apply filter_out_spec in Hx. congruence.
    + intros _. eexists. reflexivity.
    + intros e He. discriminate He.
  - do 3 (split; [reflexivity|]). split; [|split].
    + intros t Ht. discriminate Ht.
    + intros (x & Hx & Hid & Hcid). exfalso.
      assert (Hf := List.find_none _ _ E x Hx). cbv beta in Hf.
      rewrite Hid, Hcid, !Z.eqb_refl in Hf. discriminate Hf.
    + intros e He. injection He as <-. split; reflexivity.
Qed.

Lemma delete_task_service_leaves_commit_to_caller_witness :
  let w := Flask.mkWorld Sample.db Sample.db (Some 1) [] in
  fst (TaskService.delete_task Sample.contract1 5 w) = Flask.Returned Sample.task5
  /\ tasks (Flask.working (snd (TaskService.delete_task Sample.contract1 5 w))) = []
  /\ Flask.committed (snd (TaskService.delete_task Sample.contract1 5 w))
     = Sample.db
  /\ forall x,
       In x (tasks (Flask.working
                      (snd (TaskService.delete_task Sample.contract1 5 w)))) ->
       Task.id x <> 5.
Proof.
  cbv zeta.
  destruct (delete_task_service_leaves_commit_to_caller Sample.contract1 5
              (Flask.mkWorld Sample.db Sample.db (Some 1) []))
    as (Hc & _ & _ & Hret & _ & _).
  split; [reflexivity|]. split; [reflexivity|]. split; [exact Hc|].
  exact (proj2 (proj2 (proj2 (Hret Sample.task5 eq_refl)))).
Defined.
